(** * SecureView dashboard client: a shallow embedding of [App.jsx]

    The repository holds two variants of one single-page client:
    - variant 1, the camera-monitoring dashboard (tabs live / recordings /
      alerts / services / account, with the camera form and the admin
      side panel);
    - variant 2, the shop (tabs shop / cart / services / account / admin).

    Both share [useAuth], [AuthScreen] and [App].  The development models
    - JavaScript numbers as binary64 floats ([PrimFloat.float]), with
      [Number.prototype.toFixed], [Number::toString] and the conversion of
      a decimal literal to a Number written out on exact integers;
    - [JSON.stringify] and [JSON.parse] on strings of code units below
      256; the texts of valid JSON that name a code unit above 255 in a
      u-escape are recognised ([JSON.beyond]) and kept out of the model:
      no response body holds one, and a storage entry that holds one ends
      the run as not modelled;
    - [localStorage] as a finite map from keys to strings;
    - [fetch], [alert] and the storage as an explicit world threaded
      through every handler;
    - rendering as a function from component state to a small element tree.

    Quantities of cart lines are integer-valued Numbers; they are kept as
    [Z], and their sums are rounded as binary64 rounds them
    ([Number.int_add]).  Prices are binary64 floats. *)

From Stdlib Require Import ZArith Floats Ascii String List Lia Bool.
From stdpp Require Import base option list strings gmap.

Local Open Scope string_scope.
Local Open Scope Z_scope.

(** ** Characters and digit strings *)

Module Chars.

Definition code (c : ascii) : Z := Z.of_nat (nat_of_ascii c).

Definition of_code (n : Z) : ascii := ascii_of_nat (Z.to_nat n).

Definition is_digit (c : ascii) : bool := (48 <=? code c) && (code c <=? 57).

Definition digit_val (c : ascii) : Z := code c - 48.

Definition digit_char (d : Z) : ascii := of_code (48 + d).

(** Value of a string of decimal digits, most significant first. *)
Fixpoint digits_value_from (acc : Z) (s : string) : Z :=
  match s with
  | EmptyString => acc
  | String c s' => digits_value_from (10 * acc + digit_val c) s'
  end.

Definition digits_value (s : string) : Z := digits_value_from 0 s.

Fixpoint all_digits (s : string) : bool :=
  match s with
  | EmptyString => true
  | String c s' => is_digit c && all_digits s'
  end.

(** Longest prefix of decimal digits, and what follows it. *)
Fixpoint span_digits (s : string) : string * string :=
  match s with
  | EmptyString => (EmptyString, EmptyString)
  | String c s' =>
      if is_digit c
      then let '(d, r) := span_digits s' in (String c d, r)
      else (EmptyString, s)
  end.

Fixpoint digits_go (fuel : nat) (n : Z) (acc : string) : string :=
  match fuel with
  | O => acc
  | S f =>
      let acc' := String (digit_char (n mod 10)) acc in
      if n <? 10 then acc' else digits_go f (n / 10) acc'
  end.

(** The decimal digits of a non-negative integer; ["0"] for zero. *)
Definition digits_of (n : Z) : string :=
  digits_go (S (Z.to_nat (Z.log2 n))) n EmptyString.

Fixpoint zeros (n : nat) : string :=
  match n with
  | O => EmptyString
  | S k => String "0" (zeros k)
  end.

Fixpoint take (n : nat) (s : string) : string :=
  match n, s with
  | S k, String c s' => String c (take k s')
  | _, _ => EmptyString
  end.

Fixpoint drop (n : nat) (s : string) : string :=
  match n, s with
  | S k, String _ s' => drop k s'
  | _, _ => s
  end.

End Chars.

(** ** JavaScript Numbers

    A Number is an IEEE 754 binary64 value.  The arithmetic operators are
    the primitive ones of [PrimFloat]; conversions from and to decimal text
    are computed on the exact value [m * 2^e] that [Prim2SF] exposes. *)

Module Number.
Import Chars.

Definition prec : Z := 53.
Definition emax : Z := 1024.

(** *** Decimal text to Number *)

(** The Number value of the real [(-1)^neg * m * 10^e]: the nearest
    binary64 value, ties to even, overflowing to an infinity. *)
Definition decimal_to_SF (neg : bool) (m e : Z) : spec_float :=
  match m with
  | Zpos p =>
      let num := Z.to_pos (Zpos p * 10 ^ Z.max e 0) in
      let den := Z.to_pos (10 ^ Z.max (- e) 0) in
      SFdiv prec emax (S754_finite neg num 0) (S754_finite false den 0)
  | _ => S754_zero neg
  end.

Definition of_decimal (neg : bool) (m e : Z) : float :=
  SF2Prim (decimal_to_SF neg m e).

(** The parts of a decimal literal [sign int . frac e expsign exp]. *)
Record Literal := {
  lit_sign : option bool;            (* [Some true] is a minus sign *)
  lit_int : string;
  lit_frac : option string;
  lit_exp : option (option bool * string)
}.

Definition scan_sign (s : string) : option bool * string :=
  match s with
  | String "-" r => (Some true, r)
  | String "+" r => (Some false, r)
  | _ => (None, s)
  end.

Definition scan_literal (s : string) : Literal * string :=
  let '(sg, s1) := scan_sign s in
  let '(ip, s2) := span_digits s1 in
  let '(fp, s3) :=
    match s2 with
    | String "." r => let '(d, r') := span_digits r in (Some d, r')
    | _ => (None, s2)
    end in
  let '(ep, s4) :=
    match s3 with
    | String c r =>
        if (Ascii.eqb c "e" || Ascii.eqb c "E")%bool
        then let '(esg, r1) := scan_sign r in
             let '(d, r2) := span_digits r1 in (Some (esg, d), r2)
        else (None, s3)
    | EmptyString => (None, s3)
    end in
  ({| lit_sign := sg; lit_int := ip; lit_frac := fp; lit_exp := ep |}, s4).

Definition is_neg (sg : option bool) : bool :=
  match sg with Some true => true | _ => false end.

Definition literal_exponent (l : Literal) : Z :=
  match lit_exp l with
  | Some (sg, d) => if is_neg sg then - digits_value d else digits_value d
  | None => 0
  end.

(** The Number a scanned literal denotes (its mathematical value,
    rounded once). *)
Definition literal_value (l : Literal) : float :=
  let fr := match lit_frac l with Some d => d | None => EmptyString end in
  of_decimal (is_neg (lit_sign l))
    (digits_value (lit_int l +:+ fr))
    (literal_exponent l - Z.of_nat (String.length fr)).

Definition nonempty (s : string) : bool :=
  match s with EmptyString => false | _ => true end.

(** StrDecimalLiteral: digits with an optional fraction, or a fraction
    alone, each with an optional exponent part. *)
Definition str_decimal_ok (l : Literal) : bool :=
  (match lit_frac l with
   | Some d => nonempty (lit_int l) || nonempty d
   | None => nonempty (lit_int l)
   end)
  && (match lit_exp l with Some (_, d) => nonempty d | None => true end).

Fixpoint strip_prefix (p s : string) : option string :=
  match p, s with
  | EmptyString, _ => Some s
  | String a p', String b s' => if Ascii.eqb a b then strip_prefix p' s' else None
  | _, _ => None
  end.

Definition strip_infinity (s : string) : option string :=
  strip_prefix "Infinity" s.

(** [StringToNumber] on the texts this program applies unary plus to:
    the empty string, a signed [Infinity] and signed decimal literals.
    Any other text (surrounding white space and the 0x, 0o and 0b
    literals included, which [toFixed] never produces) is read as NaN. *)
Definition StringToNumber (s : string) : float :=
  match s with
  | EmptyString => 0%float
  | _ =>
      let '(sg, r) := scan_sign s in
      if String.eqb r "Infinity"
      then (if is_neg sg then neg_infinity else infinity)
      else
        let '(l, rest) := scan_literal s in
        if str_decimal_ok l && negb (nonempty rest)
        then literal_value l else nan
  end.

(** The JSON number grammar: an optional minus sign; an integer part
    that is a single 0 or starts with a non-zero digit; an optional
    fraction with at least one digit; an optional exponent with an
    optional sign and at least one digit. *)
Definition json_number_ok (l : Literal) : bool :=
  (match lit_sign l with Some false => false | _ => true end)
  && (match lit_int l with
      | EmptyString => false
      | String "0" r => negb (nonempty r)
      | _ => true
      end)
  && (match lit_frac l with Some d => nonempty d | None => true end)
  && (match lit_exp l with Some (_, d) => nonempty d | None => true end).

Definition JSON_number (tok : string) : option float :=
  let '(l, rest) := scan_literal tok in
  if json_number_ok l && negb (nonempty rest)
  then Some (literal_value l) else None.

(** *** Exact values *)

(** The positive rational [m * 2^e] as a fraction of integers. *)
Definition fraction (m : positive) (e : Z) : Z * Z :=
  if 0 <=? e then (Zpos m * 2 ^ e, 1) else (Zpos m, 2 ^ (- e)).

(** [num / den < 10^n] *)
Definition below_pow10 (num den n : Z) : bool :=
  if 0 <=? n then num <? 10 ^ n * den else num * 10 ^ (- n) <? den.

(** [floor (num / (den * 10^p))] and the remainder data
    [(quotient, remainder, divisor)]. *)
Definition scaled_div (num den p : Z) : Z * Z * Z :=
  let '(a, b) := if 0 <=? p then (num, den * 10 ^ p)
                 else (num * 10 ^ (- p), den) in
  (a / b, a mod b, b).

(** *** Number.prototype.toFixed *)

(** The integer [n] for which [n / 10^f - x] is as close to zero as
    possible, the larger one when there are two, for [x = m * 2^e]. *)
Definition nearest_scaled (f : nat) (m : positive) (e : Z) : Z :=
  let '(num, den) := fraction m e in
  (2 * num * 10 ^ Z.of_nat f + den) / (2 * den).

Definition fixed_digits (f : nat) (n : Z) : string :=
  let m := digits_of n in
  match f with
  | O => m
  | _ =>
      let k := String.length m in
      let m' := if (k <=? f)%nat then zeros (f + 1 - k) +:+ m else m in
      let k' := String.length m' in
      take (k' - f) m' +:+ "." +:+ drop (k' - f) m'
  end.

Definition at_least_1e21 (m : positive) (e : Z) : bool :=
  let '(num, den) := fraction m e in 10 ^ 21 * den <=? num.

(** *** Number::toString *)

Definition SF_eqb (a b : spec_float) : bool :=
  match a, b with
  | S754_zero s, S754_zero t => Bool.eqb s t
  | S754_infinity s, S754_infinity t => Bool.eqb s t
  | S754_nan, S754_nan => true
  | S754_finite s m e, S754_finite t n f =>
      Bool.eqb s t && Pos.eqb m n && Z.eqb e f
  | _, _ => false
  end.

(** The decimal position [n] of [v = num / den > 0], that is
    [10^(n-1) <= v < 10^n], searched upwards from the smallest binary64
    magnitude. *)
Fixpoint position_from (fuel : nat) (num den n : Z) : Z :=
  match fuel with
  | O => n
  | S f =>
      if below_pow10 num den n then n
      else position_from f num den (n + 1)
  end.

Definition position (num den : Z) : Z := position_from 640 num den (-324).

(** With [k] digits: the two [k]-digit decimals around [v], kept when
    they denote the Number [x]; of two that do, the closer one, and the
    even one on a tie. *)
Definition digits_at (x : spec_float) (num den n k : Z) : option (Z * Z) :=
  let p := n - k in
  let '(lo, r, d) := scaled_div num den p in
  let hi := lo + 1 in
  let ok_lo := SF_eqb (decimal_to_SF false lo p) x in
  let ok_hi := SF_eqb (decimal_to_SF false hi p) x in
  let pick_hi :=
    if ok_lo && ok_hi then (d <? 2 * r) || ((d =? 2 * r) && Z.even hi)
    else ok_hi in
  if ok_lo || ok_hi then
    Some (if pick_hi
          then (if hi =? 10 ^ k then (10 ^ (k - 1), n + 1) else (hi, n))
          else (lo, n))
  else None.

Fixpoint shortest_from (fuel : nat) (x : spec_float) (num den n k : Z)
  : Z * Z * Z :=
  match fuel with
  | O => let '(lo, _, _) := scaled_div num den (n - k) in (lo, n, k)
  | S f =>
      match digits_at x num den n k with
      | Some (s, n') => (s, n', k)
      | None => shortest_from f x num den n (k + 1)
      end
  end.

(** The integers [s], [n], [k] of Number::toString: [k] is as small as
    possible with [s * 10^(n-k)] denoting the Number.  Seventeen digits
    always suffice for a binary64 value. *)
Definition shortest (m : positive) (e : Z) : Z * Z * Z :=
  let '(num, den) := fraction m e in
  shortest_from 17 (S754_finite false m e) num den (position num den) 1.

Definition exponent_text (n : Z) : string :=
  let e := n - 1 in
  (if e <? 0 then "-" else "+") +:+ digits_of (Z.abs e).

Definition format_shortest (s n k : Z) : string :=
  let d := digits_of s in
  if (k <=? n) && (n <=? 21) then d +:+ zeros (Z.to_nat (n - k))
  else if (0 <? n) && (n <=? 21)
  then take (Z.to_nat n) d +:+ "." +:+ drop (Z.to_nat n) d
  else if (-6 <? n) && (n <=? 0)
  then "0." +:+ zeros (Z.to_nat (- n)) +:+ d
  else if k =? 1 then d +:+ "e" +:+ exponent_text n
  else take 1 d +:+ "." +:+ drop 1 d +:+ "e" +:+ exponent_text n.

(** The sign prefix of a printed Number and the sign a scan reports. *)
Definition sign_text (neg : bool) : string := if neg then "-" else EmptyString.

Definition sign_of (neg : bool) : option bool :=
  if neg then Some true else None.

Definition SF_toString (x : spec_float) : string :=
  match x with
  | S754_nan => "NaN"
  | S754_zero _ => "0"
  | S754_infinity s => if s then "-Infinity" else "Infinity"
  | S754_finite s m e =>
      let '(d, n, k) := shortest m e in
      sign_text s +:+ format_shortest d n k
  end.

Definition Number_toString (x : float) : string := SF_toString (Prim2SF x).

(** [x.toFixed(f)] for [0 <= f <= 100]. *)
Definition toFixed (f : nat) (x : float) : string :=
  match Prim2SF x with
  | S754_finite s m e =>
      sign_text s +:+
      (if at_least_1e21 m e then SF_toString (S754_finite false m e)
       else fixed_digits f (nearest_scaled f m e))
  | S754_zero _ => fixed_digits f 0
  | sf => SF_toString sf
  end.

(** The Number value of an integer (exact below [2^53]). *)
Definition of_Z (z : Z) : float :=
  SF2Prim (binary_normalize prec emax z 0 false).

(** The integer that the Number nearest to the integer [z] holds: [z]
    itself up to [2^53] in magnitude; above, where the Numbers are [2^e]
    apart, the nearest multiple of [2^e], a tie going to the even
    significand.  Past the largest finite Number the result stands for an
    infinity, which is what [of_Z] makes of it. *)
Definition round_int (z : Z) : Z :=
  let a := Z.abs z in
  if a <=? 2 ^ 53 then z
  else
    let e := Z.log2 a - 52 in
    let m := a / 2 ^ e in
    let r := a mod 2 ^ e in
    let half := 2 ^ (e - 1) in
    let up := (half <? r) || ((r =? half) && Z.odd m) in
    Z.sgn z * ((if up then m + 1 else m) * 2 ^ e).

(** [a + b] on Numbers that hold integers: the exact sum of the two
    Numbers, rounded to a Number. *)
Definition int_add (a b : Z) : Z := round_int (round_int a + round_int b).

(** The numeric literal [0.07]: the binary64 value nearest to 7/100. *)
Definition lit_0_07 : float := 0x1.1eb851eb851ecp-4%float.

End Number.

(** ** The cart of variant 2

    A cart line as [addToCart] builds it:
    [{ product_id, name, price, qty, image }]. *)

Record CartItem := {
  product_id : string;
  name : string;
  price : float;
  qty : Z;
  image : option string
}.

Module CartView.
Import Number.

(** [i.price * i.qty] *)
Definition line_total (i : CartItem) : float :=
  (price i * of_Z (qty i))%float.

(** [items.reduce((s,i)=> s + i.price * i.qty, 0)] *)
Definition subtotal (items : list CartItem) : float :=
  fold_left (fun s i => (s + line_total i)%float) items 0%float.

(** [+(subtotal * 0.07).toFixed(2)] *)
Definition tax (items : list CartItem) : float :=
  StringToNumber (toFixed 2 (subtotal items * lit_0_07)).

(** [+(subtotal + tax).toFixed(2)] *)
Definition total (items : list CartItem) : float :=
  StringToNumber (toFixed 2 (subtotal items + tax items)).

(** The three amounts as the order summary prints them,
    [subtotal.toFixed(2)], [tax.toFixed(2)], [total.toFixed(2)]. *)
Definition summary_text (items : list CartItem) : string * string * string :=
  (toFixed 2 (subtotal items), toFixed 2 (tax items), toFixed 2 (total items)).

(** The cart of the specification's example. *)
Definition example_cart : list CartItem :=
  [ {| product_id := "p1"; name := "Camera"; price := 10; qty := 2;
       image := None |};
    {| product_id := "p2"; name := "Cable"; price := 5; qty := 1;
       image := None |} ].

End CartView.

(** ** The pricing rules in the words of the specification *)

Module PricingSpec.
Import Number.

(** [Σ_{k < n} term k], summed in index order. *)
Fixpoint sigma (n : nat) (term : nat -> float) : float :=
  match n with
  | O => 0%float
  | S k => (sigma k term + term k)%float
  end.

(** [price·qty] of the line at index [k]. *)
Definition line_at (items : list CartItem) (k : nat) : float :=
  match items !! k with
  | Some i => (price i * of_Z (qty i))%float
  | None => 0%float
  end.

(** [n / 10^f] is as close to [m * 2^e] as any [k / 10^f]. *)
Definition closest_scaled (f : nat) (m : positive) (e : Z) (n : Z) : Prop :=
  let '(num, den) := fraction m e in
  forall k : Z,
    Z.abs (n * den - num * 10 ^ Z.of_nat f)
    <= Z.abs (k * den - num * 10 ^ Z.of_nat f).

(** "[x] rounded to [f] decimal places is [y]".  For a finite non-zero
    [x] of magnitude [m * 2^e] below [10^21], [y] is the Number of the
    decimal [n / 10^f] with the sign of [x], for an integer [n] as close
    to [m * 2^e * 10^f] as any.  From [10^21] on a binary64 value is an
    integer and is only printed and read back; zeros give [0] and NaN
    and the infinities are kept. *)
Definition rounded_to (f : nat) (x y : float) : Prop :=
  match Prim2SF x with
  | S754_finite s m e =>
      if at_least_1e21 m e
      then y = StringToNumber (Number_toString x)
      else exists n : Z,
          0 <= n /\ closest_scaled f m e n
          /\ y = of_decimal s n (- Z.of_nat f)
  | S754_zero _ => y = 0%float
  | sf => Prim2SF y = sf
  end.

End PricingSpec.

(** ** JavaScript values

    The values that reach this program: what [JSON.parse] builds, and
    [undefined] (a missing property).  A string is a sequence of code
    units, here restricted to the 8-bit range of [ascii].  An object is
    its list of own properties in enumeration order; the engine's special
    ordering of integer-like keys is not modelled. *)

#[local] Unset Elimination Schemes.
Inductive JSValue :=
| JUndefined
| JNull
| JBool (b : bool)
| JNum (x : float)
| JStr (s : string)
| JArr (items : list JSValue)
| JObj (fields : list (string * JSValue)).
#[local] Set Elimination Schemes.

Module JS.
Import Chars Number.

Fixpoint assoc (k : string) (fields : list (string * JSValue)) : option JSValue :=
  match fields with
  | [] => None
  | (k', v) :: rest => if String.eqb k k' then Some v else assoc k rest
  end.

(** [v.k].  Reading a property of [undefined] or [null] is a TypeError
    ([None]); a missing property reads as [undefined]. *)
Definition prop (k : string) (v : JSValue) : option JSValue :=
  match v with
  | JUndefined | JNull => None
  | JObj fields => Some (default JUndefined (assoc k fields))
  | JArr items =>
      Some (if String.eqb k "length"
            then JNum (of_Z (Z.of_nat (length items))) else JUndefined)
  | JStr s =>
      Some (if String.eqb k "length"
            then JNum (of_Z (Z.of_nat (String.length s))) else JUndefined)
  | _ => Some JUndefined
  end.

(** [v?.k] *)
Definition opt_prop (k : string) (v : JSValue) : JSValue :=
  match prop k v with Some r => r | None => JUndefined end.

(** ToBoolean *)
Definition truthy (v : JSValue) : bool :=
  match v with
  | JUndefined | JNull => false
  | JBool b => b
  | JNum x => negb (is_nan x || is_zero x)
  | JStr s => nonempty s
  | JArr _ | JObj _ => true
  end.

(** [v === 'lit'] for a string literal *)
Definition is_string (lit : string) (v : JSValue) : bool :=
  match v with JStr s => String.eqb s lit | _ => false end.

Fixpoint join (sep : string) (parts : list string) : string :=
  match parts with
  | [] => EmptyString
  | [p] => p
  | p :: rest => p +:+ sep +:+ join sep rest
  end.

(** ToString, as [localStorage.setItem] and template literals apply it. *)
Fixpoint ToString (v : JSValue) : string :=
  match v with
  | JUndefined => "undefined"
  | JNull => "null"
  | JBool b => if b then "true" else "false"
  | JNum x => Number_toString x
  | JStr s => s
  | JArr items =>
      join ","
        (map (fun e => match e with
                       | JUndefined | JNull => EmptyString
                       | _ => ToString e
                       end) items)
  | JObj _ => "[object Object]"
  end.

End JS.

(** ** JSON *)

Module JSON.
Import Chars Number JS.

(** *** JSON.stringify *)

Definition hex_digit (d : Z) : ascii :=
  if d <? 10 then of_code (48 + d) else of_code (87 + d).

(** The double quote, code unit 34. *)
Definition quote_char : ascii := of_code 34.

Definition quote_mark : string := String quote_char EmptyString.

(** The escape of one code unit in QuoteJSONString: a two-character
    escape for backspace, tab, line feed, form feed, carriage return, the
    double quote and the backslash; a u-escape for the other control
    characters; the code unit itself otherwise. *)
Definition escape_char (c : ascii) : string :=
  let n := code c in
  if n =? 8 then "\b"
  else if n =? 9 then "\t"
  else if n =? 10 then "\n"
  else if n =? 12 then "\f"
  else if n =? 13 then "\r"
  else if n =? 34 then String "\" quote_mark
  else if n =? 92 then "\\"
  else if n <? 32
  then "\u00" +:+ String (hex_digit (n / 16)) (String (hex_digit (n mod 16)) EmptyString)
  else String c EmptyString.

Fixpoint escape (s : string) : string :=
  match s with
  | EmptyString => EmptyString
  | String c r => escape_char c +:+ escape r
  end.

Definition QuoteJSONString (s : string) : string :=
  quote_mark +:+ escape s +:+ quote_mark.

Definition number_text (x : float) : string :=
  if is_finite x then Number_toString x else "null".

(** [JSON.stringify(v)] without indentation; [None] is the [undefined]
    it returns for [undefined].  Inside an array [undefined] is written
    [null]; a property whose value is [undefined] is left out. *)
Fixpoint stringify (v : JSValue) : option string :=
  match v with
  | JUndefined => None
  | JNull => Some "null"
  | JBool b => Some (if b then "true" else "false")
  | JNum x => Some (number_text x)
  | JStr s => Some (QuoteJSONString s)
  | JArr items =>
      Some ("[" +:+ join "," (map (fun e => default "null" (stringify e)) items)
            +:+ "]")
  | JObj fields =>
      Some ("{" +:+ join ","
                   (omap (fun kv => match stringify (snd kv) with
                                    | Some t => Some (QuoteJSONString (fst kv) +:+ ":" +:+ t)
                                    | None => None
                                    end) fields)
            +:+ "}")
  end.

(** *** JSON.parse *)

Definition is_ws (c : ascii) : bool :=
  let n := code c in (n =? 32) || (n =? 9) || (n =? 10) || (n =? 13).

Fixpoint skip_ws (s : string) : string :=
  match s with
  | String c r => if is_ws c then skip_ws r else s
  | EmptyString => s
  end.

Definition hex_val (c : ascii) : option Z :=
  let n := code c in
  if (48 <=? n) && (n <=? 57) then Some (n - 48)
  else if (97 <=? n) && (n <=? 102) then Some (n - 87)
  else if (65 <=? n) && (n <=? 70) then Some (n - 55)
  else None.

(** The code unit of a u-escape with four hexadecimal digits.  A string
    of the model has no code unit above [0xFF]: for such an escape there is
    nothing to return, the text is not read, and [beyond] below tells it
    from a malformed text. *)
Definition hex4 (h1 h2 h3 h4 : ascii) : option ascii :=
  a ← hex_val h1; b ← hex_val h2; c ← hex_val h3; d ← hex_val h4;
  let n := 4096 * a + 256 * b + 16 * c + d in
  if n <? 256 then Some (of_code n) else None.

(** The code unit of a two-character escape: the double quote, the
    backslash and the solidus stand for themselves; b, f, n, r and t for
    the control characters. *)
Definition simple_escape (e : ascii) : option ascii :=
  let n := code e in
  if n =? 34 then Some e
  else if n =? 92 then Some e
  else if n =? 47 then Some e
  else if n =? 98 then Some (of_code 8)
  else if n =? 102 then Some (of_code 12)
  else if n =? 110 then Some (of_code 10)
  else if n =? 114 then Some (of_code 13)
  else if n =? 116 then Some (of_code 9)
  else None.

Definition cons_char (c : ascii) (r : option (string * string))
  : option (string * string) :=
  match r with Some (s, rest) => Some (String c s, rest) | None => None end.

(** The characters of a string literal after its opening quote, up to
    and including the closing quote. *)
Fixpoint parse_string_body (s : string) : option (string * string) :=
  match s with
  | EmptyString => None
  | String c r =>
      if code c =? 34 then Some (EmptyString, r)
      else if code c =? 92 then
        match r with
        | String e r1 =>
            match simple_escape e with
            | Some c' => cons_char c' (parse_string_body r1)
            | None =>
                if code e =? 117 then
                  match r1 with
                  | String h1 (String h2 (String h3 (String h4 r2))) =>
                      match hex4 h1 h2 h3 h4 with
                      | Some c' => cons_char c' (parse_string_body r2)
                      | None => None
                      end
                  | _ => None
                  end
                else None
            end
        | EmptyString => None
        end
      else if code c <? 32 then None
      else cons_char c (parse_string_body r)
  end.

Definition num_char (c : ascii) : bool :=
  let n := code c in
  is_digit c || (n =? 43) || (n =? 45) || (n =? 46) || (n =? 101) || (n =? 69).

(** The longest run of number characters (digits, signs, the point and
    the exponent marks), and what follows it. *)
Fixpoint span_number (s : string) : string * string :=
  match s with
  | EmptyString => (EmptyString, EmptyString)
  | String c r =>
      if num_char c
      then let '(t, r') := span_number r in (String c t, r')
      else (EmptyString, s)
  end.

Definition keyword (word : string) (v : JSValue) (s : string)
  : option (JSValue * string) :=
  match strip_prefix word s with Some r => Some (v, r) | None => None end.

Definition number_token (s : string) : option (JSValue * string) :=
  let '(tok, r) := span_number s in
  match JSON_number tok with Some x => Some (JNum x, r) | None => None end.

(** The array index a property key names: the decimal digits, without a
    leading zero, of an integer below 2^32 - 1. *)
Definition array_index (k : string) : option Z :=
  match k with
  | EmptyString => None
  | String c r =>
      if all_digits k
         && (negb (Ascii.eqb c "0")
             || match r with EmptyString => true | String _ _ => false end)
      then if digits_value k <? 4294967295 then Some (digits_value k) else None
      else None
  end.

(** The order in which an object lists its own keys: array indices first,
    ascending, then the other keys in the order of their creation.  A new
    key [k] goes before an existing key [k'] when [k] is an array index and
    [k'] is a greater one or none. *)
Definition key_before (k k' : string) : bool :=
  match array_index k, array_index k' with
  | Some n, Some n' => n <? n'
  | Some _, None => true
  | None, _ => false
  end.

(** CreateDataProperty on the object being read: a repeated key keeps its
    place and takes the later value, a new key takes its place in the
    order of own keys. *)
Fixpoint obj_set (k : string) (v : JSValue) (fields : list (string * JSValue))
  : list (string * JSValue) :=
  match fields with
  | [] => [(k, v)]
  | (k', v') :: rest =>
      if String.eqb k k' then (k, v) :: rest
      else if key_before k k' then (k, v) :: (k', v') :: rest
      else (k', v') :: obj_set k v rest
  end.

Definition build_object (members : list (string * JSValue))
  : list (string * JSValue) :=
  fold_left (fun acc kv => obj_set (fst kv) (snd kv) acc) members [].

Definition cons_result {A : Type} (a : A) (r : option (list A * string))
  : option (list A * string) :=
  match r with Some (l, rest) => Some (a :: l, rest) | None => None end.

(** Recursive descent on the JSON grammar.  Every call consumes one unit
    of fuel; [JSON_parse] provides more than the text can use. *)
Fixpoint parse_value (fuel : nat) (s : string) : option (JSValue * string) :=
  match fuel with
  | O => None
  | S f =>
      match skip_ws s with
      | EmptyString => None
      | String c r =>
          if Ascii.eqb c "n" then keyword "null" JNull (String c r)
          else if Ascii.eqb c "t" then keyword "true" (JBool true) (String c r)
          else if Ascii.eqb c "f" then keyword "false" (JBool false) (String c r)
          else if Ascii.eqb c quote_char then
            match parse_string_body r with
            | Some (str, r') => Some (JStr str, r')
            | None => None
            end
          else if Ascii.eqb c "[" then
            match skip_ws r with
            | EmptyString => None
            | String c' r' =>
                if Ascii.eqb c' "]" then Some (JArr [], r')
                else match parse_elements f r with
                     | Some (l, r'') => Some (JArr l, r'')
                     | None => None
                     end
            end
          else if Ascii.eqb c "{" then
            match skip_ws r with
            | EmptyString => None
            | String c' r' =>
                if Ascii.eqb c' "}" then Some (JObj [], r')
                else match parse_members f r with
                     | Some (l, r'') => Some (JObj (build_object l), r'')
                     | None => None
                     end
            end
          else number_token (String c r)
      end
  end
with parse_elements (fuel : nat) (s : string) : option (list JSValue * string) :=
  match fuel with
  | O => None
  | S f =>
      match parse_value f s with
      | None => None
      | Some (v, r) =>
          match skip_ws r with
          | EmptyString => None
          | String c r' =>
              if Ascii.eqb c "," then cons_result v (parse_elements f r')
              else if Ascii.eqb c "]" then Some ([v], r')
              else None
          end
      end
  end
with parse_members (fuel : nat) (s : string)
  : option (list (string * JSValue) * string) :=
  match fuel with
  | O => None
  | S f =>
      match skip_ws s with
      | EmptyString => None
      | String c r =>
          if Ascii.eqb c quote_char then
            match parse_string_body r with
            | None => None
            | Some (k, r1) =>
                match skip_ws r1 with
                | EmptyString => None
                | String c1 r2 =>
                    if Ascii.eqb c1 ":" then
                      match parse_value f r2 with
                      | None => None
                      | Some (v, r3) =>
                          match skip_ws r3 with
                          | EmptyString => None
                          | String c3 r4 =>
                              if Ascii.eqb c3 ","
                              then cons_result (k, v) (parse_members f r4)
                              else if Ascii.eqb c3 "}" then Some ([(k, v)], r4)
                              else None
                          end
                      end
                    else None
                end
            end
          else None
      end
  end.

(** [JSON.parse(s)] where the model reads the text.  [None] is the
    SyntaxError it throws, unless the text is [beyond] the model. *)
Definition parse (s : string) : option JSValue :=
  match parse_value (S (String.length s)) s with
  | Some (v, r) =>
      match skip_ws r with EmptyString => Some v | _ => None end
  | None => None
  end.

(** *** The reach of the model *)

(** Four hexadecimal digits that name a code unit above [0xFF]. *)
Definition wide_escape (h1 h2 h3 h4 : ascii) : bool :=
  match hex_val h1, hex_val h2, hex_val h3, hex_val h4 with
  | Some a, Some b, Some c, Some d => 256 <=? 4096 * a + 256 * b + 16 * c + d
  | _, _, _, _ => false
  end.

(** The text with every u-escape above [0xFF] of a string literal
    replaced by the u-escape of the question mark.  The scan follows the
    string literals as the grammar delimits them: a double quote opens and
    closes one, and inside one a backslash takes the next character, or
    the next five for a u-escape, with it.  Nothing else changes, so the
    result is JSON exactly when the text is. *)
Fixpoint narrowed (inside : bool) (s : string) {struct s} : string :=
  match s with
  | EmptyString => EmptyString
  | String c r =>
      if negb inside then String c (narrowed (Ascii.eqb c quote_char) r)
      else if Ascii.eqb c quote_char then String c (narrowed false r)
      else if code c =? 92 then
        match r with
        | EmptyString => String c EmptyString
        | String e r1 =>
            if code e =? 117 then
              match r1 with
              | String h1 (String h2 (String h3 (String h4 r2))) =>
                  if wide_escape h1 h2 h3 h4
                  then String c (String e ("003F" +:+ narrowed true r2))
                  else String c (String e (String h1 (String h2 (String h3
                         (String h4 (narrowed true r2))))))
              | _ => String c (String e (narrowed true r1))
              end
            else String c (String e (narrowed true r1))
        end
      else String c (narrowed true r)
  end.

(** The text is JSON that [JSON.parse] reads and the model does not: it
    is read once its u-escapes above [0xFF] are replaced.  A text that is
    neither read nor [beyond] is malformed. *)
Definition beyond (s : string) : bool :=
  match parse s with
  | Some _ => false
  | None =>
      match parse (narrowed false s) with
      | Some _ => true
      | None => false
      end
  end.

End JSON.

(** *** Values that survive [parse (stringify v)] *)

Module JSONStable.
Import Chars Number JS JSON.

(** A number token as [JSON.parse] accepts it in front of a delimiter:
    it starts with a digit or a minus sign and holds number characters
    only. *)
Fixpoint all_num_chars (t : string) : bool :=
  match t with
  | EmptyString => true
  | String c r => num_char c && all_num_chars r
  end.

Definition number_like (t : string) : bool :=
  match t with
  | EmptyString => false
  | String c _ => (is_digit c || (code c =? 45)) && all_num_chars t
  end.

(** The Number is finite and the text [Number::toString] gives for it is
    read back as the same Number.  The language promises this of every
    finite Number but negative zero; here it is a checkable condition on
    the Numbers of a value. *)
Definition prints_back (x : float) : Prop :=
  is_finite x = true
  /\ number_like (Number_toString x) = true
  /\ JSON_number (Number_toString x) = Some x.

(** Keys in the order in which an object lists them: no key stands after
    one it goes before. *)
Fixpoint ordered (keys : list string) : bool :=
  match keys with
  | [] => true
  | k :: rest => forallb (fun k' => negb (key_before k' k)) rest && ordered rest
  end.

(** No [undefined] inside, Numbers that print back, and in an object no
    repeated key and the keys in the order of own keys. *)
Fixpoint stable (v : JSValue) : Prop :=
  match v with
  | JUndefined => False
  | JNull | JBool _ | JStr _ => True
  | JNum x => prints_back x
  | JArr items => fold_right (fun e P => stable e /\ P) True items
  | JObj fields =>
      NoDup (map fst fields)
      /\ ordered (map fst fields) = true
      /\ fold_right (fun kv P => stable (snd kv) /\ P) True fields
  end.

(** What [JSON.parse] builds: no [undefined], and objects without a
    repeated key, their keys in the order of own keys. *)
Fixpoint parsed (v : JSValue) : Prop :=
  match v with
  | JUndefined => False
  | JArr items => fold_right (fun e P => parsed e /\ P) True items
  | JObj fields =>
      NoDup (map fst fields)
      /\ ordered (map fst fields) = true
      /\ fold_right (fun kv P => parsed (snd kv) /\ P) True fields
  | _ => True
  end.

(** Every Number inside the value prints back. *)
Fixpoint numbers_print_back (v : JSValue) : Prop :=
  match v with
  | JNum x => prints_back x
  | JArr items => fold_right (fun e P => numbers_print_back e /\ P) True items
  | JObj fields =>
      fold_right (fun kv P => numbers_print_back (snd kv) /\ P) True fields
  | _ => True
  end.

(** The fuel a value needs: one unit per value and per array or object
    entry. *)
Fixpoint size (v : JSValue) : nat :=
  match v with
  | JArr items => S (fold_right (fun e n => S (size e + n)) O items)
  | JObj fields => S (fold_right (fun kv n => S (size (snd kv) + n)) O fields)
  | _ => 1
  end.

(** What may follow a value inside a text: nothing, a comma or a closing
    bracket. *)
Definition delimited (rest : string) : bool :=
  match rest with
  | EmptyString => true
  | String c _ => Ascii.eqb c "," || Ascii.eqb c "]" || Ascii.eqb c "}"
  end.

(** The first character of the text of a value: not white space and not
    a closing bracket. *)
Definition starts_value (t : string) : bool :=
  match t with
  | EmptyString => false
  | String c _ => negb (is_ws c) && negb (Ascii.eqb c "]") && negb (Ascii.eqb c "}")
  end.

(** Structural induction through the lists of an array and of an
    object. *)
Fixpoint JSValue_nested_ind (P : JSValue -> Prop)
  (Hu : P JUndefined) (Hn : P JNull) (Hb : forall b, P (JBool b))
  (Hx : forall x, P (JNum x)) (Hs : forall s, P (JStr s))
  (Ha : forall items, Forall P items -> P (JArr items))
  (Ho : forall fields, Forall (fun kv => P (snd kv)) fields -> P (JObj fields))
  (v : JSValue) {struct v} : P v :=
  match v with
  | JUndefined => Hu
  | JNull => Hn
  | JBool b => Hb b
  | JNum x => Hx x
  | JStr s => Hs s
  | JArr items =>
      Ha items
        ((fix go (l : list JSValue) : Forall P l :=
            match l with
            | [] => List.Forall_nil P
            | e :: r =>
                @List.Forall_cons _ P e r
                  (JSValue_nested_ind P Hu Hn Hb Hx Hs Ha Ho e) (go r)
            end) items)
  | JObj fields =>
      Ho fields
        ((fix go (l : list (string * JSValue)) : Forall (fun kv => P (snd kv)) l :=
            match l with
            | [] => List.Forall_nil _
            | kv :: r =>
                @List.Forall_cons _ (fun kv => P (snd kv)) kv r
                  (JSValue_nested_ind P Hu Hn Hb Hx Hs Ha Ho (snd kv)) (go r)
            end) fields)
  end.

(** [v] has a text, and any reader with enough fuel gets [v] back from
    that text in front of a delimiter. *)
Definition reads_back (v : JSValue) : Prop :=
  exists t,
    stringify v = Some t
    /\ starts_value t = true
    /\ (size v <= String.length t)%nat
    /\ forall fuel rest,
        (size v <= fuel)%nat -> delimited rest = true ->
        parse_value fuel (t +:+ rest) = Some (v, rest).

Definition element_text (e : JSValue) : string := default "null" (stringify e).

Definition elements_size (items : list JSValue) : nat :=
  fold_right (fun e n => S (size e + n)) O items.

Definition members_size (fields : list (string * JSValue)) : nat :=
  fold_right (fun kv n => S (size (snd kv) + n)) O fields.

Definition all_stable (items : list JSValue) : Prop :=
  fold_right (fun e P => stable e /\ P) True items.

Definition fields_stable (fields : list (string * JSValue)) : Prop :=
  fold_right (fun kv P => stable (snd kv) /\ P) True fields.

Definition member_text (kv : string * JSValue) : option string :=
  match stringify (snd kv) with
  | Some t => Some (QuoteJSONString (fst kv) +:+ ":" +:+ t)
  | None => None
  end.

End JSONStable.

(** ** The browser and the backend

    A handler runs against a world: the backend, reached through [fetch];
    [localStorage]; and the messages shown by [alert].  The backend is
    any function from the history of requests to the answer to the last
    one; the log keeps the requests in the order they were issued. *)

Record Request := {
  method : string;
  url : string;
  headers : list (string * string);
  body : option string
}.

(** The text of a response body: a string that is not [JSON.beyond] the
    model.  The backends of the model answer with such texts only; for
    them a body that [JSON.parse] does not read is malformed. *)
Record BodyText := {
  body_text :> string;
  body_within : JSON.beyond body_text = false
}.

(** A settled [fetch]: a rejection (no answer), or a response with its
    [ok] flag and body text. *)
Inductive FetchResult :=
| NetworkError
| Response (ok : bool) (text : BodyText).

Record World := {
  API : string;
  server : list Request -> FetchResult;
  log : list Request;
  localStorage : gmap string string;
  alerts : list string
}.

(** What a handler can throw. *)
Inductive Exn :=
| Error (msg : string)
| TypeError
| SyntaxError
| FetchFailed.

(** How a handler ends.  [Untyped] marks data that does not have the
    shape of the data model where the model reads it at a record type, or
    a stored text that is JSON beyond the model; the behaviour of the
    program on such data is not modelled. *)
Inductive Outcome (A : Type) :=
| Done (a : A)
| Thrown (e : Exn)
| Untyped.
Arguments Done {A} a.
Arguments Thrown {A} e.
Arguments Untyped {A}.

Module Eff.

(** A computation over the state [S] of a component and the world.  The
    effects made before an exception stay. *)
Definition t (S A : Type) : Type := S -> World -> Outcome A * S * World.

Definition ret {S A} (a : A) : t S A := fun s w => (Done a, s, w).

Definition bind {S A B} (m : t S A) (k : A -> t S B) : t S B :=
  fun s w =>
    match m s w with
    | (Done a, s', w') => k a s' w'
    | (Thrown e, s', w') => (Thrown e, s', w')
    | (Untyped, s', w') => (Untyped, s', w')
    end.

Definition throw {S A} (e : Exn) : t S A := fun s w => (Thrown e, s, w).

Definition untyped {S A} : t S A := fun s w => (Untyped, s, w).

(** A state setter of the component. *)
Definition set {S} (f : S -> S) : t S unit := fun s w => (Done tt, f s, w).

Definition with_log (w : World) (l : list Request) : World :=
  {| API := API w; server := server w; log := l;
     localStorage := localStorage w; alerts := alerts w |}.

Definition with_storage (w : World) (m : gmap string string) : World :=
  {| API := API w; server := server w; log := log w;
     localStorage := m; alerts := alerts w |}.

Definition with_alerts (w : World) (a : list string) : World :=
  {| API := API w; server := server w; log := log w;
     localStorage := localStorage w; alerts := a |}.

(** Issue one request: it is appended to the log and the backend answers
    the history so far. *)
Definition send (meth path : string) (hdrs : list (string * string))
  (payload : option string) (w : World) : FetchResult * World :=
  let req := {| method := meth; url := API w +:+ path; headers := hdrs;
                body := payload |} in
  let l := (log w ++ [req])%list in
  (server w l, with_log w l).

(** The call [fetch(...)]: the request leaves at once. *)
Definition start {S} (meth path : string) (hdrs : list (string * string))
  (payload : option string) : t S FetchResult :=
  fun s w =>
    let '(r, w') := send meth path hdrs payload w in (Done r, s, w').

(** Awaiting the promise of a request: the response, or the rejection. *)
Definition settle {S} (r : FetchResult) : t S (bool * BodyText) :=
  match r with
  | Response ok text => ret (ok, text)
  | NetworkError => throw FetchFailed
  end.

(** [await fetch(`${API}${path}`, { method, headers, body })].
    [Promise.all] of several requests starts each of them in turn and
    then settles them. *)
Definition fetch {S} (meth path : string) (hdrs : list (string * string))
  (payload : option string) : t S (bool * BodyText) :=
  bind (start meth path hdrs payload) settle.

(** [await res.json()]; the body is within the model, so that a text
    that is not read is malformed. *)
Definition json {S} (res : bool * BodyText) : t S JSValue :=
  match JSON.parse (snd res) with
  | Some v => ret v
  | None => throw SyntaxError
  end.

(** [v.k] *)
Definition get {S} (k : string) (v : JSValue) : t S JSValue :=
  match JS.prop k v with
  | Some r => ret r
  | None => throw TypeError
  end.

Definition alert {S} (msg : string) : t S unit :=
  fun s w => (Done tt, s, with_alerts w (alerts w ++ [msg])%list).

Definition getItem {S} (k : string) : t S (option string) :=
  fun s w => (Done (localStorage w !! k), s, w).

Definition setItem {S} (k v : string) : t S unit :=
  fun s w => (Done tt, s, with_storage w (<[k := v]> (localStorage w))).

Definition removeItem {S} (k : string) : t S unit :=
  fun s w => (Done tt, s, with_storage w (delete k (localStorage w))).

End Eff.

Declare Scope eff_scope.
Delimit Scope eff_scope with eff.
Notation "x <- m ;; k" := (Eff.bind m (fun x => k))
  (at level 100, m at next level, right associativity) : eff_scope.
Notation "m ;; k" := (Eff.bind m (fun _ => k))
  (at level 100, right associativity) : eff_scope.

Local Open Scope eff_scope.

(** ** The auth client ([useAuth]) and the root component (both variants) *)

Record Session := {
  token : JSValue;
  user : JSValue
}.

Module Auth.
Import Number JS.

Definition json_headers : list (string * string) :=
  [("Content-Type", "application/json")].

(** [{ 'Content-Type': 'application/json', 'Authorization': `Bearer ${token}` }] *)
Definition auth_headers (tok : JSValue) : list (string * string) :=
  [("Content-Type", "application/json");
   ("Authorization", "Bearer " +:+ ToString tok)].

(** The argument [localStorage.setItem] receives from [JSON.stringify]:
    its text, or [undefined] turned into a string. *)
Definition stringify_text (v : JSValue) : string :=
  default "undefined" (JSON.stringify v).

(** The initial state of [useAuth]:
    [localStorage.getItem('token') || ''] and
    [d ? JSON.parse(d) : null] for [d = localStorage.getItem('user')].
    A stored user that is JSON beyond the model is not modelled. *)
Definition init (storage : gmap string string) : Outcome Session :=
  let tok :=
    match storage !! "token" with
    | Some t => if nonempty t then t else EmptyString
    | None => EmptyString
    end in
  match storage !! "user" with
  | Some d =>
      if nonempty d then
        match JSON.parse d with
        | Some u => Done {| token := JStr tok; user := u |}
        | None => if JSON.beyond d then Untyped else Thrown SyntaxError
        end
      else Done {| token := JStr tok; user := JNull |}
  | None => Done {| token := JStr tok; user := JNull |}
  end.

Definition setToken (v : JSValue) : Eff.t Session unit :=
  Eff.set (fun s => {| token := v; user := user s |}).

Definition setUser (v : JSValue) : Eff.t Session unit :=
  Eff.set (fun s => {| token := token s; user := v |}).

(** The common tail of [login] and [register]: persist and publish the
    session of the response. *)
Definition store_session (res : bool * BodyText) : Eff.t Session unit :=
  data <- Eff.json res ;;
  tok <- Eff.get "token" data ;;
  Eff.setItem "token" (ToString tok) ;;
  usr <- Eff.get "user" data ;;
  Eff.setItem "user" (stringify_text usr) ;;
  setToken tok ;;
  setUser usr.

Definition login_body (email password : string) : option string :=
  JSON.stringify (JObj [("email", JStr email); ("password", JStr password)]).

Definition login (email password : string) : Eff.t Session unit :=
  res <- Eff.fetch "POST" "/auth/login" json_headers (login_body email password) ;;
  if negb (fst res) then Eff.throw (Error "Invalid credentials")
  else store_session res.

Definition register_body (name email password : string) : option string :=
  JSON.stringify
    (JObj [("name", JStr name); ("email", JStr email);
           ("password", JStr password)]).

Definition register (name email password : string) : Eff.t Session unit :=
  res <- Eff.fetch "POST" "/auth/register" json_headers
           (register_body name email password) ;;
  if negb (fst res) then Eff.throw (Error "Registration failed")
  else store_session res.

Definition logout : Eff.t Session unit :=
  Eff.removeItem "token" ;;
  Eff.removeItem "user" ;;
  setToken (JStr EmptyString) ;;
  setUser JNull.

(** What [App] returns: the sign-in screen or the dashboard with its
    props. *)
Inductive Screen :=
| AuthScreen
| Dashboard (tok usr : JSValue).

(** [if (!token) return <AuthScreen .../>; return <Dashboard .../>] *)
Definition App (s : Session) : Screen :=
  if negb (truthy (token s)) then AuthScreen
  else Dashboard (token s) (user s).

End Auth.

(** ** Shop and Cart (variant 2) *)

(** The fields of a product that [addToCart] reads:
    [p._id], [p.name], [p.price] and [p.images?.[0]]. *)
Record Product := {
  p_id : string;
  p_name : string;
  p_price : float;
  p_image : option string
}.

(** The state of the [Cart] component. *)
Record CartState := {
  items : list CartItem;
  address : string
}.

Module Cart.
Import Number JS.

(** *** The cart in [localStorage] *)

(** An integer-valued Number as an integer. *)
Definition to_Z (x : float) : option Z :=
  match Prim2SF x with
  | S754_zero _ => Some 0
  | S754_finite s m e =>
      let n :=
        if 0 <=? e then Some (Zpos m * 2 ^ e)
        else if Zpos m mod 2 ^ (- e) =? 0 then Some (Zpos m / 2 ^ (- e))
        else None in
      match n with
      | Some z => Some (if s then - z else z)
      | None => None
      end
  | _ => None
  end.

(** The object of a cart line, with its properties in the order
    [addToCart] creates them. *)
Definition item_json (i : CartItem) : JSValue :=
  JObj [("product_id", JStr (product_id i));
        ("name", JStr (name i));
        ("price", JNum (price i));
        ("qty", JNum (of_Z (qty i)));
        ("image", match image i with Some u => JStr u | None => JUndefined end)].

(** [JSON.stringify(items)] *)
Definition cart_text (l : list CartItem) : string :=
  Auth.stringify_text (JArr (map item_json l)).

(** A parsed object read as a cart line. *)
Definition item_view (v : JSValue) : option CartItem :=
  match opt_prop "product_id" v, opt_prop "name" v,
        opt_prop "price" v, opt_prop "qty" v with
  | JStr pid, JStr nm, JNum pr, JNum q =>
      match to_Z q, opt_prop "image" v with
      | Some z, JStr u =>
          Some {| product_id := pid; name := nm; price := pr; qty := z;
                  image := Some u |}
      | Some z, JUndefined =>
          Some {| product_id := pid; name := nm; price := pr; qty := z;
                  image := None |}
      | _, _ => None
      end
  | _, _, _, _ => None
  end.

Definition cart_view (v : JSValue) : option (list CartItem) :=
  match v with
  | JArr l => mapM item_view l
  | _ => None
  end.

(** [JSON.parse(localStorage.getItem('cart') || '[]')] at the type of
    a cart.  An entry that is JSON beyond the model is not modelled. *)
Definition read_cart {S} : Eff.t S (list CartItem) :=
  raw <- Eff.getItem "cart" ;;
  let text := match raw with
              | Some t => if nonempty t then t else "[]"
              | None => "[]"
              end in
  match JSON.parse text with
  | None => if JSON.beyond text then Eff.untyped else Eff.throw SyntaxError
  | Some v =>
      match cart_view v with
      | Some l => Eff.ret l
      | None => Eff.untyped
      end
  end.

(** The invariant of the cart: every line has a quantity of 1 or more. *)
Definition qty_ok (i : CartItem) : Prop := 1 <= qty i.

(** *** Shop: [addToCart] *)

(** A product of the list read at the type [Product]. *)
Definition product_view (p : JSValue) : option Product :=
  match opt_prop "_id" p, opt_prop "name" p, opt_prop "price" p with
  | JStr pid, JStr nm, JNum pr =>
      match opt_prop "images" p with
      | JArr (JStr u :: _) => Some {| p_id := pid; p_name := nm; p_price := pr; p_image := Some u |}
      | JArr [] | JUndefined | JNull =>
          Some {| p_id := pid; p_name := nm; p_price := pr; p_image := None |}
      | _ => None
      end
  | _, _, _ => None
  end.

(** [existing.findIndex(i => f i)] *)
Fixpoint findIndex {A} (f : A -> bool) (l : list A) : option nat :=
  match l with
  | [] => None
  | x :: r => if f x then Some O else option_map S (findIndex f r)
  end.

Definition set_qty (q : Z) (i : CartItem) : CartItem :=
  {| product_id := product_id i; name := name i; price := price i;
     qty := q; image := image i |}.

(** The array [addToCart] writes back: [existing[idx].qty += 1] on the
    line of the product, or a new line with [qty] 1 is pushed. *)
Definition addToCart_items (p : Product) (existing : list CartItem)
  : list CartItem :=
  match findIndex (fun i => String.eqb (product_id i) (p_id p)) existing with
  | Some idx => alter (fun i => set_qty (int_add (qty i) 1) i) idx existing
  | None =>
      (existing ++ [{| product_id := p_id p; name := p_name p;
                       price := p_price p; qty := 1; image := p_image p |}])%list
  end.

Definition addToCart {S} (p : JSValue) : Eff.t S unit :=
  existing <- read_cart ;;
  match product_view p with
  | None => Eff.untyped
  | Some prod =>
      Eff.setItem "cart" (cart_text (addToCart_items prod existing)) ;;
      Eff.alert "Added to cart"
  end.

(** *** Cart *)

Definition setItems (l : list CartItem) : Eff.t CartState unit :=
  Eff.set (fun s => {| items := l; address := address s |}).

(** The initial state: the persisted cart and an empty address. *)
Definition init : Eff.t unit CartState :=
  l <- read_cart ;; Eff.ret {| items := l; address := EmptyString |}.

(** [items.map(i => i.product_id===product_id
      ? { ...i, qty: Math.max(1, i.qty + delta)} : i)] *)
Definition updateQty_items (pid : string) (delta : Z) (l : list CartItem)
  : list CartItem :=
  map (fun i => if String.eqb (product_id i) pid
                then set_qty (Z.max 1 (int_add (qty i) delta)) i else i) l.

Definition updateQty (cl : CartState) (pid : string) (delta : Z)
  : Eff.t CartState unit :=
  let next := updateQty_items pid delta (items cl) in
  setItems next ;;
  Eff.setItem "cart" (cart_text next).

(** [items.filter(i => i.product_id !== product_id)] *)
Definition removeItem_items (pid : string) (l : list CartItem) : list CartItem :=
  List.filter (fun i => negb (String.eqb (product_id i) pid)) l.

Definition removeItem (cl : CartState) (pid : string) : Eff.t CartState unit :=
  let next := removeItem_items pid (items cl) in
  setItems next ;;
  Eff.setItem "cart" (cart_text next).

(** [{ items: items.map(i=>({ product_id: i.product_id, qty: i.qty })), address }] *)
Definition order_body (cl : CartState) : option string :=
  JSON.stringify
    (JObj [("items",
            JArr (map (fun i => JObj [("product_id", JStr (product_id i));
                                      ("qty", JNum (of_Z (qty i)))])
                      (items cl)));
           ("address", JStr (address cl))]).

(** [{ amount: order.total, description: `Order ${order._id}`,
       order_id: order._id }] *)
Definition payment_body (total id : JSValue) : option string :=
  JSON.stringify
    (JObj [("amount", total);
           ("description", JStr ("Order " +:+ ToString id));
           ("order_id", id)]).

Definition placeOrder (tok : JSValue) (cl : CartState) : Eff.t CartState unit :=
  match items cl with
  | [] => Eff.ret tt
  | _ :: _ =>
      res <- Eff.fetch "POST" "/orders" (Auth.auth_headers tok) (order_body cl) ;;
      if negb (fst res) then Eff.alert "Order failed"
      else
        order <- Eff.json res ;;
        total <- Eff.get "total" order ;;
        id <- Eff.get "_id" order ;;
        pay <- Eff.fetch "POST" "/payments/checkout" (Auth.auth_headers tok)
                 (payment_body total id) ;;
        if negb (fst pay) then Eff.alert "Payment failed"
        else
          Eff.removeItem "cart" ;;
          setItems [] ;;
          Eff.alert "Order placed and paid successfully!"
  end.

End Cart.

(** *** The requests of checkout and of sign-in *)

Module Requests.

Definition login_request (w : World) (email password : string) : Request :=
  {| method := "POST"; url := API w +:+ "/auth/login";
     headers := Auth.json_headers;
     body := Auth.login_body email password |}.

Definition order_request (w : World) (tok : JSValue) (cl : CartState) : Request :=
  {| method := "POST"; url := API w +:+ "/orders";
     headers := Auth.auth_headers tok;
     body := Cart.order_body cl |}.

Definition payment_request (w : World) (tok total id : JSValue) : Request :=
  {| method := "POST"; url := API w +:+ "/payments/checkout";
     headers := Auth.auth_headers tok;
     body := Cart.payment_body total id |}.


End Requests.

(** ** Built-ins the panels call *)

Module Builtins.
Import Chars Number JS.

(** White space and line terminators within the modelled code units. *)
Definition is_space (c : ascii) : bool :=
  let n := code c in
  ((9 <=? n) && (n <=? 13)) || (n =? 32) || (n =? 160).

Fixpoint trim_start (s : string) : string :=
  match s with
  | String c r => if is_space c then trim_start r else s
  | EmptyString => s
  end.

Fixpoint rev_string (s acc : string) : string :=
  match s with
  | EmptyString => acc
  | String c r => rev_string r (String c acc)
  end.

(** [s.trim()] *)
Definition trim (s : string) : string :=
  rev_string (trim_start (rev_string (trim_start s) EmptyString)) EmptyString.

(** [s.split(',')] *)
Fixpoint split_commas (s cur : string) : list string :=
  match s with
  | EmptyString => [rev_string cur EmptyString]
  | String c r =>
      if Ascii.eqb c ","
      then rev_string cur EmptyString :: split_commas r EmptyString
      else split_commas r (String c cur)
  end.

(** [s.split(',').map(s=>s.trim()).filter(Boolean)] *)
Definition split_trimmed (s : string) : list string :=
  List.filter nonempty (map trim (split_commas s EmptyString)).

(** [s.toUpperCase()] on the letters a to z (the tab names). *)
Fixpoint toUpperCase (s : string) : string :=
  match s with
  | EmptyString => EmptyString
  | String c r =>
      let n := code c in
      String (if (97 <=? n) && (n <=? 122) then of_code (n - 32) else c)
             (toUpperCase r)
  end.

Definition upper_hex (d : Z) : ascii :=
  if d <? 10 then of_code (48 + d) else of_code (55 + d).

Definition percent_byte (b : Z) : string :=
  String "%" (String (upper_hex (b / 16)) (String (upper_hex (b mod 16)) EmptyString)).

(** The application/x-www-form-urlencoded serialisation of one code
    unit (through UTF-8 from 128 on). *)
Definition form_encode_char (c : ascii) : string :=
  let n := code c in
  if ((48 <=? n) && (n <=? 57)) || ((65 <=? n) && (n <=? 90))
     || ((97 <=? n) && (n <=? 122))
     || (n =? 42) || (n =? 45) || (n =? 46) || (n =? 95)
  then String c EmptyString
  else if n =? 32 then "+"
  else if n <? 128 then percent_byte n
  else percent_byte (192 + n / 64) +:+ percent_byte (128 + n mod 64).

Fixpoint form_encode (s : string) : string :=
  match s with
  | EmptyString => EmptyString
  | String c r => form_encode_char c +:+ form_encode r
  end.

(** [new URLSearchParams()] with [set] calls, then [toString()]. *)
Definition search_params (pairs : list (string * string)) : string :=
  join "&" (map (fun kv => form_encode (fst kv) +:+ "=" +:+ form_encode (snd kv))
                pairs).

(** [parseFloat(s)]: the longest prefix of the trimmed text that is a
    decimal literal, NaN when there is none. *)
Definition parseFloat (s : string) : float :=
  let t := trim_start s in
  let '(sg, r) := scan_sign t in
  if match strip_infinity r with Some _ => true | None => false end
  then (if is_neg sg then neg_infinity else infinity)
  else
    let '(l, _) := scan_literal t in
    let core :=
      nonempty (lit_int l)
      || match lit_frac l with Some d => nonempty d | None => false end in
    if core
    then literal_value
           {| lit_sign := lit_sign l; lit_int := lit_int l;
              lit_frac := lit_frac l;
              lit_exp := match lit_exp l with
                         | Some (esg, d) =>
                             if nonempty d then Some (esg, d) else None
                         | None => None
                         end |}
    else nan.

Definition hex_value (c : ascii) : option Z :=
  let n := code c in
  if (48 <=? n) && (n <=? 57) then Some (n - 48)
  else if (97 <=? n) && (n <=? 102) then Some (n - 87)
  else if (65 <=? n) && (n <=? 70) then Some (n - 55)
  else None.

Fixpoint hex_prefix (s : string) (acc : Z) (seen : bool) : option Z :=
  match s with
  | String c r =>
      match hex_value c with
      | Some d => hex_prefix r (16 * acc + d) true
      | None => if seen then Some acc else None
      end
  | EmptyString => if seen then Some acc else None
  end.

(** [parseInt(s)] without a radix: decimal digits, or hexadecimal ones
    after 0x; NaN when no digit is found. *)
Definition parseInt (s : string) : float :=
  let t := trim_start s in
  let '(sg, r) := scan_sign t in
  let magnitude :=
    match r with
    | String "0" (String x r') =>
        if Ascii.eqb x "x" || Ascii.eqb x "X" then hex_prefix r' 0 false
        else Some (digits_value (fst (span_digits r)))
    | _ =>
        let d := fst (span_digits r) in
        if nonempty d then Some (digits_value d) else None
    end in
  match magnitude with
  | Some z => of_decimal (is_neg sg) z 0
  | None => nan
  end.

End Builtins.

(** ** Rendering

    What a component returns: the tree of its elements, without class
    names.  A button carries the name of its click handler. *)

Inductive Handler :=
| SetTab (t : string)
| Edit (field : string)
| Load
| AddToCart (p : JSValue)
| UpdateQty (pid : string) (delta : Z)
| RemoveItem (pid : string)
| PlaceOrder
| Book
| ChangePlan (plan : string)
| CreateProduct
| DeleteProduct (id : JSValue)
| UpdateOrderStatus (id : JSValue) (status : string)
| Pay
| AddCamera
| SendAlert.

#[local] Unset Elimination Schemes.
Inductive Element :=
| Text (s : string)
| Tag (name : string) (children : list Element)
| Button (onClick : Handler) (disabled : bool) (children : list Element)
| Input (name placeholder value : string) (onChange : Handler)
| Media (name : string) (src : JSValue)
| Component (name : string).
#[local] Set Elimination Schemes.

Module View.
Import Number JS.

(** The text nodes of a tree, in document order. *)
Fixpoint texts (e : Element) : list string :=
  match e with
  | Text s => [s]
  | Tag _ children | Button _ _ children => flat_map texts children
  | _ => []
  end.

(** The click handlers of the buttons of a tree. *)
Fixpoint handlers (e : Element) : list Handler :=
  match e with
  | Button h _ children => h :: flat_map handlers children
  | Tag _ children => flat_map handlers children
  | _ => []
  end.

(** A JavaScript value as a child: strings and numbers are text;
    [undefined], [null] and booleans render nothing; an array renders its
    elements; an object is refused ([None]). *)
Fixpoint child (v : JSValue) : option (list Element) :=
  match v with
  | JStr s => Some [Text s]
  | JNum x => Some [Text (Number_toString x)]
  | JUndefined | JNull | JBool _ => Some []
  | JArr l =>
      (fix go (l : list JSValue) : option (list Element) :=
         match l with
         | [] => Some []
         | e :: r =>
             match child e, go r with
             | Some a, Some b => Some (a ++ b)%list
             | _, _ => None
             end
         end) l
  | JObj _ => None
  end.

(** [v?.[0]] *)
Definition first_of (v : JSValue) : JSValue :=
  match v with
  | JArr (x :: _) => x
  | JStr (String c _) => JStr (String c EmptyString)
  | JObj fields => default JUndefined (assoc "0" fields)
  | _ => JUndefined
  end.

(** [list.map(render)] on a value: a TypeError ([None]) unless the value
    is an array. *)
Definition map_array (render : JSValue -> option Element) (v : JSValue)
  : option (list Element) :=
  match v with
  | JArr l => mapM render l
  | _ => None
  end.

(** [list.length===0] *)
Definition is_empty (v : JSValue) : bool :=
  match v with
  | JArr [] => true
  | JStr EmptyString => true
  | _ => false
  end.

(** [(v||0).toFixed(2)] and [v?.toFixed(2)]: only a Number has the
    method. *)
Definition fixed_or_zero (v : JSValue) : option string :=
  if truthy v
  then match v with JNum x => Some (toFixed 2 x) | _ => None end
  else Some (toFixed 2 0).

Definition fixed_opt (v : JSValue) : option (list Element) :=
  match v with
  | JUndefined | JNull => Some []
  | JNum x => Some [Text (toFixed 2 x)]
  | _ => None
  end.

(** A row of tab buttons. *)
Definition tab_buttons (names : list string) : list Element :=
  map (fun t => Button (SetTab t) false [Text (Builtins.toUpperCase t)]) names.

End View.

(** ** Variant 2: the shop client *)

Module Shop.
Import Number JS View.

Record State := {
  products : JSValue;
  q : string;
  category : string;
  loading : bool
}.

Definition initial : State :=
  {| products := JArr []; q := EmptyString; category := EmptyString;
     loading := false |}.

Definition setProducts (v : JSValue) : Eff.t State unit :=
  Eff.set (fun s => {| products := v; q := q s; category := category s;
                       loading := loading s |}).

Definition setLoading (b : bool) : Eff.t State unit :=
  Eff.set (fun s => {| products := products s; q := q s;
                       category := category s; loading := b |}).

Definition load (cl : State) : Eff.t State unit :=
  setLoading true ;;
  let params :=
    ((if nonempty (q cl) then [("q", q cl)] else [])
     ++ (if nonempty (category cl) then [("category", category cl)] else []))%list in
  res <- Eff.fetch "GET" ("/products?" +:+ Builtins.search_params params) [] None ;;
  data <- Eff.json res ;;
  setProducts data ;;
  setLoading false.

Definition card (p : JSValue) : option Element :=
  images ← prop "images" p;
  nm ← prop "name" p;
  nm_text ← child nm;
  desc ← prop "description" p;
  desc_text ← child desc;
  pr ← prop "price" p;
  price_text ← fixed_or_zero pr;
  Some (Tag "div"
     [Tag "div"
        [if truthy (first_of images)
         then Media "img" (first_of images)
         else Tag "div" [Text "No image"]];
      Tag "div"
        [Tag "div" nm_text;
         Tag "div" desc_text;
         Tag "div"
           [Tag "div" [Text "$"; Text price_text];
            Button (AddToCart p) false [Text "Add to cart"]]]]).

Definition placeholder : Element := Tag "div" [Text "No products found."].

(** The grid of products with its empty state. *)
Definition grid (st : State) : option Element :=
  cards ← map_array card (products st);
  Some (Tag "div"
          (cards ++ (if is_empty (products st) && negb (loading st)
                     then [placeholder] else []))%list).

Definition render (st : State) : option Element :=
  g ← grid st;
  Some (Tag "div"
     [Tag "div"
        [Input "input" "Search products" (q st) (Edit "q");
         Tag "select"
           (map (fun t => Tag "option" [Text t])
              ["All categories"; "Cameras"; "Accessories"; "Systems"; "DVR";
               "NVR"; "Cables"; "Service"]);
         Button Load false [Text "Filter"]];
      Tag "div" (if loading st then [Tag "div" [Text "Loading..."]] else []);
      g]).

End Shop.

Module CartPanel.
Import Number JS View.

Definition row (i : CartItem) : Element :=
  Tag "div"
    [Tag "div"
       [match image i with
        | Some u => if nonempty u then Media "img" (JStr u)
                    else Tag "span" [Text "No image"]
        | None => Tag "span" [Text "No image"]
        end];
     Tag "div"
       [Tag "div" [Text (name i)];
        Tag "div" [Text "$"; Text (toFixed 2 (price i)); Text " each"]];
     Tag "div"
       [Button (UpdateQty (product_id i) (-1)) false [Text "-"];
        Tag "span" [Text (Number_toString (of_Z (qty i)))];
        Button (UpdateQty (product_id i) 1) false [Text "+"]];
     Tag "div" [Text "$"; Text (toFixed 2 (CartView.line_total i))];
     Button (RemoveItem (product_id i)) false [Text "Remove"]].

Definition placeholder : Element := Tag "div" [Text "Your cart is empty."].

(** The list of lines with its empty state. *)
Definition lines (st : CartState) : Element :=
  Tag "div"
    (map row (items st)
     ++ (match items st with [] => [placeholder] | _ => [] end))%list.

Definition render (st : CartState) : Element :=
  let '(sub, tax, total) := CartView.summary_text (items st) in
  Tag "div"
    [lines st;
     Tag "div"
       [Tag "div" [Text "Order summary"];
        Tag "div" [Tag "span" [Text "Subtotal"]; Tag "span" [Text "$"; Text sub]];
        Tag "div" [Tag "span" [Text "Tax"]; Tag "span" [Text "$"; Text tax]];
        Tag "div" [Tag "span" [Text "Total"]; Tag "span" [Text "$"; Text total]];
        Tag "div"
          [Input "textarea" "Shipping/installation address" (address st)
             (Edit "address")];
        Button PlaceOrder (match items st with [] => true | _ => false end)
          [Text "Place order"]]].

End CartPanel.

Module Services.
Import Number JS View.

Record State := { services : JSValue }.

Definition initial : State := {| services := JArr [] |}.

Definition setServices (v : JSValue) : Eff.t State unit :=
  Eff.set (fun _ => {| services := v |}).

Definition load (tok : JSValue) : Eff.t State unit :=
  res <- Eff.fetch "GET" "/services" (Auth.auth_headers tok) None ;;
  data <- Eff.json res ;;
  setServices data.

Definition book_body (address : string) : option string :=
  JSON.stringify
    (JObj [("service_type", JStr "installation"); ("address", JStr address)]).

(** [book]; [answer] is what [prompt('Service address')] returns, [None]
    when the dialog is cancelled. *)
Definition book (tok : JSValue) (answer : option string) : Eff.t State unit :=
  match answer with
  | None => Eff.ret tt
  | Some address =>
      if negb (nonempty address) then Eff.ret tt
      else
        Eff.fetch "POST" "/services" (Auth.auth_headers tok) (book_body address) ;;
        load tok
  end.

Definition item (s : JSValue) : option Element :=
  ty ← prop "service_type" s; ty_text ← child ty;
  ad ← prop "address" s; ad_text ← child ad;
  st ← prop "status" s; st_text ← child st;
  Some (Tag "div"
          [Tag "div" [Tag "div" ty_text; Tag "div" ad_text];
           Tag "span" st_text]).

Definition placeholder : Element := Tag "p" [Text "No service bookings yet."].

Definition list_view (st : State) : option Element :=
  rows ← map_array item (services st);
  Some (Tag "div"
          (rows ++ (if is_empty (services st) then [placeholder] else []))%list).

Definition render (st : State) : option Element :=
  l ← list_view st;
  Some (Tag "div" [Button Book false [Text "Book installation"]; l]).

End Services.

Module Account.
Import Number JS View.

Record State := { sub : JSValue }.

Definition initial : State := {| sub := JNull |}.

Definition setSub (v : JSValue) : Eff.t State unit :=
  Eff.set (fun _ => {| sub := v |}).

Definition load (tok : JSValue) : Eff.t State unit :=
  res <- Eff.fetch "GET" "/subscription" (Auth.auth_headers tok) None ;;
  data <- Eff.json res ;;
  setSub data.

Definition plan_body (plan : string) : option string :=
  JSON.stringify (JObj [("plan", JStr plan)]).

Definition changePlan (tok : JSValue) (plan : string) : Eff.t State unit :=
  Eff.fetch "POST" "/subscription" (Auth.auth_headers tok) (plan_body plan) ;;
  load tok.

(** [v || fallback] as a child *)
Definition or_text (v : JSValue) (fallback : string) : option (list Element) :=
  if truthy v then child v else Some [Text fallback].

Definition render (st : State) : option Element :=
  plan ← or_text (opt_prop "plan" (sub st)) "basic";
  status ← or_text (opt_prop "status" (sub st)) "active";
  Some (Tag "div"
     [Tag "div"
        [Tag "div" [Text "Subscription"];
         Tag "div" plan;
         Tag "div" (Text "Status: " :: status)];
      Tag "div"
        (map (fun p => Button (ChangePlan p) false [Text p])
           ["basic"; "standard"; "pro"])]).

End Account.

Module Admin.
Import Number JS View.

Record ProductForm := {
  f_name : string;
  f_price : string;
  f_category : string;
  f_stock : string;
  f_description : string;
  f_images : string
}.

(** The empty form.  The source starts [stock] at the number 0, which
    the form shows and sends like the text 0. *)
Definition empty_form : ProductForm :=
  {| f_name := EmptyString; f_price := EmptyString; f_category := "camera";
     f_stock := "0"; f_description := EmptyString; f_images := EmptyString |}.

Record State := {
  tab : string;
  users : JSValue;
  products : JSValue;
  orders : JSValue;
  svcs : JSValue;
  pForm : ProductForm
}.

Definition initial : State :=
  {| tab := "products"; users := JArr []; products := JArr [];
     orders := JArr []; svcs := JArr []; pForm := empty_form |}.

(** [user?.role === 'admin'] *)
Definition isAdmin (usr : JSValue) : bool :=
  is_string "admin" (opt_prop "role" usr).

Definition setUsers (v : JSValue) : Eff.t State unit :=
  Eff.set (fun s => {| tab := tab s; users := v; products := products s;
                       orders := orders s; svcs := svcs s; pForm := pForm s |}).

Definition setProducts (v : JSValue) : Eff.t State unit :=
  Eff.set (fun s => {| tab := tab s; users := users s; products := v;
                       orders := orders s; svcs := svcs s; pForm := pForm s |}).

Definition setOrders (v : JSValue) : Eff.t State unit :=
  Eff.set (fun s => {| tab := tab s; users := users s; products := products s;
                       orders := v; svcs := svcs s; pForm := pForm s |}).

Definition setSvcs (v : JSValue) : Eff.t State unit :=
  Eff.set (fun s => {| tab := tab s; users := users s; products := products s;
                       orders := orders s; svcs := v; pForm := pForm s |}).

Definition setPForm (f : ProductForm) : Eff.t State unit :=
  Eff.set (fun s => {| tab := tab s; users := users s; products := products s;
                       orders := orders s; svcs := svcs s; pForm := f |}).

Definition load (tok usr : JSValue) : Eff.t State unit :=
  if negb (isAdmin usr) then Eff.ret tt
  else
    u <- Eff.start "GET" "/admin/users" (Auth.auth_headers tok) None ;;
    p <- Eff.start "GET" "/products" [] None ;;
    o <- Eff.start "GET" "/admin/orders" (Auth.auth_headers tok) None ;;
    s <- Eff.start "GET" "/admin/services" (Auth.auth_headers tok) None ;;
    u <- Eff.settle u ;;
    p <- Eff.settle p ;;
    o <- Eff.settle o ;;
    s <- Eff.settle s ;;
    ud <- Eff.json u ;; setUsers ud ;;
    pd <- Eff.json p ;; setProducts pd ;;
    od <- Eff.json o ;; setOrders od ;;
    sd <- Eff.json s ;; setSvcs sd.

(** [{ ...pForm, price: parseFloat(pForm.price||0),
       stock: parseInt(pForm.stock||0),
       images: pForm.images ? pForm.images.split(',')... : [] }] *)
Definition product_body (f : ProductForm) : option string :=
  JSON.stringify
    (JObj [("name", JStr (f_name f));
           ("price", JNum (Builtins.parseFloat
                             (if nonempty (f_price f) then f_price f else "0")));
           ("category", JStr (f_category f));
           ("stock", JNum (Builtins.parseInt
                             (if nonempty (f_stock f) then f_stock f else "0")));
           ("description", JStr (f_description f));
           ("images", JArr (map JStr (Builtins.split_trimmed (f_images f))))]).

Definition createProduct (tok usr : JSValue) (cl : State) : Eff.t State unit :=
  res <- Eff.fetch "POST" "/admin/products" (Auth.auth_headers tok)
           (product_body (pForm cl)) ;;
  if negb (fst res) then Eff.alert "Failed to create product"
  else
    setPForm empty_form ;;
    load tok usr.

Definition deleteProduct (tok usr id : JSValue) : Eff.t State unit :=
  Eff.fetch "DELETE" ("/admin/products/" +:+ ToString id)
    (Auth.auth_headers tok) None ;;
  load tok usr.

Definition status_body (status : string) : option string :=
  JSON.stringify (JObj [("status", JStr status)]).

Definition updateOrderStatus (tok usr id : JSValue) (status : string)
  : Eff.t State unit :=
  Eff.fetch "PATCH" ("/admin/orders/" +:+ ToString id)
    (Auth.auth_headers tok) (status_body status) ;;
  load tok usr.

(** What a non-admin sees. *)
Definition notice : Element :=
  Tag "div"
    [Tag "div" [Text "Admin dashboard is available for admin accounts."]].

Definition product_row (p : JSValue) : option Element :=
  nm ← prop "name" p; nm_text ← child nm;
  cat ← prop "category" p; cat_text ← child cat;
  pr ← prop "price" p; pr_text ← fixed_opt pr;
  stock ← prop "stock" p; stock_text ← child stock;
  id ← prop "_id" p;
  Some (Tag "div"
     [Tag "div"
        [Tag "div" nm_text;
         Tag "div" (cat_text ++ [Text " • $"] ++ pr_text
                    ++ [Text " • stock "] ++ stock_text)%list];
      Button (DeleteProduct id) false [Text "Delete"]]).

Definition order_row (date_text : JSValue -> string) (o : JSValue)
  : option Element :=
  id ← prop "_id" o; id_text ← child id;
  created ← prop "created_at" o;
  its ← prop "items" o; len ← prop "length" its; len_text ← child len;
  total ← prop "total" o; total_text ← fixed_opt total;
  status ← prop "status" o; status_text ← child status;
  Some (Tag "div"
     [Tag "div"
        [Tag "div" (Text "Order " :: id_text);
         Tag "div" [Text (date_text created)]];
      Tag "div" (len_text ++ [Text " items • $"] ++ total_text
                 ++ [Text " • "] ++ status_text)%list;
      Tag "div"
        (map (fun s => Button (UpdateOrderStatus id s) false [Text s])
           ["paid"; "processing"; "shipped"; "completed"; "cancelled"])]).

Definition user_row (u : JSValue) : option Element :=
  nm ← prop "name" u; nm_text ← child nm;
  em ← prop "email" u; em_text ← child em;
  role ← prop "role" u; role_text ← child role;
  Some (Tag "div"
     [Tag "div" [Tag "div" nm_text; Tag "div" em_text]; Tag "span" role_text]).

Definition service_row (s : JSValue) : option Element :=
  ty ← prop "service_type" s; ty_text ← child ty;
  ad ← prop "address" s; ad_text ← child ad;
  st ← prop "status" s; st_text ← child st;
  Some (Tag "div"
     [Tag "div" [Tag "div" ty_text; Tag "div" ad_text]; Tag "span" st_text]).

(** A list with its empty state: the rows, then the placeholder when the
    list is empty. *)
Definition list_view (row : JSValue -> option Element) (l : JSValue)
  (empty_text : string) : option Element :=
  rows ← map_array row l;
  Some (Tag "div"
          (rows ++ (if is_empty l then [Tag "div" [Text empty_text]] else []))%list).

Definition form_view (f : ProductForm) : Element :=
  Tag "div"
    [Tag "div" [Text "New product"];
     Input "input" "Name" (f_name f) (Edit "name");
     Input "textarea" "Description" (f_description f) (Edit "description");
     Tag "div"
       [Input "input" "Category" (f_category f) (Edit "category");
        Input "input" "Price" (f_price f) (Edit "price")];
     Tag "div"
       [Input "input" "Stock" (f_stock f) (Edit "stock");
        Input "input" "Images (comma-separated URLs)" (f_images f)
          (Edit "images")];
     Button CreateProduct false [Text "Create"]].

Definition tab_view (date_text : JSValue -> string) (st : State)
  : option (list Element) :=
  if String.eqb (tab st) "products" then
    l ← list_view product_row (products st) "No products yet.";
    Some [Tag "div" [l; form_view (pForm st)]]
  else if String.eqb (tab st) "orders" then
    l ← list_view (order_row date_text) (orders st) "No orders yet.";
    Some [l]
  else if String.eqb (tab st) "customers" then
    l ← list_view user_row (users st) "No customers yet.";
    Some [l]
  else if String.eqb (tab st) "services" then
    l ← list_view service_row (svcs st) "No service requests.";
    Some [l]
  else Some [].

Definition render (date_text : JSValue -> string) (usr : JSValue) (st : State)
  : option Element :=
  if negb (isAdmin usr) then Some notice
  else
    content ← tab_view date_text st;
    Some (Tag "div"
            (Tag "div" (tab_buttons ["products"; "orders"; "customers"; "services"])
             :: content)).

End Admin.

(** ** Variant 1: the camera dashboard *)

Module Dashboard1.
Import Number JS View.

Record State := {
  tab : string;
  cameras : JSValue;
  alerts_list : JSValue;
  services : JSValue;
  subscription : JSValue
}.

Definition initial : State :=
  {| tab := "live"; cameras := JArr []; alerts_list := JArr [];
     services := JArr []; subscription := JNull |}.

Definition setCameras (v : JSValue) : Eff.t State unit :=
  Eff.set (fun s => {| tab := tab s; cameras := v; alerts_list := alerts_list s;
                       services := services s; subscription := subscription s |}).

Definition setAlerts (v : JSValue) : Eff.t State unit :=
  Eff.set (fun s => {| tab := tab s; cameras := cameras s; alerts_list := v;
                       services := services s; subscription := subscription s |}).

Definition setServices (v : JSValue) : Eff.t State unit :=
  Eff.set (fun s => {| tab := tab s; cameras := cameras s;
                       alerts_list := alerts_list s; services := v;
                       subscription := subscription s |}).

Definition setSubscription (v : JSValue) : Eff.t State unit :=
  Eff.set (fun s => {| tab := tab s; cameras := cameras s;
                       alerts_list := alerts_list s; services := services s;
                       subscription := v |}).

Definition load (tok : JSValue) : Eff.t State unit :=
  c <- Eff.start "GET" "/cameras" (Auth.auth_headers tok) None ;;
  a <- Eff.start "GET" "/alerts" (Auth.auth_headers tok) None ;;
  s <- Eff.start "GET" "/services" (Auth.auth_headers tok) None ;;
  b <- Eff.start "GET" "/subscription" (Auth.auth_headers tok) None ;;
  c <- Eff.settle c ;;
  a <- Eff.settle a ;;
  s <- Eff.settle s ;;
  b <- Eff.settle b ;;
  cd <- Eff.json c ;; setCameras cd ;;
  ad <- Eff.json a ;; setAlerts ad ;;
  sd <- Eff.json s ;; setServices sd ;;
  bd <- Eff.json b ;; setSubscription bd.

Definition service_body (address : string) : option string :=
  JSON.stringify
    (JObj [("service_type", JStr "maintenance"); ("address", JStr address)]).

(** [createService]; [answer] is what [prompt('Service address')]
    returns. *)
Definition createService (tok : JSValue) (answer : option string)
  : Eff.t State unit :=
  match answer with
  | None => Eff.ret tt
  | Some address =>
      if negb (nonempty address) then Eff.ret tt
      else
        Eff.fetch "POST" "/services" (Auth.auth_headers tok)
          (service_body address) ;;
        load tok
  end.

(** The numeric literal [19.99]. *)
Definition lit_19_99 : float := 0x1.3fd70a3d70a3dp+4%float.

Definition pay_body : option string :=
  JSON.stringify
    (JObj [("amount", JNum lit_19_99);
           ("description", JStr "Monthly subscription")]).

Definition pay (tok : JSValue) : Eff.t State unit :=
  Eff.fetch "POST" "/payments/checkout" (Auth.auth_headers tok) pay_body ;;
  load tok ;;
  Eff.alert "Payment successful".

Definition camera_card (c : JSValue) : option Element :=
  nm ← prop "name" c; nm_text ← child nm;
  loc ← prop "location" c;
  loc_text ← (if truthy loc then child loc else Some [Text "Unspecified location"]);
  url ← prop "stream_url" c;
  Some (Tag "div"
     [Tag "div" [Tag "div" [Tag "div" nm_text; Tag "div" loc_text]];
      Tag "div"
        [if truthy url then Media "video" url
         else Tag "div" [Text "Stream unavailable"]]]).

Definition live_placeholder : Element :=
  Tag "div" [Text "No cameras yet. Add one to view live feeds."].

Definition live_view (st : State) : option Element :=
  cards ← map_array camera_card (cameras st);
  Some (Tag "div"
          ((if is_empty (cameras st) then [live_placeholder] else []) ++ cards)%list).

Definition alert_row (a : JSValue) : option Element :=
  title ← prop "title" a; title_text ← child title;
  msg ← prop "message" a; msg_text ← child msg;
  level ← prop "level" a; level_text ← child level;
  Some (Tag "div"
     [Tag "div"
        [Tag "div" [Tag "div" title_text; Tag "div" msg_text];
         Tag "span" level_text]]).

Definition alerts_placeholder : Element := Tag "p" [Text "No alerts yet."].

Definition alerts_view (st : State) : option Element :=
  rows ← map_array alert_row (alerts_list st);
  Some (Tag "div"
          (rows ++ (if is_empty (alerts_list st) then [alerts_placeholder]
                    else []))%list).

Definition service_row (s : JSValue) : option Element :=
  ty ← prop "service_type" s; ty_text ← child ty;
  ad ← prop "address" s; ad_text ← child ad;
  st ← prop "status" s; st_text ← child st;
  Some (Tag "div"
     [Tag "div" [Tag "div" ty_text; Tag "div" ad_text]; Tag "span" st_text]).

(** The services tab: the button and the rows, nothing else. *)
Definition services_view (st : State) : option Element :=
  rows ← map_array service_row (services st);
  Some (Tag "div"
          [Button Book false [Text "Book service"];
           Tag "div" rows]).

Definition account_view (st : State) : option Element :=
  plan ← Account.or_text (opt_prop "plan" (subscription st)) "basic";
  Some (Tag "div"
     [Tag "div" [Tag "div" [Text "Plan"]; Tag "div" plan];
      Button Pay false [Text "Pay $19.99"]]).

Definition tab_view (st : State) : option (list Element) :=
  if String.eqb (tab st) "live" then l ← live_view st; Some [l]
  else if String.eqb (tab st) "recordings" then Some [Component "Recordings"]
  else if String.eqb (tab st) "alerts" then l ← alerts_view st; Some [l]
  else if String.eqb (tab st) "services" then l ← services_view st; Some [l]
  else if String.eqb (tab st) "account" then l ← account_view st; Some [l]
  else Some [].

(** The children the dashboard hands to the layout. *)
Definition render (st : State) : option Element :=
  content ← tab_view st;
  Some (Tag "div"
     [Tag "div"
        (Tag "div"
           (tab_buttons ["live"; "recordings"; "alerts"; "services"; "account"])
         :: content);
      Tag "div" [Component "AddCameraCard"; Component "AdminPanel"]]).

End Dashboard1.

Module AddCameraCard.
Import Number JS View.

Record State := {
  name : string;
  location : string;
  stream_url : string
}.

Definition initial : State :=
  {| name := "Front Door"; location := "Entrance"; stream_url := EmptyString |}.

Definition camera_body (f : State) : option string :=
  JSON.stringify
    (JObj [("name", JStr (name f)); ("location", JStr (location f));
           ("stream_url", JStr (stream_url f))]).

(** Run a computation of the dashboard from the card, as the callback
    [onAdded] does; the card does not await it, so its outcome is
    dropped. *)
Definition call_detached {A} (m : Eff.t Dashboard1.State A)
  : Eff.t (State * Dashboard1.State) unit :=
  fun s w =>
    let '(_, d, w') := m (snd s) w in (Done tt, (fst s, d), w').

Definition reset_form : Eff.t (State * Dashboard1.State) unit :=
  Eff.set (fun s => ({| name := EmptyString; location := EmptyString;
                        stream_url := EmptyString |}, snd s)).

(** [add], with the form as rendered and the [onAdded] prop. *)
Definition add (tok : JSValue) (cl : State)
  (onAdded : option (Eff.t Dashboard1.State unit))
  : Eff.t (State * Dashboard1.State) unit :=
  Eff.fetch "POST" "/cameras" (Auth.auth_headers tok) (camera_body cl) ;;
  reset_form ;;
  match onAdded with
  | Some callback => call_detached callback
  | None => Eff.ret tt
  end.

Definition render (st : State) : Element :=
  Tag "div"
    [Tag "div" [Text "Add Camera"];
     Input "input" "Name" (name st) (Edit "name");
     Input "input" "Location" (location st) (Edit "location");
     Input "input" "Stream URL (HLS)" (stream_url st) (Edit "stream_url");
     Button AddCamera false [Text "Add"]].

End AddCameraCard.

Module Recordings.
Import Number JS View.

Record State := { recordings : JSValue }.

Definition initial : State := {| recordings := JArr [] |}.

(** The effect run on mount. *)
Definition load (tok : JSValue) : Eff.t State unit :=
  res <- Eff.fetch "GET" "/recordings" (Auth.auth_headers tok) None ;;
  data <- Eff.json res ;;
  Eff.set (fun _ => {| recordings := data |}).

Definition card (date_text : JSValue -> string) (r : JSValue) : option Element :=
  started ← prop "started_at" r;
  ended ← prop "ended_at" r;
  url ← prop "playback_url" r;
  Some (Tag "div"
     [Tag "div"
        [Tag "div" [Text (date_text started); Text " - "; Text (date_text ended)]];
      Tag "div" [Media "video" url]]).

Definition placeholder : Element := Tag "div" [Text "No recordings found."].

Definition render (date_text : JSValue -> string) (st : State) : option Element :=
  cards ← map_array (card date_text) (recordings st);
  Some (Tag "div"
          ((if is_empty (recordings st) then [placeholder] else []) ++ cards)%list).

End Recordings.

Module Admin1.
Import Number JS View.

Record State := {
  tab : string;
  users : JSValue;
  cams : JSValue;
  svcs : JSValue;
  alertMsg : string;
  alertTitle : string
}.

Definition initial : State :=
  {| tab := "users"; users := JArr []; cams := JArr []; svcs := JArr [];
     alertMsg := EmptyString; alertTitle := "Motion detected" |}.

Definition isAdmin (usr : JSValue) : bool :=
  is_string "admin" (opt_prop "role" usr).

Definition setUsers (v : JSValue) : Eff.t State unit :=
  Eff.set (fun s => {| tab := tab s; users := v; cams := cams s; svcs := svcs s;
                       alertMsg := alertMsg s; alertTitle := alertTitle s |}).

Definition setCams (v : JSValue) : Eff.t State unit :=
  Eff.set (fun s => {| tab := tab s; users := users s; cams := v; svcs := svcs s;
                       alertMsg := alertMsg s; alertTitle := alertTitle s |}).

Definition setSvcs (v : JSValue) : Eff.t State unit :=
  Eff.set (fun s => {| tab := tab s; users := users s; cams := cams s; svcs := v;
                       alertMsg := alertMsg s; alertTitle := alertTitle s |}).

Definition setAlertMsg (m : string) : Eff.t State unit :=
  Eff.set (fun s => {| tab := tab s; users := users s; cams := cams s;
                       svcs := svcs s; alertMsg := m;
                       alertTitle := alertTitle s |}).

Definition load (tok usr : JSValue) : Eff.t State unit :=
  if negb (isAdmin usr) then Eff.ret tt
  else
    u <- Eff.start "GET" "/admin/users" (Auth.auth_headers tok) None ;;
    c <- Eff.start "GET" "/admin/cameras" (Auth.auth_headers tok) None ;;
    s <- Eff.start "GET" "/admin/services" (Auth.auth_headers tok) None ;;
    u <- Eff.settle u ;;
    c <- Eff.settle c ;;
    s <- Eff.settle s ;;
    ud <- Eff.json u ;; setUsers ud ;;
    cd <- Eff.json c ;; setCams cd ;;
    sd <- Eff.json s ;; setSvcs sd.

Definition alert_body (cl : State) : option string :=
  JSON.stringify
    (JObj [("title", JStr (alertTitle cl)); ("message", JStr (alertMsg cl));
           ("level", JStr "warning")]).

Definition sendAlert (tok : JSValue) (cl : State) : Eff.t State unit :=
  Eff.fetch "POST" "/admin/alerts" (Auth.auth_headers tok) (alert_body cl) ;;
  setAlertMsg EmptyString ;;
  Eff.alert "Alert sent".

Definition notice : Element :=
  Tag "div" [Tag "div" [Text "Admin panel available for admin accounts."]].

Definition user_row (u : JSValue) : option Element :=
  nm ← prop "name" u; nm_text ← child nm;
  em ← prop "email" u; em_text ← child em;
  role ← prop "role" u; role_text ← child role;
  Some (Tag "div"
     [Tag "div" [Tag "div" nm_text; Tag "div" em_text]; Tag "span" role_text]).

Definition camera_row (c : JSValue) : option Element :=
  nm ← prop "name" c; nm_text ← child nm;
  loc ← prop "location" c; loc_text ← child loc;
  st ← prop "status" c; st_text ← child st;
  Some (Tag "div"
     [Tag "div" [Tag "div" nm_text; Tag "div" loc_text]; Tag "span" st_text]).

Definition service_row (s : JSValue) : option Element :=
  ty ← prop "service_type" s; ty_text ← child ty;
  ad ← prop "address" s; ad_text ← child ad;
  st ← prop "status" s; st_text ← child st;
  Some (Tag "div"
     [Tag "div" [Tag "div" ty_text; Tag "div" ad_text]; Tag "span" st_text]).

(** A list tab of this panel: the rows and nothing else. *)
Definition list_view (row : JSValue -> option Element) (l : JSValue)
  : option Element :=
  rows ← map_array row l;
  Some (Tag "div" rows).

Definition alert_form (st : State) : Element :=
  Tag "div"
    [Input "input" "Title" (alertTitle st) (Edit "alertTitle");
     Input "textarea" "Message" (alertMsg st) (Edit "alertMsg");
     Button SendAlert false [Text "Send Alert"]].

Definition tab_view (st : State) : option (list Element) :=
  if String.eqb (tab st) "users" then l ← list_view user_row (users st); Some [l]
  else if String.eqb (tab st) "cameras" then l ← list_view camera_row (cams st); Some [l]
  else if String.eqb (tab st) "services" then l ← list_view service_row (svcs st); Some [l]
  else if String.eqb (tab st) "alerts" then Some [alert_form st]
  else Some [].

Definition render (usr : JSValue) (st : State) : option Element :=
  if negb (isAdmin usr) then Some notice
  else
    content ← tab_view st;
    Some (Tag "div"
            (Tag "div" (tab_buttons ["users"; "cameras"; "services"; "alerts"])
             :: content)).

End Admin1.

(** *** The requests of the panel actions *)

Module Sent.

(** A request with the bearer headers, as the panels build it. *)
Definition authorized (w : World) (meth path : string) (tok : JSValue)
  (payload : option string) : Request :=
  {| method := meth; url := API w +:+ path;
     headers := Auth.auth_headers tok; body := payload |}.

(** The world once [req] has left. *)
Definition after (w : World) (req : Request) : World :=
  Eff.with_log w (log w ++ [req])%list.

(** The backend answers [req], issued now, with a response (of any
    status). *)
Definition answered (w : World) (req : Request) : Prop :=
  exists ok text, server w (log w ++ [req])%list = Response ok text.

(** The same, with a success status. *)
Definition accepted (w : World) (req : Request) : Prop :=
  exists text, server w (log w ++ [req])%list = Response true text.

Definition refused (w : World) (req : Request) : Prop :=
  exists text, server w (log w ++ [req])%list = Response false text.

End Sent.

(** ** Sample worlds *)

Module Sample.
Import JS JSON.

(** A backend that looks at the last request only. *)
Definition answering (f : Request -> FetchResult) (history : list Request)
  : FetchResult :=
  match last history with
  | Some r => f r
  | None => NetworkError
  end.

Definition world (f : Request -> FetchResult) : World :=
  {| API := "http://localhost:8000"; server := answering f; log := [];
     localStorage := ∅; alerts := [] |}.

Definition signed_out : Session :=
  {| token := JStr EmptyString; user := JNull |}.

Definition ada : JSValue :=
  JObj [("_id", JStr "u1"); ("name", JStr "Ada");
        ("email", JStr "ada@example.org"); ("role", JStr "customer");
        ("visits", JNum 25)].

(** A sign-in answered with a token and the user [ada]. *)
Definition sign_in_text : BodyText :=
  {| body_text :=
       Auth.stringify_text (JObj [("token", JStr "t0k3n"); ("user", ada)]);
     body_within := eq_refl |}.

Definition sign_in_ok (r : Request) : FetchResult := Response true sign_in_text.

(** A sign-in answered with a user whose [id] is the number [1e999],
    which [JSON.parse] reads as Infinity. *)
Definition overflow_text : string :=
  "{" +:+ QuoteJSONString "token" +:+ ":" +:+ QuoteJSONString "t0k3n" +:+ ","
  +:+ QuoteJSONString "user" +:+ ":{" +:+ QuoteJSONString "id" +:+ ":1e999}}".

Definition sign_in_overflow (r : Request) : FetchResult :=
  Response true {| body_text := overflow_text; body_within := eq_refl |}.

Definition sign_in_refused (r : Request) : FetchResult :=
  Response false {| body_text := "no"; body_within := eq_refl |}.

Definition admin : JSValue :=
  JObj [("_id", JStr "u0"); ("name", JStr "Root");
        ("email", JStr "root@example.org"); ("role", JStr "admin")].

(** The text of an empty list. *)
Definition empty_list_text : BodyText :=
  {| body_text := "[]"; body_within := eq_refl |}.

(** Every request is answered with success and an empty list. *)
Definition empty_lists (r : Request) : FetchResult :=
  Response true empty_list_text.

(** Every request is answered with a failure status. *)
Definition refusing (r : Request) : FetchResult :=
  Response false empty_list_text.

Definition bearer : JSValue := JStr "t0k3n".

Definition cart_state : CartState :=
  {| items := CartView.example_cart; address := "1 Main St" |}.

(** The body of an accepted order. *)
Definition order_text : BodyText :=
  {| body_text :=
       Auth.stringify_text
         (JObj [("_id", JStr "o1"); ("total", JNum 26.75%float)]);
     body_within := eq_refl |}.

(** Orders are accepted with a total and an id, payments are refused. *)
Definition payment_refused (r : Request) : FetchResult :=
  if String.eqb (method r) "POST"
     && String.eqb (url r) "http://localhost:8000/orders"
  then Response true order_text
  else Response false {| body_text := "declined"; body_within := eq_refl |}.

End Sample.

(** ** The sign-in form ([AuthScreen], both variants) *)

Module AuthScreen.

Record State := {
  mode : string;
  name : string;
  email : string;
  password : string;
  loading : bool;
  error : string
}.

Definition initial : State :=
  {| mode := "login"; name := EmptyString; email := EmptyString;
     password := EmptyString; loading := false; error := EmptyString |}.

Definition setLoading (b : bool) : Eff.t (State * Session) unit :=
  Eff.set (fun s =>
    ({| mode := mode (fst s); name := name (fst s); email := email (fst s);
        password := password (fst s); loading := b; error := error (fst s) |},
     snd s)).

Definition setError (m : string) : Eff.t (State * Session) unit :=
  Eff.set (fun s =>
    ({| mode := mode (fst s); name := name (fst s); email := email (fst s);
        password := password (fst s); loading := loading (fst s); error := m |},
     snd s)).

(** [err.message]: the text given to [new Error(...)]; the text of the
    errors the engine raises itself is the engine's. *)
Definition message (engine_text : Exn -> string) (e : Exn) : string :=
  match e with
  | Error msg => msg
  | _ => engine_text e
  end.

(** [try { await call } catch (err) { handler err }] around a call of the
    auth client, which runs on the session. *)
Definition try_catch (call : Eff.t Session unit)
  (handler : Exn -> Eff.t (State * Session) unit) : Eff.t (State * Session) unit :=
  fun s w =>
    match call (snd s) w with
    | (Done _, sess, w') => (Done tt, (fst s, sess), w')
    | (Thrown e, sess, w') => handler e (fst s, sess) w'
    | (Untyped, sess, w') => (Untyped, (fst s, sess), w')
    end.

(** [submit], with the form as rendered and the props [onLogin] and
    [onRegister]; the [finally] block follows the normal and the caught
    end alike. *)
Definition submit (engine_text : Exn -> string) (cl : State)
  (onLogin : string -> string -> Eff.t Session unit)
  (onRegister : string -> string -> string -> Eff.t Session unit)
  : Eff.t (State * Session) unit :=
  setError EmptyString ;;
  setLoading true ;;
  try_catch
    (if String.eqb (mode cl) "login" then onLogin (email cl) (password cl)
     else onRegister (name cl) (email cl) (password cl))
    (fun err => setError (message engine_text err)) ;;
  setLoading false.

(** [setMode(mode==='login'?'register':'login')] *)
Definition toggle (cl : State) : State :=
  {| mode := if String.eqb (mode cl) "login" then "register" else "login";
     name := name cl; email := email cl; password := password cl;
     loading := loading cl; error := error cl |}.

End AuthScreen.

(** ** Measures and conditions on carts *)

Module CartStore.
Import Number JS JSONStable.

(** [Σ qty] over the lines. *)
Definition total_qty (l : list CartItem) : Z :=
  fold_right (fun i n => qty i + n) 0 l.

(** The line as [JSON.stringify] writes it: a missing image leaves no
    property behind. *)
Definition stored_json (i : CartItem) : JSValue :=
  JObj ([("product_id", JStr (product_id i));
         ("name", JStr (name i));
         ("price", JNum (price i));
         ("qty", JNum (of_Z (qty i)))]
        ++ match image i with Some u => [("image", JStr u)] | None => [] end)%list.

(** The Numbers of the line survive the text: the price prints back, and
    so does the quantity, as the same integer. *)
Definition line_prints_back (i : CartItem) : Prop :=
  prints_back (price i)
  /\ prints_back (of_Z (qty i))
  /\ Cart.to_Z (of_Z (qty i)) = Some (qty i).

(** The pairs that the order request carries. *)
Definition order_lines (l : list CartItem) : list (string * Z) :=
  map (fun i => (product_id i, qty i)) l.

End CartStore.

(** ** More sample data *)

Module Fixtures.
Import JS JSON.

(** A sign-up answered with a token and the user [ada]. *)
Definition sign_up_ok (r : Request) : FetchResult :=
  Response true Sample.sign_in_text.

(** Every request is refused, with a JSON object as body. *)
Definition error_text : BodyText :=
  {| body_text :=
       Auth.stringify_text (JObj [("detail", JStr "Not authenticated")]);
     body_within := eq_refl |}.

Definition error_objects (r : Request) : FetchResult :=
  Response false error_text.

(** Nothing is answered. *)
Definition offline (r : Request) : FetchResult := NetworkError.

(** A storage whose cart entry is not JSON. *)
Definition broken_cart : World :=
  {| API := "http://localhost:8000"; server := Sample.answering offline;
     log := []; localStorage := {[ "cart" := "{oops" ]}; alerts := [] |}.

Definition with_cart (l : list CartItem) : World :=
  {| API := "http://localhost:8000"; server := Sample.answering offline;
     log := []; localStorage := {[ "cart" := Cart.cart_text l ]};
     alerts := [] |}.

Definition login_form : AuthScreen.State :=
  {| AuthScreen.mode := "login"; AuthScreen.name := EmptyString;
     AuthScreen.email := "ada@example.org"; AuthScreen.password := "pw";
     AuthScreen.loading := false; AuthScreen.error := "old" |}.

End Fixtures.


(** ** Further requests and conditions *)

Module Calls.

Definition register_request (w : World) (name email password : string)
  : Request :=
  {| method := "POST"; url := API w +:+ "/auth/register";
     headers := Auth.json_headers;
     body := Auth.register_body name email password |}.

(** A call of the auth client run from [s] and [w] either ends normally
    with a whole session stored and published, or throws with the session
    and the storage as they were. *)
Definition all_or_nothing (call : Eff.t Session unit) (s : Session) (w : World)
  : Prop :=
  let '(out, s', w') := call s w in
  (out = Done tt
   /\ exists tok usr,
       s' = {| token := tok; user := usr |}
       /\ localStorage w'
          = <["user" := Auth.stringify_text usr]>
              (<["token" := JS.ToString tok]> (localStorage w)))
  \/ ((exists e, out = Thrown e)
      /\ s' = s /\ localStorage w' = localStorage w).

(** The request the form sends in its mode. *)
Definition submit_request (w : World) (cl : AuthScreen.State) : Request :=
  if String.eqb (AuthScreen.mode cl) "login"
  then Requests.login_request w (AuthScreen.email cl) (AuthScreen.password cl)
  else register_request w (AuthScreen.name cl) (AuthScreen.email cl)
         (AuthScreen.password cl).

(** The text of the refusal in the mode of the form. *)
Definition refusal_text (cl : AuthScreen.State) : string :=
  if String.eqb (AuthScreen.mode cl) "login" then "Invalid credentials"
  else "Registration failed".

End Calls.


(** ** Agreement of the cart panel and the storage *)

Module Stored.

(** A remount of the cart panel in [w] shows the lines of [s]. *)
Definition in_step (s : CartState) (w : World) : Prop :=
  Cart.init tt w = (Done {| items := items s; address := EmptyString |}, tt, w).

(** The lines of the products other than [pid]. *)
Definition others (pid : string) (l : list CartItem) : list CartItem :=
  List.filter (fun i => negb (String.eqb (product_id i) pid)) l.

Definition ids (l : list CartItem) : list string := map product_id l.

(** The line [addToCart] pushes for a product that is not in the cart. *)
Definition new_line (p : Product) : CartItem :=
  {| product_id := p_id p; name := p_name p; price := p_price p; qty := 1;
     image := p_image p |}.

(** A product as the shop receives it. *)
Definition lens : JSValue :=
  JObj [("_id", JStr "p3"); ("name", JStr "Lens"); ("price", JNum 7);
        ("images", JArr [JStr "lens.png"])].

Definition lens_product : Product :=
  {| p_id := "p3"; p_name := "Lens"; p_price := 7; p_image := Some "lens.png" |}.

(** Orders and payments are accepted. *)
Definition paying (r : Request) : FetchResult :=
  Response true Sample.order_text.

Definition shop_world (l : list CartItem) : World :=
  {| API := "http://localhost:8000"; server := Sample.answering paying;
     log := []; localStorage := {[ "cart" := Cart.cart_text l ]};
     alerts := [] |}.

End Stored.


(** ** The requests of the load routines and their answers *)

Module Loads.
Import Sent.

(** The answer to the request number [k] of a batch sent from [w]: the
    backend sees the log and the batch up to that request. *)
Definition answer_at (w : World) (reqs : list Request) (k : nat) : FetchResult :=
  server w (log w ++ firstn (S k) reqs)%list.

(** The value [await res.json()] yields for that answer, if any. *)
Definition body_at (w : World) (reqs : list Request) (k : nat) : option JSValue :=
  match answer_at w reqs k with
  | Response _ text => JSON.parse text
  | NetworkError => None
  end.

Definition lost (w : World) (reqs : list Request) (k : nat) : Prop :=
  answer_at w reqs k = NetworkError.

Definition answered_at (w : World) (reqs : list Request) (k : nat) : Prop :=
  exists ok text, answer_at w reqs k = Response ok text.

(** [fetch(`${API}/products`)]: no headers. *)
Definition plain (w : World) (meth path : string) : Request :=
  {| method := meth; url := API w +:+ path; headers := []; body := None |}.

(** The batch of [AdminPanel.load] in variant 2. *)
Definition admin_requests (w : World) (tok : JSValue) : list Request :=
  [authorized w "GET" "/admin/users" tok None;
   plain w "GET" "/products";
   authorized w "GET" "/admin/orders" tok None;
   authorized w "GET" "/admin/services" tok None].

(** The batch of [Dashboard.load] in variant 1. *)
Definition dashboard_requests (w : World) (tok : JSValue) : list Request :=
  [authorized w "GET" "/cameras" tok None;
   authorized w "GET" "/alerts" tok None;
   authorized w "GET" "/services" tok None;
   authorized w "GET" "/subscription" tok None].

Definition pay_request (w : World) (tok : JSValue) : Request :=
  authorized w "POST" "/payments/checkout" tok Dashboard1.pay_body.

(** The request of [Shop.load] for the filters of the form. *)
Definition products_request (w : World) (cl : Shop.State) : Request :=
  plain w "GET"
    ("/products?" +:+
     Builtins.search_params
       ((if Number.nonempty (Shop.q cl) then [("q", Shop.q cl)] else [])
        ++ (if Number.nonempty (Shop.category cl)
            then [("category", Shop.category cl)] else []))%list).

Definition is_array (v : JSValue) : bool :=
  match v with JArr _ => true | _ => false end.

(** The buttons of a tree that are disabled. *)
Fixpoint disabled_buttons (e : Element) : list Handler :=
  match e with
  | Button h d children =>
      ((if d then [h] else []) ++ flat_map disabled_buttons children)%list
  | Tag _ children => flat_map disabled_buttons children
  | _ => []
  end.

(** The three buttons of a cart line. *)
Definition line_handlers (i : CartItem) : list Handler :=
  [UpdateQty (product_id i) (-1); UpdateQty (product_id i) 1;
   RemoveItem (product_id i)].

(** Every request is answered with success and the same JSON object. *)
Definition plan_pro (r : Request) : FetchResult :=
  Response true
    {| body_text := Auth.stringify_text (JObj [("plan", JStr "pro")]);
       body_within := eq_refl |}.

End Loads.


(** ** Conditions on the texts of a form and sample panel states *)

Module Texts.
Import Number.

Fixpoint contains (c : ascii) (s : string) : bool :=
  match s with
  | EmptyString => false
  | String x r => Ascii.eqb x c || contains c r
  end.

Definition first_char (s : string) : option ascii :=
  match s with
  | EmptyString => None
  | String c _ => Some c
  end.

Definition last_char (s : string) : option ascii :=
  first_char (Builtins.rev_string s EmptyString).

Fixpoint all_space (s : string) : bool :=
  match s with
  | EmptyString => true
  | String c r => Builtins.is_space c && all_space r
  end.

Definition not_space (c : option ascii) : bool :=
  match c with
  | Some x => negb (Builtins.is_space x)
  | None => true
  end.

(** A text that is not empty, holds no comma and neither starts nor ends
    with white space. *)
Definition clean (u : string) : bool :=
  nonempty u && negb (contains "," u)
  && not_space (first_char u) && not_space (last_char u).

(** The images of the request of [createProduct]. *)
Definition images_sent (f : Admin.ProductForm) : list string :=
  Builtins.split_trimmed (Admin.f_images f).

(** The statuses an order row offers. *)
Definition order_statuses : list string :=
  ["paid"; "processing"; "shipped"; "completed"; "cancelled"].

Definition admin_tabs : list Handler :=
  map SetTab ["products"; "orders"; "customers"; "services"].

(** An admin panel with one product and one order, on its products tab. *)
Definition stocked : Admin.State :=
  {| Admin.tab := "products"; Admin.users := JArr [];
     Admin.products :=
       JArr [JObj [("_id", JStr "p1"); ("name", JStr "Camera");
                   ("category", JStr "camera"); ("price", JNum 10);
                   ("stock", JNum 3)]];
     Admin.orders :=
       JArr [JObj [("_id", JStr "o1"); ("created_at", JStr "2024-01-01");
                   ("items", JArr [JNull]); ("total", JNum 10);
                   ("status", JStr "paid")]];
     Admin.svcs := JArr []; Admin.pForm := Admin.empty_form |}.

End Texts.


(** ** Quantities as Numbers *)

Module Quantities.
Import Number.

(** The quantity is an integer that binary64 holds with its neighbours:
    below [2^53] in magnitude, adding or taking one is exact. *)
Definition safe (i : CartItem) : Prop := Z.abs (qty i) < 2 ^ 53.

(** The number of items of the product [pid] in the cart. *)
Definition count (pid : string) (l : list CartItem) : Z :=
  CartStore.total_qty
    (List.filter (fun i => String.eqb (product_id i) pid) l).

(** Integers around the powers of two, of both signs, on which the
    rounding of integers is compared with the Numbers themselves. *)
Definition grid : list Z :=
  flat_map
    (fun e => flat_map (fun o => [2 ^ Z.of_nat e + o; - (2 ^ Z.of_nat e + o)])
                [-7; -6; -5; -4; -3; -2; -1; 0; 1; 2; 3; 4; 5; 6; 7])
    (seq 0 80).

(** [round_int z] is the integer of the Number [of_Z z]. *)
Definition rounds_as_number (z : Z) : bool :=
  match Cart.to_Z (of_Z z) with
  | Some r => r =? round_int z
  | None => false
  end.

(** [int_add a d] is the integer of the sum of the Numbers. *)
Definition adds_as_numbers (a d : Z) : bool :=
  match Cart.to_Z (of_Z a + of_Z d)%float with
  | Some r => r =? int_add a d
  | None => false
  end.

End Quantities.


(** ** Texts at the edge of the model *)

Module Reach.
Import JSON.

(** An array with one string literal that holds a u-escape above 00FF. *)
Definition wide_text : string :=
  "[" +:+ quote_mark +:+ "a\u0141b" +:+ quote_mark +:+ "]".

(** The same with a u-escape below 0100. *)
Definition narrow_text : string :=
  "[" +:+ quote_mark +:+ "a\u00f3b" +:+ quote_mark +:+ "]".

(** The same as the first with the string literal left open. *)
Definition open_text : string :=
  "[" +:+ quote_mark +:+ "a\u0141b" +:+ "]".

(** An object whose members come with a repeated key and with array
    indices out of order. *)
Definition keyed_text : string :=
  "{" +:+ QuoteJSONString "b" +:+ ":true,"
  +:+ QuoteJSONString "2" +:+ ":false,"
  +:+ QuoteJSONString "01" +:+ ":null,"
  +:+ QuoteJSONString "1" +:+ ":true,"
  +:+ QuoteJSONString "b" +:+ ":null,"
  +:+ QuoteJSONString "4294967295" +:+ ":false,"
  +:+ QuoteJSONString "0" +:+ ":null}".

End Reach.

(* ===================================================================== *)
(** * Properties *)
(* ===================================================================== *)

(** ** Digit strings *)

Module CharsFacts.
Import Chars.

Lemma digit_char_spec d :
  0 <= d < 10 -> is_digit (digit_char d) = true /\ digit_val (digit_char d) = d.
Proof.
  intros H.
  assert (d = 0 \/ d = 1 \/ d = 2 \/ d = 3 \/ d = 4 \/ d = 5 \/ d = 6
          \/ d = 7 \/ d = 8 \/ d = 9) as Hd by lia.
  repeat (destruct Hd as [-> | Hd]; [split; reflexivity |]).
  subst d; split; reflexivity.
Qed.

Lemma app_nil_l t : EmptyString +:+ t = t.
Proof. reflexivity. Qed.

Lemma app_cons c s t : String c s +:+ t = String c (s +:+ t).
Proof. reflexivity. Qed.

Lemma app_nil_r s : s +:+ EmptyString = s.
Proof. induction s as [| c s IH]; rewrite ?app_cons, ?app_nil_l; congruence. Qed.

Lemma app_assoc s t u : (s +:+ t) +:+ u = s +:+ (t +:+ u).
Proof. induction s as [| c s IH]; rewrite ?app_cons, ?app_nil_l; congruence. Qed.

Lemma digits_value_from_app a s t :
  digits_value_from a (s +:+ t) = digits_value_from (digits_value_from a s) t.
Proof.
  revert a; induction s as [| c s IH]; intros a;
    rewrite ?app_cons, ?app_nil_l; simpl; auto.
Qed.

Lemma all_digits_app s t :
  all_digits (s +:+ t) = (all_digits s && all_digits t)%bool.
Proof.
  induction s as [| c s IH]; rewrite ?app_cons, ?app_nil_l; simpl; auto.
  rewrite IH. now rewrite andb_assoc.
Qed.

Lemma length_app s t :
  String.length (s +:+ t) = (String.length s + String.length t)%nat.
Proof.
  induction s as [| c s IH]; rewrite ?app_cons, ?app_nil_l; simpl; auto.
Qed.

(** What [digits_go] prepends: a non-empty digit string whose value is
    [n] once the fuel covers the digits of [n]. *)
Lemma digits_go_spec fuel : forall n acc,
  0 <= n ->
  exists d, digits_go (S fuel) n acc = d +:+ acc
            /\ all_digits d = true /\ d <> EmptyString
            /\ (n < 10 ^ Z.of_nat (S fuel) ->
                forall a, digits_value_from a d
                          = a * 10 ^ Z.of_nat (String.length d) + n).
Proof.
  induction fuel as [| fuel IH]; intros n acc Hn.
  - cbn [digits_go].
    exists (String (digit_char (n mod 10)) EmptyString).
    destruct (digit_char_spec (n mod 10)) as [Hd Hv];
      [apply Z.mod_pos_bound; lia |].
    repeat split.
    + now destruct (n <? 10).
    + cbn. now rewrite Hd.
    + discriminate.
    + intros Hlt a. cbn [digits_value_from String.length].
      rewrite Hv. change (10 ^ Z.of_nat 1) with 10 in *.
      rewrite Z.mod_small by lia. lia.
  - remember (S fuel) as f eqn:Ef.
    cbn [digits_go].
    destruct (digit_char_spec (n mod 10)) as [Hd Hv];
      [apply Z.mod_pos_bound; lia |].
    destruct (Z.ltb_spec n 10) as [Hsmall | Hbig].
    + exists (String (digit_char (n mod 10)) EmptyString).
      repeat split.
      * cbn. now rewrite Hd.
      * discriminate.
      * intros _ a. cbn [digits_value_from String.length].
        rewrite Hv. change (10 ^ Z.of_nat 1) with 10.
        rewrite Z.mod_small by lia. lia.
    + subst f.
      destruct (IH (n / 10) (String (digit_char (n mod 10)) acc))
        as (d & Hgo & Hall & Hne & Hval).
      { apply Z.div_pos; lia. }
      exists (d +:+ String (digit_char (n mod 10)) EmptyString).
      rewrite Hgo. repeat split.
      * now rewrite app_assoc.
      * rewrite all_digits_app, Hall. cbn. now rewrite Hd.
      * destruct d; [congruence | discriminate].
      * intros Hlt a.
        rewrite digits_value_from_app. cbn [digits_value_from].
        rewrite Hval, Hv.
        2:{ apply Z.div_lt_upper_bound; [lia |].
            rewrite <- Z.pow_succ_r by lia.
            now rewrite <- Nat2Z.inj_succ. }
        rewrite length_app. cbn [String.length].
        rewrite Nat2Z.inj_add. change (Z.of_nat 1) with 1.
        rewrite Z.pow_add_r by lia. change (10 ^ 1) with 10.
        pose proof (Z.div_mod n 10). lia.
Qed.

Lemma digits_of_spec n :
  0 <= n ->
  all_digits (digits_of n) = true /\ digits_of n <> EmptyString
  /\ digits_value (digits_of n) = n.
Proof.
  intros Hn. unfold digits_of, digits_value.
  destruct (digits_go_spec (Z.to_nat (Z.log2 n)) n EmptyString Hn)
    as (d & Hgo & Hall & Hne & Hval).
  rewrite Hgo, app_nil_r. repeat split; auto.
  rewrite Hval; [lia |].
  rewrite Nat2Z.inj_succ, Z2Nat.id by apply Z.log2_nonneg.
  destruct (Z.eq_dec n 0) as [-> | Hnz]; [reflexivity |].
  pose proof (Z.log2_spec n ltac:(lia)) as [_ Hup].
  eapply Z.lt_le_trans; [exact Hup |].
  apply Z.pow_le_mono_l. lia.
Qed.

Lemma digits_value_zeros j s :
  digits_value (zeros j +:+ s) = digits_value s.
Proof.
  unfold digits_value. induction j as [| j IH]; [reflexivity |].
  cbn [zeros]. rewrite app_cons. cbn [digits_value_from]. exact IH.
Qed.

Lemma all_digits_zeros j : all_digits (zeros j) = true.
Proof. induction j; simpl; auto. Qed.

Lemma length_zeros j : String.length (zeros j) = j.
Proof. induction j; simpl; congruence. Qed.

Lemma take_drop j s : take j s +:+ drop j s = s.
Proof.
  revert s; induction j as [| j IH]; intros [| c s]; try reflexivity.
  cbn [take drop]. rewrite app_cons. now rewrite IH.
Qed.

Lemma length_take j s :
  (j <= String.length s)%nat -> String.length (take j s) = j.
Proof.
  revert s; induction j as [| j IH]; intros [| c s] H; simpl in *;
    try reflexivity; try lia.
  rewrite IH; [reflexivity | lia].
Qed.

Lemma length_drop j s :
  String.length (drop j s) = (String.length s - j)%nat.
Proof.
  revert s; induction j as [| j IH]; intros [| c s]; simpl; auto.
Qed.

Lemma span_digits_app a rest :
  all_digits a = true ->
  (forall c r, rest = String c r -> is_digit c = false) ->
  span_digits (a +:+ rest) = (a, rest).
Proof.
  intros Ha Hrest. induction a as [| c a IH].
  - rewrite app_nil_l. destruct rest as [| c r]; [reflexivity |].
    cbn [span_digits]. now rewrite (Hrest c r eq_refl).
  - rewrite app_cons. cbn [span_digits].
    cbn [all_digits] in Ha. apply andb_prop in Ha as [Hc Ha].
    rewrite Hc, (IH Ha). reflexivity.
Qed.

Lemma span_digits_all a :
  all_digits a = true -> span_digits a = (a, EmptyString).
Proof.
  intros Ha. rewrite <- (app_nil_r a) at 1.
  apply span_digits_app; [assumption | discriminate].
Qed.

End CharsFacts.

(** ** Numbers and the order summary *)

Module NumberFacts.
Import Chars CharsFacts Number PricingSpec.

Lemma fraction_pos m e num den :
  fraction m e = (num, den) -> 0 < num /\ 0 < den.
Proof.
  unfold fraction. destruct (Z.leb_spec 0 e) as [He | He];
    intros [= <- <-]; split;
    first [ lia | apply Z.pow_pos_nonneg; lia
          | apply Z.mul_pos_pos; [lia | apply Z.pow_pos_nonneg; lia] ].
Qed.

Lemma nearest_scaled_nonneg f m e : 0 <= nearest_scaled f m e.
Proof.
  unfold nearest_scaled. destruct (fraction m e) as [num den] eqn:E.
  apply fraction_pos in E as [Hn Hd].
  assert (0 < 10 ^ Z.of_nat f) by (apply Z.pow_pos_nonneg; lia).
  apply Z.div_pos; nia.
Qed.

(** The integer [toFixed] prints is a closest one. *)
Lemma nearest_scaled_closest f m e :
  closest_scaled f m e (nearest_scaled f m e).
Proof.
  unfold closest_scaled, nearest_scaled.
  destruct (fraction m e) as [num den] eqn:E.
  apply fraction_pos in E as [Hn Hd].
  set (A := num * 10 ^ Z.of_nat f).
  replace (2 * num * 10 ^ Z.of_nat f) with (2 * A) by (unfold A; ring).
  set (n := (2 * A + den) / (2 * den)).
  assert (Hlo : 2 * den * n <= 2 * A + den)
    by (apply Z.mul_div_le; lia).
  assert (Hhi : 2 * A + den < 2 * den * (n + 1)).
  { pose proof (Z.mod_pos_bound (2 * A + den) (2 * den) ltac:(lia)).
    pose proof (Z.div_mod (2 * A + den) (2 * den) ltac:(lia)).
    fold n in H0. lia. }
  intros k.
  destruct (Z.eq_dec k n) as [-> | Hk]; [lia |].
  assert (2 * Z.abs (n * den - A) <= den) by lia.
  assert (den <= 2 * Z.abs (k * den - A)); [| lia].
  assert (k <= n - 1 \/ n + 1 <= k) as [Hl | Hr] by lia; nia.
Qed.

Lemma digit_not_I c r : is_digit c = true -> String.eqb (String c r) "Infinity" = false.
Proof.
  intros Hc. cbn [String.eqb].
  destruct (Ascii.eqb_spec c "I") as [-> | Hne]; [discriminate Hc | reflexivity].
Qed.

Lemma scan_sign_digit neg c r :
  is_digit c = true ->
  scan_sign (sign_text neg +:+ String c r) = (sign_of neg, String c r).
Proof.
  intros Hc. destruct neg; [reflexivity |].
  rewrite app_nil_l. unfold scan_sign, sign_of.
  destruct (Ascii.eqb_spec c "-") as [-> | ?]; [discriminate Hc |].
  destruct (Ascii.eqb_spec c "+") as [-> | ?]; [discriminate Hc |].
  destruct c as [[] [] [] [] [] [] [] []]; try reflexivity; congruence.
Qed.

Lemma sign_text_nonempty neg c r :
  exists c' r', sign_text neg +:+ String c r = String c' r'.
Proof. destruct neg; [exists "-"%char, (String c r) | exists c, r]; reflexivity. Qed.

Lemma is_neg_sign_of neg : is_neg (sign_of neg) = neg.
Proof. now destruct neg. Qed.

(** Reading back digits followed by a fraction part. *)
Lemma read_fraction neg a b :
  all_digits a = true -> a <> EmptyString -> all_digits b = true ->
  StringToNumber (sign_text neg +:+ a +:+ "." +:+ b)
  = of_decimal neg (digits_value (a +:+ b)) (- Z.of_nat (String.length b)).
Proof.
  intros Ha Hne Hb.
  destruct a as [| c a]; [congruence |].
  pose proof Ha as Hca.
  cbn [all_digits] in Ha. apply andb_prop in Ha as [Hc Ha].
  rewrite app_cons.
  assert (Hscan : scan_literal (sign_text neg +:+ String c (a +:+ "." +:+ b))
                  = ({| lit_sign := sign_of neg; lit_int := String c a;
                        lit_frac := Some b; lit_exp := None |}, EmptyString)).
  { unfold scan_literal. rewrite (scan_sign_digit _ _ _ Hc).
    rewrite <- app_cons, span_digits_app; [| assumption |].
    2:{ intros c' r'. rewrite app_cons. intros [= <- _]. reflexivity. }
    rewrite app_cons, app_nil_l.
    rewrite (span_digits_all b Hb). reflexivity. }
  unfold StringToNumber.
  destruct (sign_text_nonempty neg c (a +:+ "." +:+ b)) as (c' & r' & E).
  rewrite Hscan. rewrite E at 1. rewrite (scan_sign_digit _ _ _ Hc).
  rewrite (digit_not_I _ _ Hc).
  unfold str_decimal_ok, literal_value, literal_exponent.
  cbn [lit_sign lit_int lit_frac lit_exp nonempty orb andb negb].
  rewrite is_neg_sign_of. f_equal; lia.
Qed.

(** Reading back digits alone. *)
Lemma read_integer neg a :
  all_digits a = true -> a <> EmptyString ->
  StringToNumber (sign_text neg +:+ a)
  = of_decimal neg (digits_value a) 0.
Proof.
  intros Ha Hne.
  destruct a as [| c a]; [congruence |].
  pose proof Ha as Hca.
  cbn [all_digits] in Ha. apply andb_prop in Ha as [Hc Ha].
  assert (Hscan : scan_literal (sign_text neg +:+ String c a)
                  = ({| lit_sign := sign_of neg; lit_int := String c a;
                        lit_frac := None; lit_exp := None |}, EmptyString)).
  { unfold scan_literal. rewrite (scan_sign_digit _ _ _ Hc).
    rewrite (span_digits_all _ Hca). reflexivity. }
  unfold StringToNumber.
  destruct (sign_text_nonempty neg c a) as (c' & r' & E).
  rewrite Hscan. rewrite E at 1. rewrite (scan_sign_digit _ _ _ Hc).
  rewrite (digit_not_I _ _ Hc).
  unfold str_decimal_ok, literal_value, literal_exponent.
  cbn [lit_sign lit_int lit_frac lit_exp nonempty orb andb negb].
  rewrite is_neg_sign_of, app_nil_r. reflexivity.
Qed.

(** The text of [toFixed], read back by unary plus, is the Number of
    the decimal [n / 10^f]. *)
Lemma read_fixed_digits neg f n :
  0 <= n ->
  StringToNumber (sign_text neg +:+ fixed_digits f n)
  = of_decimal neg n (- Z.of_nat f).
Proof.
  intros Hn.
  destruct (digits_of_spec n Hn) as (Hall & Hne & Hval).
  unfold fixed_digits. destruct f as [| f].
  - rewrite read_integer by assumption. now rewrite Hval.
  - set (m := digits_of n) in *.
    set (m' := if (String.length m <=? S f)%nat
               then zeros (S f + 1 - String.length m) +:+ m else m).
    assert (Hall' : all_digits m' = true).
    { unfold m'. destruct (_ <=? _)%nat; [| assumption].
      now rewrite all_digits_app, all_digits_zeros. }
    assert (Hval' : digits_value m' = n).
    { unfold m'. destruct (_ <=? _)%nat; [| assumption].
      now rewrite digits_value_zeros. }
    assert (Hlen : (S f < String.length m')%nat).
    { unfold m'. destruct (Nat.leb_spec (String.length m) (S f)); [| lia].
      rewrite length_app, length_zeros. lia. }
    cbv zeta.
    set (j := (String.length m' - S f)%nat).
    pose proof (take_drop j m') as Htd.
    assert (Ha : all_digits (take j m') = true /\ all_digits (drop j m') = true).
    { rewrite <- Htd, all_digits_app in Hall'. now apply andb_prop in Hall'. }
    destruct Ha as [Ha Hb].
    rewrite read_fraction; try assumption.
    + rewrite Htd, Hval', length_drop. f_equal. unfold j. lia.
    + intros E. pose proof (length_take j m' ltac:(unfold j; lia)) as Hl.
      rewrite E in Hl. cbn in Hl. unfold j in Hl. lia.
Qed.

(** [+(x).toFixed(f)] is [x] rounded to [f] decimal places. *)
Lemma toFixed_rounded f x : rounded_to f x (StringToNumber (toFixed f x)).
Proof.
  unfold rounded_to, toFixed, Number_toString.
  destruct (Prim2SF x) as [s | s | | s m e] eqn:E.
  - rewrite <- (app_nil_l (fixed_digits f 0)).
    change EmptyString with (sign_text false).
    rewrite read_fixed_digits by lia. reflexivity.
  - destruct s; vm_compute; reflexivity.
  - vm_compute; reflexivity.
  - destruct (at_least_1e21 m e).
    + cbn [SF_toString]. destruct (shortest m e) as [[d n] k].
      now rewrite app_nil_l.
    + exists (nearest_scaled f m e). split; [| split].
      * apply nearest_scaled_nonneg.
      * apply nearest_scaled_closest.
      * apply (read_fixed_digits s f), nearest_scaled_nonneg.
Qed.

(** Integers up to [2^53] in magnitude are Numbers. *)
Lemma round_int_small z : Z.abs z <= 2 ^ 53 -> round_int z = z.
Proof.
  intros H. unfold round_int.
  destruct (Z.leb_spec (Z.abs z) (2 ^ 53)); [reflexivity | lia].
Qed.

(** Rounding keeps a positive integer positive. *)
Lemma round_int_pos z : 1 <= z -> 1 <= round_int z.
Proof.
  intros Hz. unfold round_int.
  destruct (Z.leb_spec (Z.abs z) (2 ^ 53)) as [_ | Hbig]; [exact Hz |].
  rewrite (Z.abs_eq z) in * by lia. rewrite (Z.sgn_pos z) by lia.
  set (e := Z.log2 z - 52).
  assert (Hlog : 53 <= Z.log2 z).
  { apply Z.log2_le_pow2; lia. }
  assert (He : 0 <= e) by (unfold e; lia).
  assert (Hpow : 0 < 2 ^ e) by (apply Z.pow_pos_nonneg; lia).
  assert (Hle : 2 ^ e <= z).
  { transitivity (2 ^ Z.log2 z).
    - apply Z.pow_le_mono_r; unfold e; lia.
    - apply Z.log2_spec. lia. }
  assert (Hm : 1 <= z / 2 ^ e).
  { apply Z.div_le_lower_bound; lia. }
  destruct (_ || _); nia.
Qed.

Lemma int_add_exact a b :
  Z.abs a <= 2 ^ 53 -> Z.abs b <= 2 ^ 53 -> Z.abs (a + b) <= 2 ^ 53 ->
  int_add a b = a + b.
Proof.
  intros Ha Hb Hab. unfold int_add.
  rewrite (round_int_small a Ha), (round_int_small b Hb).
  now apply round_int_small.
Qed.

Lemma int_add_pos q : 1 <= q -> 1 <= int_add q 1.
Proof.
  intros Hq. unfold int_add. apply round_int_pos.
  pose proof (round_int_pos q Hq). rewrite (round_int_small 1) by (cbn; lia). lia.
Qed.

End NumberFacts.

Module CartViewFacts.
Import Number PricingSpec CartView NumberFacts.

Lemma sigma_ext n t1 t2 :
  (forall k, (k < n)%nat -> t1 k = t2 k) -> sigma n t1 = sigma n t2.
Proof.
  induction n as [| n IH]; intros H; [reflexivity |].
  cbn [sigma]. rewrite IH, H; auto.
Qed.

Lemma subtotal_snoc items i :
  subtotal (items ++ [i]) = (subtotal items + line_total i)%float.
Proof. unfold subtotal. now rewrite fold_left_app. Qed.

(** The reduce of the view is the sum of the line totals in order. *)
Lemma subtotal_sigma items :
  subtotal items = sigma (length items) (line_at items).
Proof.
  induction items as [| i items IH] using rev_ind; [reflexivity |].
  rewrite subtotal_snoc, length_app, Nat.add_1_r. cbn [sigma].
  rewrite IH. f_equal.
  - apply sigma_ext. intros k Hk. unfold line_at.
    now rewrite lookup_app_l.
  - unfold line_at, line_total.
    now rewrite list_lookup_middle.
Qed.

(** C1. For every cart the view's subtotal is the sum of price times
    qty over the lines, its tax is subtotal times 0.07 rounded to two
    decimal places and its total is subtotal plus tax rounded to two
    decimal places; the cart [{price 10, qty 2}, {price 5, qty 1}]
    gives 25.00, 1.75 and 26.75. *)
Theorem C1_cart_pricing (items : list CartItem) :
  subtotal items = sigma (length items) (line_at items)
  /\ rounded_to 2 (subtotal items * lit_0_07) (tax items)
  /\ rounded_to 2 (subtotal items + tax items) (total items)
  /\ (subtotal example_cart = 25%float
      /\ tax example_cart = 1.75%float
      /\ total example_cart = 26.75%float
      /\ summary_text example_cart = ("25.00", "1.75", "26.75")).
Proof.
  split; [apply subtotal_sigma |].
  split; [apply toFixed_rounded |].
  split; [apply toFixed_rounded |].
  repeat split; vm_compute; reflexivity.
Qed.

End CartViewFacts.

(** ** JSON: parse after stringify *)

Module JSONFacts.
Import Chars CharsFacts Number JS JSON JSONStable.

(** One escaped code unit is read back as that code unit. *)
Lemma parse_string_step c tail :
  parse_string_body (escape_char c +:+ tail)
  = cons_char c (parse_string_body tail).
Proof. destruct c as [[] [] [] [] [] [] [] []]; reflexivity. Qed.

Lemma parse_string_escape s rest :
  parse_string_body (escape s +:+ quote_mark +:+ rest) = Some (s, rest).
Proof.
  induction s as [| c s IH]; [reflexivity |].
  cbn [escape]. rewrite app_assoc, parse_string_step, IH. reflexivity.
Qed.

Lemma parse_quoted s rest :
  exists r, QuoteJSONString s +:+ rest = String quote_char r
            /\ parse_string_body r = Some (s, rest).
Proof.
  exists (escape s +:+ quote_mark +:+ rest). split.
  - unfold QuoteJSONString. rewrite !app_assoc. reflexivity.
  - apply parse_string_escape.
Qed.

Lemma skip_ws_delimited rest : delimited rest = true -> skip_ws rest = rest.
Proof.
  destruct rest as [| c r]; [reflexivity |]. cbn [delimited skip_ws].
  intros H.
  destruct (Ascii.eqb_spec c ",") as [-> | _]; [reflexivity |].
  destruct (Ascii.eqb_spec c "]") as [-> | _]; [reflexivity |].
  destruct (Ascii.eqb_spec c "}") as [-> | _]; [reflexivity | discriminate].
Qed.

Lemma delimited_not_num c r :
  delimited (String c r) = true -> num_char c = false.
Proof.
  cbn [delimited]. intros H.
  destruct (Ascii.eqb_spec c ",") as [-> | _]; [reflexivity |].
  destruct (Ascii.eqb_spec c "]") as [-> | _]; [reflexivity |].
  destruct (Ascii.eqb_spec c "}") as [-> | _]; [reflexivity | discriminate].
Qed.

Lemma span_number_app tok rest :
  all_num_chars tok = true -> delimited rest = true ->
  span_number (tok +:+ rest) = (tok, rest).
Proof.
  intros Ht Hr. induction tok as [| c t IH].
  - rewrite app_nil_l. destruct rest as [| c r]; [reflexivity |].
    cbn [span_number]. now rewrite (delimited_not_num c r Hr).
  - rewrite app_cons. cbn [span_number].
    cbn [all_num_chars] in Ht. apply andb_prop in Ht as [Hc Ht].
    now rewrite Hc, (IH Ht).
Qed.

Lemma number_token_app tok x rest :
  number_like tok = true -> JSON_number tok = Some x -> delimited rest = true ->
  number_token (tok +:+ rest) = Some (JNum x, rest).
Proof.
  intros Hl Hx Hr. unfold number_token.
  destruct tok as [| c t]; [discriminate |].
  cbn [number_like] in Hl. apply andb_prop in Hl as [_ Hall].
  now rewrite (span_number_app _ _ Hall Hr), Hx.
Qed.

(** A number token is dispatched to the number reader. *)
Lemma parse_value_number fuel c t x rest :
  number_like (String c t) = true -> JSON_number (String c t) = Some x ->
  delimited rest = true ->
  parse_value (S fuel) (String c t +:+ rest) = Some (JNum x, rest).
Proof.
  intros Hl Hx Hr.
  pose proof (number_token_app _ _ _ Hl Hx Hr) as Htok.
  cbn [number_like] in Hl. apply andb_prop in Hl as [Hc _].
  rewrite app_cons in *. cbn [parse_value skip_ws].
  assert (Hcase : is_digit c = true \/ c = "-"%char).
  { apply orb_prop in Hc as [Hc | Hc]; [now left | right].
    apply Z.eqb_eq in Hc. unfold code in Hc.
    rewrite <- (ascii_nat_embedding c).
    replace (nat_of_ascii c) with 45%nat by lia. reflexivity. }
  destruct Hcase as [Hd | ->]; [| exact Htok].
  assert (is_ws c = false /\ Ascii.eqb c "n" = false /\ Ascii.eqb c "t" = false
          /\ Ascii.eqb c "f" = false /\ Ascii.eqb c quote_char = false
          /\ Ascii.eqb c "[" = false /\ Ascii.eqb c "{" = false)
    as (-> & -> & -> & -> & -> & -> & ->); [| exact Htok].
  clear -Hd. destruct c as [[] [] [] [] [] [] [] []];
    first [discriminate Hd | repeat split; reflexivity].
Qed.

Lemma starts_value_inv t :
  starts_value t = true ->
  exists c r, t = String c r /\ is_ws c = false
              /\ Ascii.eqb c "]" = false /\ Ascii.eqb c "}" = false.
Proof.
  destruct t as [| c r]; [discriminate |]. cbn [starts_value].
  intros H. exists c, r.
  destruct (is_ws c), (Ascii.eqb c "]"), (Ascii.eqb c "}"); try discriminate.
  auto.
Qed.

Lemma number_like_starts t : number_like t = true -> starts_value t = true.
Proof.
  destruct t as [| c r]; [discriminate |]. cbn [number_like starts_value].
  intros H. apply andb_prop in H as [Hc _]. clear r.
  destruct c as [[] [] [] [] [] [] [] []]; first [discriminate Hc | reflexivity].
Qed.

Lemma join_cons t t' ts :
  join "," (t :: t' :: ts) = t +:+ "," +:+ join "," (t' :: ts).
Proof. reflexivity. Qed.

Lemma elements_size_cons e l :
  elements_size (e :: l) = S (size e + elements_size l).
Proof. reflexivity. Qed.

(** The elements of a non-empty array, up to the closing bracket. *)
Lemma parse_elements_join items :
  items <> [] ->
  Forall (fun e => stable e -> reads_back e) items ->
  all_stable items ->
  let text := join "," (map element_text items) in
  starts_value text = true
  /\ (elements_size items <= String.length text + 1)%nat
  /\ forall fuel rest,
      (elements_size items <= fuel)%nat ->
      parse_elements fuel (text +:+ "]" +:+ rest) = Some (items, rest).
Proof.
  intros Hne HF. induction HF as [| e l He HF IH]; [congruence |].
  intros [Hse Hsl]. clear Hne.
  destruct (He Hse) as (t & Ht & Hstart & Hlen & Hparse).
  assert (Et : element_text e = t) by (unfold element_text; now rewrite Ht).
  rewrite elements_size_cons.
  destruct l as [| e' l'].
  - cbn [map join]. rewrite Et. change (elements_size []) with O.
    split; [assumption |]. split; [lia |].
    intros fuel rest Hfuel. destruct fuel as [| f]; [lia |].
    cbn [parse_elements].
    rewrite Hparse by (reflexivity || lia). reflexivity.
  - specialize (IH ltac:(discriminate) Hsl) as (Hstart' & Hlen' & Hparse').
    cbn [map]. rewrite Et.
    change (map element_text (e' :: l')) with (element_text e' :: map element_text l') in *.
    rewrite join_cons.
    split; [| split].
    + destruct t; [discriminate | exact Hstart].
    + rewrite !length_app. cbn [String.length]. lia.
    + intros fuel rest Hfuel. destruct fuel as [| f]; [lia |].
      cbn [parse_elements]. rewrite !app_assoc.
      rewrite Hparse by (reflexivity || lia).
      rewrite app_cons, app_nil_l. cbn [skip_ws is_ws].
      change (is_ws ",") with false. cbv iota.
      change (Ascii.eqb "," ",") with true. cbv iota.
      rewrite Hparse' by lia. reflexivity.
Qed.

Lemma members_size_cons kv l :
  members_size (kv :: l) = S (size (snd kv) + members_size l).
Proof. reflexivity. Qed.

Lemma omap_member_cons kv l m :
  member_text kv = Some m ->
  omap member_text (kv :: l) = m :: omap member_text l.
Proof. intros H. cbn [omap list_omap]. now rewrite H. Qed.

(** One member [key : value] in front of [rest']. *)
Lemma parse_members_step f r k v r2 rest' :
  parse_string_body r = Some (k, String ":" r2) ->
  parse_value f r2 = Some (v, rest') ->
  parse_members (S f) (String quote_char r)
  = match skip_ws rest' with
    | EmptyString => None
    | String c3 r4 =>
        if Ascii.eqb c3 ","
        then cons_result (k, v) (parse_members f r4)
        else if Ascii.eqb c3 "}" then Some ([(k, v)], r4)
        else None
    end.
Proof.
  intros H1 H2. cbn [parse_members].
  change (skip_ws (String quote_char r)) with (String quote_char r).
  cbv iota. change (Ascii.eqb quote_char quote_char) with true. cbv iota.
  rewrite H1.
  change (skip_ws (String ":" r2)) with (String ":" r2). cbv iota.
  change (Ascii.eqb ":" ":") with true. cbv iota.
  rewrite H2. reflexivity.
Qed.

(** The members of a non-empty object, up to the closing brace. *)
Lemma parse_members_join fields :
  fields <> [] ->
  Forall (fun kv => stable (snd kv) -> reads_back (snd kv)) fields ->
  fields_stable fields ->
  let text := join "," (omap member_text fields) in
  (exists r, text = String quote_char r)
  /\ (members_size fields <= String.length text + 1)%nat
  /\ forall fuel rest,
      (members_size fields <= fuel)%nat ->
      parse_members fuel (text +:+ "}" +:+ rest) = Some (fields, rest).
Proof.
  intros Hne HF. induction HF as [| [k v] l He HF IH]; [congruence |].
  intros [Hse Hsl]. clear Hne. cbn [snd] in He, Hse.
  destruct (He Hse) as (t & Ht & Hstart & Hlen & Hparse).
  assert (Em : member_text (k, v) = Some (QuoteJSONString k +:+ ":" +:+ t))
    by (unfold member_text; cbn [fst snd]; now rewrite Ht).
  rewrite members_size_cons, (omap_member_cons _ _ _ Em). cbn [snd].
  assert (Hq : forall X, exists r,
               (QuoteJSONString k +:+ ":" +:+ t) +:+ X = String quote_char r
               /\ parse_string_body r = Some (k, String ":" (t +:+ X))).
  { intros X. destruct (parse_quoted k (":" +:+ t +:+ X)) as (r & E & Hr).
    exists r. split; [| exact Hr]. rewrite <- E. now rewrite !app_assoc. }
  destruct l as [| kv' l'].
  - cbn [omap list_omap join]. change (members_size []) with O.
    split; [| split].
    + destruct (Hq EmptyString) as (r & E & _). rewrite app_nil_r in E. eauto.
    + rewrite !length_app. lia.
    + intros fuel rest Hfuel. destruct fuel as [| f]; [lia |].
      destruct (Hq ("}" +:+ rest)) as (r & E & Hr). rewrite E.
      rewrite (parse_members_step f r k v _ ("}" +:+ rest) Hr);
        [reflexivity | apply Hparse; [lia | reflexivity]].
  - specialize (IH ltac:(discriminate) Hsl) as ((r' & Er') & Hlen' & Hparse').
    set (more := omap member_text (kv' :: l')) in *.
    assert (Hmore : exists m ms, more = m :: ms).
    { destruct more as [| m ms]; [discriminate Er' | eauto]. }
    destruct Hmore as (m & ms & Emore). rewrite Emore in *.
    rewrite join_cons.
    split; [| split].
    + destruct (Hq ("," +:+ join "," (m :: ms))) as (r & E & _).
      rewrite !app_assoc in E. rewrite !app_assoc. eauto.
    + rewrite !length_app in *. cbn [String.length]. lia.
    + intros fuel rest Hfuel. destruct fuel as [| f]; [lia |].
      rewrite !app_assoc.
      destruct (Hq ("," +:+ join "," (m :: ms) +:+ "}" +:+ rest)) as (r & E & Hr).
      rewrite !app_assoc in E. rewrite E.
      rewrite (parse_members_step f r k v _
                 ("," +:+ join "," (m :: ms) +:+ "}" +:+ rest) Hr);
        [| apply Hparse; [lia | reflexivity]].
      rewrite app_cons, app_nil_l.
      change (skip_ws (String "," ?x)) with (String "," x).
      cbn [skip_ws]. change (is_ws ",") with false. cbv iota.
      change (Ascii.eqb "," ",") with true. cbv iota.
      rewrite Hparse' by lia. reflexivity.
Qed.

(** A new key that goes before none of the keys present is added last. *)
Lemma obj_set_fresh k v acc :
  k ∉ map fst acc ->
  forallb (fun k' => negb (key_before k k')) (map fst acc) = true ->
  obj_set k v acc = (acc ++ [(k, v)])%list.
Proof.
  induction acc as [| [k' v'] acc IH]; intros Hk Hord; [reflexivity |].
  cbn [obj_set]. cbn [map fst] in Hk. cbn [map fst forallb] in Hord.
  apply not_elem_of_cons in Hk as [Hne Hk].
  apply andb_true_iff in Hord as [Hb Hord].
  destruct (String.eqb_spec k k') as [-> | _]; [congruence |].
  destruct (key_before k k'); [discriminate |].
  cbn [app]. now rewrite IH.
Qed.

(** In ordered keys, a key goes before none of those in front of it. *)
Lemma ordered_app_cons a k b :
  ordered (a ++ k :: b)%list = true ->
  forallb (fun k' => negb (key_before k k')) a = true.
Proof.
  induction a as [| x a IH]; [reflexivity |].
  cbn [app ordered forallb]. intros H.
  apply andb_true_iff in H as [Hx H].
  rewrite forallb_app in Hx. apply andb_true_iff in Hx as [_ Hx].
  cbn [forallb] in Hx. apply andb_true_iff in Hx as [Hx _].
  rewrite Hx. exact (IH H).
Qed.

(** Members with distinct keys in the order of own keys are defined in
    their order. *)
Lemma build_object_nodup l :
  NoDup (map fst l) -> ordered (map fst l) = true -> build_object l = l.
Proof.
  unfold build_object.
  enough (H : forall acc, NoDup (map fst (acc ++ l)%list) ->
              ordered (map fst (acc ++ l)%list) = true ->
              fold_left (fun acc kv => obj_set (fst kv) (snd kv) acc) l acc
              = (acc ++ l)%list) by (intros Hl Ho; apply (H [] Hl Ho)).
  induction l as [| [k v] l IH]; intros acc Hnd Hord.
  - cbn [fold_left]. now rewrite List.app_nil_r.
  - cbn [fold_left fst snd].
    assert (Hk : k ∉ map fst acc).
    { rewrite map_app in Hnd. apply NoDup_app in Hnd as (_ & Hdis & _).
      intros Hin. apply (Hdis k Hin). cbn [map fst]. left. }
    assert (Hb : forallb (fun k' => negb (key_before k k')) (map fst acc)
                 = true).
    { rewrite map_app in Hord. cbn [map fst] in Hord.
      exact (ordered_app_cons _ _ _ Hord). }
    rewrite (obj_set_fresh _ _ _ Hk Hb), IH.
    + now rewrite <- List.app_assoc.
    + now rewrite <- List.app_assoc.
    + now rewrite <- List.app_assoc.
Qed.

Lemma parse_value_array f r :
  parse_value (S f) (String "[" r)
  = match skip_ws r with
    | EmptyString => None
    | String c' r' =>
        if Ascii.eqb c' "]" then Some (JArr [], r')
        else match parse_elements f r with
             | Some (l, r'') => Some (JArr l, r'')
             | None => None
             end
    end.
Proof. reflexivity. Qed.

Lemma parse_value_object f r :
  parse_value (S f) (String "{" r)
  = match skip_ws r with
    | EmptyString => None
    | String c' r' =>
        if Ascii.eqb c' "}" then Some (JObj [], r')
        else match parse_members f r with
             | Some (l, r'') => Some (JObj (build_object l), r'')
             | None => None
             end
    end.
Proof. reflexivity. Qed.

(** Every stable value is read back from its text. *)
Theorem stable_reads_back v : stable v -> reads_back v.
Proof.
  induction v as [| | b | x | s | items IH | fields IH]
    using JSValue_nested_ind; intros Hst.
  - destruct Hst.
  - exists "null". split; [reflexivity |]. split; [reflexivity |].
    split; [cbn; lia |].
    intros [| f] rest Hf _; [cbn in Hf; lia | reflexivity].
  - exists (if b then "true" else "false").
    split; [reflexivity |]. split; [now destruct b |].
    split; [destruct b; cbn; lia |].
    intros [| f] rest Hf _; [cbn in Hf; lia | destruct b; reflexivity].
  - destruct Hst as (Hfin & Hlike & Hnum).
    exists (Number_toString x). cbn [stringify]. unfold number_text.
    rewrite Hfin. split; [reflexivity |].
    split; [now apply number_like_starts |].
    destruct (Number_toString x) as [| c t] eqn:E; [discriminate |].
    split; [cbn; lia |].
    intros [| f] rest Hf Hr; [cbn in Hf; lia |].
    now apply parse_value_number.
  - exists (QuoteJSONString s).
    split; [reflexivity |]. split; [reflexivity |]. split.
    + unfold QuoteJSONString. rewrite length_app. cbn. lia.
    + intros [| f] rest Hf _; [cbn in Hf; lia |].
      destruct (parse_quoted s rest) as (r & E & Hr). rewrite E.
      change (parse_value (S f) (String quote_char r))
        with (match parse_string_body r with
              | Some (str, r') => Some (JStr str, r')
              | None => None
              end).
      now rewrite Hr.
  - destruct items as [| e l].
    + exists "[]". split; [reflexivity |]. split; [reflexivity |]. split.
      * cbn; lia.
      * intros [| f] rest Hf _; [cbn in Hf; lia | reflexivity].
    + destruct (parse_elements_join (e :: l) ltac:(discriminate) IH Hst)
        as (Hstart & Hlen & Hparse).
      set (text := join "," (map element_text (e :: l))) in *.
      exists ("[" +:+ text +:+ "]"). split; [reflexivity |].
      split; [reflexivity |]. split.
      * change (size (JArr (e :: l))) with (S (elements_size (e :: l))).
        rewrite !length_app. cbn [String.length]. lia.
      * intros [| f] rest Hf _; [cbn in Hf; lia |].
        change (size (JArr (e :: l))) with (S (elements_size (e :: l))) in Hf.
        rewrite !app_assoc, app_cons, app_nil_l.
        destruct (starts_value_inv _ Hstart) as (c & r & Et & Hws & Hb & _).
        specialize (Hparse f rest ltac:(lia)). rewrite Et in *.
        rewrite app_cons in *.
        rewrite parse_value_array. cbn [skip_ws].
        rewrite Hws, Hb, Hparse. reflexivity.
  - destruct Hst as (Hnd & Hord & Hst). destruct fields as [| kv l].
    + exists "{}". split; [reflexivity |]. split; [reflexivity |]. split.
      * cbn; lia.
      * intros [| f] rest Hf _; [cbn in Hf; lia | reflexivity].
    + destruct (parse_members_join (kv :: l) ltac:(discriminate) IH Hst)
        as ((r & Et) & Hlen & Hparse).
      set (text := join "," (omap member_text (kv :: l))) in *.
      exists ("{" +:+ text +:+ "}"). split; [reflexivity |].
      split; [reflexivity |]. split.
      * change (size (JObj (kv :: l))) with (S (members_size (kv :: l))).
        rewrite !length_app. cbn [String.length]. lia.
      * intros [| f] rest Hf _; [cbn in Hf; lia |].
        change (size (JObj (kv :: l))) with (S (members_size (kv :: l))) in Hf.
        rewrite !app_assoc, app_cons, app_nil_l.
        specialize (Hparse f rest ltac:(lia)). rewrite Et in *.
        rewrite app_cons in *.
        rewrite parse_value_object.
        change (skip_ws (String quote_char (r +:+ "}" +:+ rest)))
          with (String quote_char (r +:+ "}" +:+ rest)).
        cbv iota. change (Ascii.eqb quote_char "}") with false. cbv iota.
        rewrite Hparse, (build_object_nodup _ Hnd Hord). reflexivity.
Qed.

(** [JSON.parse(JSON.stringify(v))] is [v] for every stable [v]. *)
Theorem parse_stringify v :
  stable v -> exists t, stringify v = Some t /\ parse t = Some v.
Proof.
  intros Hst. destruct (stable_reads_back v Hst) as (t & Ht & _ & Hlen & Hparse).
  exists t. split; [assumption |]. unfold parse.
  specialize (Hparse (S (String.length t)) EmptyString ltac:(lia) eq_refl).
  rewrite app_nil_r in Hparse. now rewrite Hparse.
Qed.

End JSONFacts.

(** ** What the parser builds *)

Module ParsedFacts.
Import Chars Number JS JSON JSONStable.

Lemma all_parsed_Forall l :
  fold_right (fun e P => parsed e /\ P) True l <-> Forall parsed l.
Proof.
  induction l as [| e l IH]; cbn [fold_right].
  - split; [constructor | trivial].
  - rewrite Forall_cons. tauto.
Qed.

Lemma fields_parsed_Forall (l : list (string * JSValue)) :
  fold_right (fun kv P => parsed (snd kv) /\ P) True l
  <-> Forall (fun kv => parsed (snd kv)) l.
Proof.
  induction l as [| e l IH]; cbn [fold_right].
  - split; [constructor | trivial].
  - rewrite Forall_cons. tauto.
Qed.

Lemma key_before_asym k k' : key_before k k' = true -> key_before k' k = false.
Proof.
  unfold key_before.
  destruct (array_index k), (array_index k'); try easy.
  intros H. apply Z.ltb_lt in H. apply Z.ltb_ge. lia.
Qed.

Lemma key_before_trans a b c :
  key_before a b = true -> key_before b c = true -> key_before a c = true.
Proof.
  unfold key_before.
  destruct (array_index a), (array_index b), (array_index c); try easy.
  intros H1 H2. apply Z.ltb_lt in H1, H2. apply Z.ltb_lt. lia.
Qed.

Lemma obj_set_in k v acc x :
  x ∈ map fst (obj_set k v acc) -> x = k \/ x ∈ map fst acc.
Proof.
  induction acc as [| [k' v'] acc IH]; cbn [obj_set map fst].
  - intros H. apply list_elem_of_singleton in H. now left.
  - destruct (String.eqb_spec k k') as [-> | Hne]; [| destruct (key_before k k')];
      cbn [map fst]; rewrite ?elem_of_cons; intros H.
    + tauto.
    + tauto.
    + destruct H as [-> | H]; [tauto |]. destruct (IH H); tauto.
Qed.

(** Defining a member keeps the keys distinct and in the order of own
    keys. *)
Lemma obj_set_ordered k v acc :
  NoDup (map fst acc) -> ordered (map fst acc) = true ->
  NoDup (map fst (obj_set k v acc))
  /\ ordered (map fst (obj_set k v acc)) = true.
Proof.
  induction acc as [| [k' v'] acc IH]; cbn [obj_set map fst]; intros Hnd Hord.
  - split; [apply NoDup_singleton | reflexivity].
  - apply NoDup_cons in Hnd as [Hk' Hnd]. cbn [ordered] in Hord.
    apply andb_true_iff in Hord as [Hall Hord].
    rewrite forallb_forall in Hall.
    destruct (String.eqb_spec k k') as [-> | Hne];
      [| destruct (key_before k k') eqn:Hb]; cbn [map fst].
    + split; [now apply NoDup_cons |].
      cbn [ordered]. apply andb_true_iff. split; [| exact Hord].
      now apply forallb_forall.
    + assert (Hin : forall x, x ∈ map fst acc -> key_before x k = false).
      { intros x Hx. destruct (key_before x k) eqn:Hxk; [| reflexivity].
        pose proof (key_before_trans _ _ _ Hxk Hb) as Hc.
        apply list_elem_of_In in Hx. apply Hall in Hx.
        rewrite Hc in Hx. discriminate. }
      split.
      * apply NoDup_cons. split; [| now apply NoDup_cons].
        apply not_elem_of_cons. split; [exact Hne |].
        intros Hx. apply list_elem_of_In in Hx. apply Hall in Hx.
        rewrite Hb in Hx. discriminate.
      * cbn [ordered]. apply andb_true_iff. split.
        -- cbn [forallb]. rewrite (key_before_asym _ _ Hb). cbn [negb andb].
           apply forallb_forall. intros x Hx. apply list_elem_of_In in Hx.
           now rewrite (Hin x Hx).
        -- apply andb_true_iff. split; [now apply forallb_forall | exact Hord].
    + destruct (IH Hnd Hord) as [Hnd' Hord']. split.
      * apply NoDup_cons. split; [| exact Hnd'].
        intros Hx. destruct (obj_set_in _ _ _ _ Hx); congruence.
      * cbn [ordered]. apply andb_true_iff. split; [| exact Hord'].
        apply forallb_forall. intros x Hx. apply list_elem_of_In in Hx.
        destruct (obj_set_in _ _ _ _ Hx) as [-> | Hx'].
        -- now rewrite Hb.
        -- apply list_elem_of_In in Hx'. now apply Hall.
Qed.

Lemma obj_set_parsed k v acc :
  parsed v -> Forall (fun kv => parsed (snd kv)) acc ->
  Forall (fun kv => parsed (snd kv)) (obj_set k v acc).
Proof.
  intros Hv. induction acc as [| [k' v'] acc IH]; intros H.
  - cbn. repeat constructor. exact Hv.
  - cbn [obj_set]. apply Forall_cons in H as [H1 H2].
    destruct (String.eqb k k').
    + apply Forall_cons. split; assumption.
    + destruct (key_before k k').
      * apply Forall_cons. split; [assumption |].
        apply Forall_cons. split; assumption.
      * apply Forall_cons. split; [assumption | now apply IH].
Qed.

Lemma build_object_parsed l :
  Forall (fun kv => parsed (snd kv)) l -> parsed (JObj (build_object l)).
Proof.
  intros H. cbn [parsed]. rewrite fields_parsed_Forall. unfold build_object.
  enough (G : forall acc,
             NoDup (map fst acc) -> ordered (map fst acc) = true ->
             Forall (fun kv => parsed (snd kv)) acc ->
             let r := fold_left (fun acc kv => obj_set (fst kv) (snd kv) acc) l acc in
             NoDup (map fst r) /\ ordered (map fst r) = true
             /\ Forall (fun kv => parsed (snd kv)) r).
  { apply (G []); [constructor | reflexivity | constructor]. }
  induction H as [| [k v] l Hv H IH]; intros acc Hnd Hord Hacc;
    [now repeat split |].
  cbn [fold_left fst snd].
  destruct (obj_set_ordered k v acc Hnd Hord) as [Hnd' Hord'].
  apply IH; [exact Hnd' | exact Hord' | now apply obj_set_parsed].
Qed.

Lemma cons_result_inv {A} (a : A) r l rest :
  cons_result a r = Some (l, rest) ->
  exists l', r = Some (l', rest) /\ l = a :: l'.
Proof.
  destruct r as [[l' rest'] |]; cbn; [| discriminate].
  intros [= <- <-]. eauto.
Qed.

(** Whatever the three readers return is built of parsed values. *)
Lemma readers_parsed fuel :
  (forall s v r, parse_value fuel s = Some (v, r) -> parsed v)
  /\ (forall s l r, parse_elements fuel s = Some (l, r) -> Forall parsed l)
  /\ (forall s l r, parse_members fuel s = Some (l, r) ->
                    Forall (fun kv => parsed (snd kv)) l).
Proof.
  induction fuel as [| f (IHv & IHe & IHm)]; [repeat split; discriminate |].
  repeat split.
  - intros s v r H. cbn [parse_value] in H.
    unfold keyword, number_token in H.
    repeat case_match; simplify_eq;
      first [ exact I
            | split; [constructor | split; [reflexivity | exact I]]
            | apply build_object_parsed; eauto
            | cbn [parsed]; rewrite all_parsed_Forall; eauto ].
  - intros s l r H. cbn [parse_elements] in H.
    repeat case_match; simplify_eq.
    + apply cons_result_inv in H as (l' & H & ->).
      apply Forall_cons. split; eauto.
    + apply Forall_cons. split; [eauto | constructor].
  - intros s l r H. cbn [parse_members] in H.
    repeat case_match; simplify_eq.
    + apply cons_result_inv in H as (l' & H & ->).
      apply Forall_cons. split; [cbn; eauto | eauto].
    + apply Forall_cons. split; [cbn; eauto | constructor].
Qed.

Lemma parse_parsed s v : JSON.parse s = Some v -> parsed v.
Proof.
  unfold JSON.parse. intros H. repeat case_match; simplify_eq.
  eapply (proj1 (readers_parsed _)); eauto.
Qed.

(** A property read from a parsed value is parsed, or missing. *)
Lemma prop_parsed k data v :
  parsed data -> prop k data = Some v -> v = JUndefined \/ parsed v.
Proof.
  destruct data as [| | b | x | s | l | fields]; cbn [prop]; intros Hp H;
    simplify_eq; try (now left).
  - destruct (String.eqb k "length"); [right; exact I | now left].
  - destruct (String.eqb k "length"); [right; exact I | now left].
  - destruct Hp as (_ & _ & Hp). apply fields_parsed_Forall in Hp.
    induction fields as [| [k' v'] fields IH]; [now left |].
    apply Forall_cons in Hp as [Hv Hp]. cbn [assoc].
    destruct (String.eqb k k'); [right; exact Hv | now apply IH].
Qed.

(** Parsed values whose Numbers print back are stable. *)
Lemma parsed_stable v : parsed v -> numbers_print_back v -> stable v.
Proof.
  induction v as [| | b | x | s | items IH | fields IH]
    using JSValue_nested_ind; cbn [parsed numbers_print_back stable]; auto.
  - induction IH as [| e l He Hl IHl]; cbn [fold_right]; [trivial |].
    intros [Hp Hps] [Hn Hns]. split; auto.
  - intros (Hnd & Hord & Hp) Hn. split; [assumption |]. split; [assumption |].
    clear Hnd Hord. induction IH as [| e l He Hl IHl]; cbn [fold_right]; [trivial |].
    destruct Hp as [Hp Hps]. destruct Hn as [Hn Hns]. split; auto.
Qed.

End ParsedFacts.

Ltac run_eff :=
  cbv [Eff.bind Eff.fetch Eff.start Eff.settle Eff.send Eff.json Eff.get
       Eff.alert Eff.ret Eff.throw Eff.removeItem Eff.setItem Eff.getItem
       Eff.set Cart.setItems Eff.untyped fst snd].

(** ** The auth client *)

Module AuthFacts.
Import JS JSONStable JSONFacts Auth Requests.

Lemma prop_object_total k1 k2 v a :
  prop k1 v = Some a -> exists b, prop k2 v = Some b.
Proof. destruct v; cbn; intros H; try discriminate; eauto. Qed.

(** The run of [login], by the answer of the backend. *)
Lemma login_run email password s w :
  let req := login_request w email password in
  let w1 := Eff.with_log w (log w ++ [req]) in
  login email password s w =
  match server w (log w ++ [req]) with
  | NetworkError => (Thrown FetchFailed, s, w1)
  | Response false _ => (Thrown (Error "Invalid credentials"), s, w1)
  | Response true text =>
      match JSON.parse text with
      | None => (Thrown SyntaxError, s, w1)
      | Some data =>
          match prop "token" data, prop "user" data with
          | Some tok, Some usr =>
              (Done tt, {| token := tok; user := usr |},
               Eff.with_storage w1
                 (<["user" := stringify_text usr]>
                    (<["token" := ToString tok]> (localStorage w))))
          | _, _ => (Thrown TypeError, s, w1)
          end
      end
  end.
Proof.
  intros req w1. unfold login, store_session, setToken, setUser. run_eff.
  change ({| method := "POST"; url := API w +:+ "/auth/login";
             headers := json_headers; body := login_body email password |})
    with req.
  destruct (server w (log w ++ [req])) as [| [] text]; try reflexivity.
  cbn [negb]. destruct (JSON.parse text) as [data |]; [| reflexivity].
  destruct (prop "token" data) as [tok |] eqn:Et.
  - destruct (prop_object_total "token" "user" data tok Et) as [usr Eu].
    rewrite Eu. reflexivity.
  - destruct (prop "user" data); reflexivity.
Qed.



Lemma stable_text_nonempty v :
  stable v -> exists t, JSON.stringify v = Some t /\ Number.nonempty t = true
                        /\ JSON.parse t = Some v.
Proof.
  intros Hst.
  destruct (stable_reads_back v Hst) as (t & Ht & Hstart & _ & _).
  destruct (parse_stringify v Hst) as (t' & Ht' & Hp).
  assert (t' = t) as -> by congruence.
  exists t. repeat split; try assumption.
  destruct t; [discriminate Hstart | reflexivity].
Qed.

(** C7 (as amended). When [login] stores a session whose token is a
    string and whose user is present and holds only Numbers that print
    back, the initial state that [useAuth] computes from the storage alone
    is that same session. *)
Theorem C7_session_reload email password s w text data tokstr usr :
  server w (log w ++ [login_request w email password])%list = Response true text ->
  JSON.parse text = Some data ->
  prop "token" data = Some (JStr tokstr) ->
  prop "user" data = Some usr ->
  usr <> JUndefined ->
  numbers_print_back usr ->
  let '(out, s', w') := login email password s w in
  out = Done tt
  /\ s' = {| token := JStr tokstr; user := usr |}
  /\ init (localStorage w') = Done s'.
Proof.
  intros Hs Hp Ht Hu Hdef Hnum.
  assert (Hst : stable usr).
  { apply ParsedFacts.parsed_stable; [| assumption].
    destruct (ParsedFacts.prop_parsed "user" data usr
                (ParsedFacts.parse_parsed _ _ Hp) Hu); [congruence | assumption]. }
  rewrite login_run. cbv zeta.
  rewrite Hs, Hp, Ht, Hu.
  split; [reflexivity |]. split; [reflexivity |].
  cbn [localStorage Eff.with_storage ToString].
  set (m := <["user" := stringify_text usr]>
              (<["token" := tokstr]> (localStorage w))).
  assert (Hlt : m !! "token" = Some tokstr).
  { unfold m. rewrite lookup_insert_ne by discriminate. apply lookup_insert_eq. }
  assert (Hlu : m !! "user" = Some (stringify_text usr))
    by apply lookup_insert_eq.
  destruct (stable_text_nonempty usr Hst) as (t & Et & Hne & Hparse).
  assert (E : stringify_text usr = t)
    by (unfold stringify_text; now rewrite Et).
  unfold init. rewrite Hlt, Hlu, E, Hne, Hparse.
  destruct tokstr; reflexivity.
Qed.

Lemma ada_numbers : numbers_print_back Sample.ada.
Proof.
  cbn [numbers_print_back Sample.ada snd fold_right].
  repeat split; vm_compute; reflexivity.
Qed.

Lemma C7_session_reload_witness :
  let '(out, s', w') :=
    login "ada@example.org" "pw" Sample.signed_out (Sample.world Sample.sign_in_ok) in
  out = Done tt
  /\ s' = {| token := JStr "t0k3n"; user := Sample.ada |}
  /\ init (localStorage w') = Done s'.
Proof.
  apply (C7_session_reload "ada@example.org" "pw" Sample.signed_out
           (Sample.world Sample.sign_in_ok) Sample.sign_in_text
           (JObj [("token", JStr "t0k3n"); ("user", Sample.ada)])
           "t0k3n" Sample.ada).
  - reflexivity.
  - vm_compute. reflexivity.
  - reflexivity.
  - reflexivity.
  - discriminate.
  - exact ada_numbers.
Defined.

(** A user object with a non-finite Number is stored as a different
    object: the session read back differs from the session [login]
    published. *)
Lemma C7_counterexample :
  let '(out, s', w') :=
    login "ada@example.org" "pw" Sample.signed_out
      (Sample.world Sample.sign_in_overflow) in
  out = Done tt
  /\ s' = {| token := JStr "t0k3n"; user := JObj [("id", JNum infinity)] |}
  /\ init (localStorage w')
     = Done {| token := JStr "t0k3n"; user := JObj [("id", JNull)] |}
  /\ init (localStorage w') <> Done s'.
Proof.
  vm_compute. repeat split; try reflexivity. discriminate.
Qed.

(** C8. [logout] calls no backend, removes the token and the user from
    the storage and resets the session state; the root component then
    shows the sign-in screen, and so it does after a reload, which reads
    the cleared state back. *)
Theorem C8_logout s w :
  let '(out, s', w') := logout s w in
  out = Done tt
  /\ log w' = log w
  /\ localStorage w' !! "token" = None
  /\ localStorage w' !! "user" = None
  /\ s' = {| token := JStr EmptyString; user := JNull |}
  /\ App s' = AuthScreen
  /\ init (localStorage w') = Done s'
  /\ (forall s0, init (localStorage w') = Done s0 -> App s0 = AuthScreen).
Proof.
  unfold logout, setToken, setUser. run_eff.
  cbn [log localStorage Eff.with_storage].
  assert (Ht : delete "user" (delete "token" (localStorage w)) !! "token" = None).
  { rewrite lookup_delete_ne by done. apply lookup_delete_eq. }
  assert (Hu : delete "user" (delete "token" (localStorage w)) !! "user" = None)
    by apply lookup_delete_eq.
  assert (Hi : init (delete "user" (delete "token" (localStorage w)))
               = Done {| token := JStr EmptyString; user := JNull |}).
  { unfold init. now rewrite Ht, Hu. }
  repeat split; try assumption; try reflexivity.
  intros s0 H0. rewrite Hi in H0. injection H0 as <-. reflexivity.
Qed.

End AuthFacts.

(** ** Checkout *)

Module CheckoutFacts.
Import JS Cart Requests.

Lemma prop_twice k1 k2 v a :
  prop k1 v = Some a -> exists b, prop k2 v = Some b.
Proof. destruct v; cbn; intros H; try discriminate; eauto. Qed.


(** The run of [placeOrder] on a non-empty cart, by the answers of the
    backend. *)
Lemma placeOrder_run tok cl s w :
  items cl <> [] ->
  let oreq := order_request w tok cl in
  let w1 := Eff.with_log w (log w ++ [oreq]) in
  placeOrder tok cl s w =
  match server w (log w ++ [oreq]) with
  | NetworkError => (Thrown FetchFailed, s, w1)
  | Response false _ =>
      (Done tt, s, Eff.with_alerts w1 (alerts w ++ ["Order failed"]))
  | Response true otext =>
      match JSON.parse otext with
      | None => (Thrown SyntaxError, s, w1)
      | Some order =>
          match prop "total" order, prop "_id" order with
          | Some total, Some id =>
              let preq := payment_request w tok total id in
              let w2 := Eff.with_log w (log w ++ [oreq; preq]) in
              match server w (log w ++ [oreq; preq]) with
              | NetworkError => (Thrown FetchFailed, s, w2)
              | Response false _ =>
                  (Done tt, s,
                   Eff.with_alerts w2 (alerts w ++ ["Payment failed"]))
              | Response true _ =>
                  (Done tt, {| items := []; address := address s |},
                   Eff.with_alerts
                     (Eff.with_storage w2 (delete "cart" (localStorage w)))
                     (alerts w ++ ["Order placed and paid successfully!"]))
              end
          | _, _ => (Thrown TypeError, s, w1)
          end
      end
  end.
Proof.
  intros Hne oreq w1. unfold placeOrder.
  destruct (items cl) as [| i l] eqn:E; [congruence |].
  run_eff. fold oreq.
  change ({| method := "POST"; url := API w +:+ "/orders";
             headers := Auth.auth_headers tok; body := order_body cl |})
    with oreq.
  destruct (server w (log w ++ [oreq])) as [| ok otext] eqn:Es; [reflexivity |].
  destruct ok; cbn [negb]; [| reflexivity].
  destruct (JSON.parse otext) as [order |] eqn:Ep; [| reflexivity].
  destruct (prop "total" order) as [total |] eqn:Et.
  2:{ destruct (prop "_id" order); reflexivity. }
  destruct (prop_twice "total" "_id" order total Et) as [id Ei]. rewrite Ei.
  cbn [log Eff.with_log API server].
  rewrite <- List.app_assoc. cbn [app].
  change ({| method := "POST"; url := API w +:+ "/payments/checkout";
             headers := Auth.auth_headers tok; body := payment_body total id |})
    with (payment_request w tok total id).
  destruct (server w (log w ++ [oreq; payment_request w tok total id]))
    as [| ok ptext] eqn:Esp; [reflexivity |].
  destruct ok; reflexivity.
Qed.


(** C10. On an empty cart [placeOrder] returns at once: no request, no
    message, and the storage and the state of the component as they
    were. *)
Theorem C10_place_order_empty tok cl s w :
  items cl = [] -> placeOrder tok cl s w = (Done tt, s, w).
Proof. intros H. unfold placeOrder. now rewrite H. Qed.

End CheckoutFacts.

(** ** Quantities *)

Module QuantityFacts.
Import JS Cart.

Lemma addToCart_items_qty p l :
  Forall qty_ok l -> Forall qty_ok (addToCart_items p l).
Proof.
  intros H. unfold addToCart_items.
  destruct (findIndex _ l) as [idx |].
  - apply Forall_alter; [assumption |].
    intros i _ Hi. unfold qty_ok in *. cbn.
    now apply NumberFacts.int_add_pos.
  - apply Forall_app. split; [assumption |].
    apply Forall_singleton. unfold qty_ok. cbn. lia.
Qed.

(** [Math.max(1, _)] keeps every quantity at 1 or more, whatever the
    cart and the step. *)
Lemma updateQty_items_qty pid delta l :
  Forall qty_ok l -> Forall qty_ok (updateQty_items pid delta l).
Proof.
  intros H. unfold updateQty_items. apply Forall_fmap.
  eapply Forall_impl; [exact H |]. intros i Hi. cbn.
  destruct (String.eqb (product_id i) pid); [| exact Hi].
  unfold qty_ok. cbn. lia.
Qed.

Lemma updateQty_items_length pid delta l :
  length (updateQty_items pid delta l) = length l.
Proof. apply length_map. Qed.

Lemma removeItem_items_qty pid l :
  Forall qty_ok l -> Forall qty_ok (removeItem_items pid l).
Proof.
  intros H. unfold removeItem_items. rewrite List.Forall_forall in *.
  intros i Hi. apply List.filter_In in Hi as [Hi _]. auto.
Qed.

(** A line at quantity 1 stays where it is, at quantity 1, when it is
    decremented. *)
Lemma updateQty_items_clamp pid l k i :
  l !! k = Some i -> product_id i = pid -> qty i = 1 ->
  updateQty_items pid (-1) l !! k = Some i.
Proof.
  intros Hk Hp Hq. unfold updateQty_items.
  rewrite list_lookup_fmap, Hk. cbn.
  rewrite Hp, String.eqb_refl. f_equal.
  destruct i as [pid' nm pr q im]. cbn in *. subst q. reflexivity.
Qed.

(** C3. From a cart whose lines all have qty at least 1, [addToCart],
    [updateQty] with a step of +1 or -1 and [removeItem] each write and
    keep a cart whose lines all have qty at least 1; [updateQty] keeps
    every line, and a line at qty 1 that is decremented stays in place at
    qty 1. *)
Theorem C3_quantity_floor (cl : CartState) :
  Forall qty_ok (items cl) ->
  (forall pid delta s w,
      delta = 1 \/ delta = -1 ->
      let '(out, s', w') := updateQty cl pid delta s w in
      out = Done tt
      /\ Forall qty_ok (items s')
      /\ length (items s') = length (items cl)
      /\ localStorage w' !! "cart" = Some (cart_text (items s')))
  /\ (forall pid s w,
        let '(out, s', w') := removeItem cl pid s w in
        out = Done tt
        /\ Forall qty_ok (items s')
        /\ localStorage w' !! "cart" = Some (cart_text (items s')))
  /\ (forall (S : Type) p prod (s : S) w,
        product_view p = Some prod ->
        read_cart s w = (Done (items cl), s, w) ->
        let '(out, s', w') := addToCart p s w in
        out = Done tt
        /\ exists next,
            localStorage w' !! "cart" = Some (cart_text next)
            /\ Forall qty_ok next)
  /\ (forall pid k i,
        items cl !! k = Some i -> product_id i = pid -> qty i = 1 ->
        updateQty_items pid (-1) (items cl) !! k = Some i).
Proof.
  intros Hall. split; [| split; [| split]].
  - intros pid delta s w _. unfold updateQty. run_eff. cbn.
    repeat split.
    + now apply updateQty_items_qty.
    + apply updateQty_items_length.
    + apply lookup_insert_eq.
  - intros pid s w. unfold removeItem. run_eff. cbn.
    repeat split.
    + now apply removeItem_items_qty.
    + apply lookup_insert_eq.
  - intros S p prod s w Hview Hread. unfold addToCart.
    unfold Eff.bind at 1. rewrite Hread, Hview. run_eff. cbn.
    split; [reflexivity |].
    exists (addToCart_items prod (items cl)). split.
    + apply lookup_insert_eq.
    + now apply addToCart_items_qty.
  - intros pid k i. apply updateQty_items_clamp.
Qed.

End QuantityFacts.

(** ** Mutations and reloads *)

Module ReloadFacts.
Import JS Sent.

Ltac answered_by H :=
  cbv [Eff.bind Eff.fetch Eff.start Eff.settle Eff.send Eff.ret fst snd];
  cbv [authorized after] in *;
  rewrite H.

(** After a request that the backend answers, the rest of the handler
    runs in the world where the request has left. *)
Lemma fetch_then {S A} meth path tok payload (k : Eff.t S A) s w :
  answered w (authorized w meth path tok payload) ->
  Eff.bind (Eff.fetch meth path (Auth.auth_headers tok) payload) (fun _ => k) s w
  = k s (after w (authorized w meth path tok payload)).
Proof. intros (ok & text & H). answered_by H. reflexivity. Qed.

(** A handler whose first request gets no response. *)
Ltac lost_request H :=
  cbv [Eff.bind Eff.fetch Eff.start Eff.settle Eff.send Eff.ret Eff.throw
       fst snd];
  cbv [authorized after] in *;
  rewrite H; reflexivity.

(** C4 (as amended). Create camera, book service, change plan, create
    product, delete product and update order status send their request
    and, once it is answered, run the load routine of their panel: the
    lists of the panel are what that load leaves.  Book service does so
    only when an address was entered, and otherwise sends nothing and
    changes nothing; create product does so only when its request is
    accepted, and when it is refused it shows a message and changes
    nothing.  When the request gets no response the action stops there and
    changes nothing.  So none of these actions writes a list of its panel
    except through the load. *)
Theorem C4_mutations_reload (tok usr : JSValue) (w : World) :
  (forall cl s d,
      answered w (authorized w "POST" "/cameras" tok (AddCameraCard.camera_body cl)) ->
      AddCameraCard.add tok cl (Some (Dashboard1.load tok)) (s, d) w
      = let '(_, d', w') :=
          Dashboard1.load tok d
            (after w (authorized w "POST" "/cameras" tok (AddCameraCard.camera_body cl))) in
        (Done tt,
         ({| AddCameraCard.name := EmptyString;
             AddCameraCard.location := EmptyString;
             AddCameraCard.stream_url := EmptyString |}, d'), w'))
  /\ (forall c rest s,
        answered w (authorized w "POST" "/services" tok
                      (Dashboard1.service_body (String c rest))) ->
        Dashboard1.createService tok (Some (String c rest)) s w
        = Dashboard1.load tok s
            (after w (authorized w "POST" "/services" tok
                        (Dashboard1.service_body (String c rest)))))
  /\ (forall c rest s,
        answered w (authorized w "POST" "/services" tok
                      (Services.book_body (String c rest))) ->
        Services.book tok (Some (String c rest)) s w
        = Services.load tok s
            (after w (authorized w "POST" "/services" tok
                        (Services.book_body (String c rest)))))
  /\ (forall plan s,
        answered w (authorized w "POST" "/subscription" tok (Account.plan_body plan)) ->
        Account.changePlan tok plan s w
        = Account.load tok s
            (after w (authorized w "POST" "/subscription" tok (Account.plan_body plan))))
  /\ (forall cl s,
        let req := authorized w "POST" "/admin/products" tok
                     (Admin.product_body (Admin.pForm cl)) in
        (accepted w req ->
         Admin.createProduct tok usr cl s w
         = Admin.load tok usr
             {| Admin.tab := Admin.tab s; Admin.users := Admin.users s;
                Admin.products := Admin.products s; Admin.orders := Admin.orders s;
                Admin.svcs := Admin.svcs s; Admin.pForm := Admin.empty_form |}
             (after w req))
        /\ (refused w req ->
            Admin.createProduct tok usr cl s w
            = (Done tt, s,
               Eff.with_alerts (after w req)
                 (alerts w ++ ["Failed to create product"])%list)))
  /\ (forall id s,
        let req := authorized w "DELETE" ("/admin/products/" +:+ ToString id)
                     tok None in
        answered w req ->
        Admin.deleteProduct tok usr id s w = Admin.load tok usr s (after w req))
  /\ (forall id status s,
        let req := authorized w "PATCH" ("/admin/orders/" +:+ ToString id) tok
                     (Admin.status_body status) in
        answered w req ->
        Admin.updateOrderStatus tok usr id status s w
        = Admin.load tok usr s (after w req))
  /\ (forall answer s,
        answer = None \/ answer = Some EmptyString ->
        Dashboard1.createService tok answer s w = (Done tt, s, w))
  /\ (forall answer s,
        answer = None \/ answer = Some EmptyString ->
        Services.book tok answer s w = (Done tt, s, w))
  /\ (forall cl s d onAdded,
        let req := authorized w "POST" "/cameras" tok (AddCameraCard.camera_body cl) in
        server w (log w ++ [req])%list = NetworkError ->
        AddCameraCard.add tok cl onAdded (s, d) w
        = (Thrown FetchFailed, (s, d), after w req))
  /\ (forall c rest s,
        let req := authorized w "POST" "/services" tok
                     (Dashboard1.service_body (String c rest)) in
        server w (log w ++ [req])%list = NetworkError ->
        Dashboard1.createService tok (Some (String c rest)) s w
        = (Thrown FetchFailed, s, after w req))
  /\ (forall c rest s,
        let req := authorized w "POST" "/services" tok
                     (Services.book_body (String c rest)) in
        server w (log w ++ [req])%list = NetworkError ->
        Services.book tok (Some (String c rest)) s w
        = (Thrown FetchFailed, s, after w req))
  /\ (forall plan s,
        let req := authorized w "POST" "/subscription" tok (Account.plan_body plan) in
        server w (log w ++ [req])%list = NetworkError ->
        Account.changePlan tok plan s w = (Thrown FetchFailed, s, after w req))
  /\ (forall cl s,
        let req := authorized w "POST" "/admin/products" tok
                     (Admin.product_body (Admin.pForm cl)) in
        server w (log w ++ [req])%list = NetworkError ->
        Admin.createProduct tok usr cl s w = (Thrown FetchFailed, s, after w req))
  /\ (forall id s,
        let req := authorized w "DELETE" ("/admin/products/" +:+ ToString id)
                     tok None in
        server w (log w ++ [req])%list = NetworkError ->
        Admin.deleteProduct tok usr id s w = (Thrown FetchFailed, s, after w req))
  /\ (forall id status s,
        let req := authorized w "PATCH" ("/admin/orders/" +:+ ToString id) tok
                     (Admin.status_body status) in
        server w (log w ++ [req])%list = NetworkError ->
        Admin.updateOrderStatus tok usr id status s w
        = (Thrown FetchFailed, s, after w req)).
Proof.
  repeat split.
  - intros cl s d H. unfold AddCameraCard.add. rewrite fetch_then by exact H.
    unfold AddCameraCard.reset_form, AddCameraCard.call_detached.
    cbv [Eff.bind Eff.set fst snd]. reflexivity.
  - intros c rest s H. unfold Dashboard1.createService. cbn [Number.nonempty negb].
    now rewrite fetch_then.
  - intros c rest s H. unfold Services.book. cbn [Number.nonempty negb].
    now rewrite fetch_then.
  - intros plan s H. unfold Account.changePlan. now rewrite fetch_then.
  - intros (text & H). unfold Admin.createProduct, Admin.setPForm.
    answered_by H. reflexivity.
  - intros (text & H). unfold Admin.createProduct. answered_by H. reflexivity.
  - intros id s req H. unfold Admin.deleteProduct. now rewrite fetch_then.
  - intros id status s req H. unfold Admin.updateOrderStatus.
    now rewrite fetch_then.
  - intros answer s [-> | ->]; reflexivity.
  - intros answer s [-> | ->]; reflexivity.
  - intros cl s d onAdded req H. subst req. unfold AddCameraCard.add.
    lost_request H.
  - intros c rest s req H. subst req. unfold Dashboard1.createService.
    cbn [Number.nonempty negb]. lost_request H.
  - intros c rest s req H. subst req. unfold Services.book.
    cbn [Number.nonempty negb]. lost_request H.
  - intros plan s req H. subst req. unfold Account.changePlan. lost_request H.
  - intros cl s req H. subst req. unfold Admin.createProduct. lost_request H.
  - intros id s req H. subst req. unfold Admin.deleteProduct. lost_request H.
  - intros id status s req H. subst req. unfold Admin.updateOrderStatus.
    lost_request H.
Qed.

(** Send alert is followed by no load: its only request is the POST,
    where the load routine of its panel would have sent three GETs.  A
    refused create product is followed by no load either. *)
Lemma C4_counterexample :
  (let w := Sample.world Sample.empty_lists in
   let '(out, s', w') :=
     Admin1.sendAlert Sample.bearer Admin1.initial Admin1.initial w in
   out = Done tt
   /\ map method (log w') = ["POST"]
   /\ let '(_, _, w'') := Admin1.load Sample.bearer Sample.admin s' w' in
      map method (log w'') = ["POST"; "GET"; "GET"; "GET"])
  /\ (let w := Sample.world Sample.refusing in
      let '(out, s', w') :=
        Admin.createProduct Sample.bearer Sample.admin Admin.initial
          Admin.initial w in
      out = Done tt
      /\ map method (log w') = ["POST"]
      /\ alerts w' = ["Failed to create product"]
      /\ let '(_, _, w'') := Admin.load Sample.bearer Sample.admin s' w' in
         map method (log w'') = ["POST"; "GET"; "GET"; "GET"; "GET"]).
Proof. vm_compute. repeat split; reflexivity. Qed.

End ReloadFacts.

(** ** Empty states and the admin gate *)

Module ViewFacts.
Import JS View.

(** C5. With an empty list (and, in the shop, loading over) the grid of
    the shop, the lines of the cart, the services of variant 2, the four
    list tabs of its admin panel, and the live, alerts and recordings views
    of variant 1 render their placeholder.  The services tab of variant 1
    renders its button and an empty list, and the users, cameras and
    services tabs of its admin panel render an empty list: no placeholder
    text. *)
Theorem C5_empty_states (date_text : JSValue -> string) :
  (forall st,
      Shop.products st = JArr [] -> Shop.loading st = false ->
      Shop.grid st = Some (Tag "div" [Tag "div" [Text "No products found."]]))
  /\ (forall st,
        items st = [] ->
        CartPanel.lines st = Tag "div" [Tag "div" [Text "Your cart is empty."]])
  /\ Services.list_view {| Services.services := JArr [] |}
     = Some (Tag "div" [Tag "p" [Text "No service bookings yet."]])
  /\ (forall st,
        Admin.products st = JArr [] -> Admin.orders st = JArr [] ->
        Admin.users st = JArr [] -> Admin.svcs st = JArr [] ->
        forall t expected,
          (t, expected) ∈ [("products", "No products yet.");
                           ("orders", "No orders yet.");
                           ("customers", "No customers yet.");
                           ("services", "No service requests.")] ->
          Admin.tab st = t ->
          exists content,
            Admin.tab_view date_text st = Some content
            /\ flat_map texts content = expected :: flat_map texts
                  (if String.eqb t "products" then [Admin.form_view (Admin.pForm st)] else []))
  /\ (forall st,
        Dashboard1.cameras st = JArr [] ->
        Dashboard1.live_view st
        = Some (Tag "div"
                  [Tag "div" [Text "No cameras yet. Add one to view live feeds."]]))
  /\ (forall st,
        Dashboard1.alerts_list st = JArr [] ->
        Dashboard1.alerts_view st = Some (Tag "div" [Tag "p" [Text "No alerts yet."]]))
  /\ Recordings.render date_text {| Recordings.recordings := JArr [] |}
     = Some (Tag "div" [Tag "div" [Text "No recordings found."]])
  /\ (forall st,
        Dashboard1.services st = JArr [] ->
        Dashboard1.services_view st
        = Some (Tag "div" [Button Book false [Text "Book service"]; Tag "div" []]))
  /\ (forall row, Admin1.list_view row (JArr []) = Some (Tag "div" []))
  /\ (forall st,
        Admin1.users st = JArr [] -> Admin1.cams st = JArr [] ->
        Admin1.svcs st = JArr [] ->
        forall t, t ∈ ["users"; "cameras"; "services"] -> Admin1.tab st = t ->
        exists content,
          Admin1.tab_view st = Some content /\ flat_map texts content = []).
Proof.
  repeat split.
  - intros st Hp Hl. unfold Shop.grid. now rewrite Hp, Hl.
  - intros st Hi. unfold CartPanel.lines. now rewrite Hi.
  - intros st Hp Ho Hu Hs t expected Hin Ht. unfold Admin.tab_view.
    rewrite Ht, Hp, Ho, Hu, Hs.
    repeat (apply elem_of_cons in Hin as [[= -> ->] | Hin];
            [eexists; split; reflexivity |]).
    now apply elem_of_nil in Hin.
  - intros st Hc. unfold Dashboard1.live_view. now rewrite Hc.
  - intros st Ha. unfold Dashboard1.alerts_view. now rewrite Ha.
  - intros st Hs. unfold Dashboard1.services_view. now rewrite Hs.
  - intros st Hu Hc Hs t Hin Ht. unfold Admin1.tab_view.
    rewrite Ht, Hu, Hc, Hs.
    repeat (apply elem_of_cons in Hin as [-> | Hin];
            [eexists; split; reflexivity |]).
    now apply elem_of_nil in Hin.
Qed.

(** C9. When the role of the user is not admin, the admin panel of either
    variant renders its notice and nothing else, so none of the buttons
    that create or delete a product, update an order or send an alert, and
    its load routine sends no request and changes nothing, whatever lists
    the state of the panel holds. *)
Theorem C9_role_gate (tok usr : JSValue) :
  opt_prop "role" usr <> JStr "admin" ->
  (forall date_text st,
      Admin.render date_text usr st = Some Admin.notice)
  /\ handlers Admin.notice = []
  /\ (forall s w, Admin.load tok usr s w = (Done tt, s, w))
  /\ (forall st, Admin1.render usr st = Some Admin1.notice)
  /\ handlers Admin1.notice = []
  /\ (forall s w, Admin1.load tok usr s w = (Done tt, s, w)).
Proof.
  intros Hrole.
  assert (Hno : is_string "admin" (opt_prop "role" usr) = false).
  { destruct (opt_prop "role" usr) as [| | | | r | |]; try reflexivity.
    cbn. destruct (String.eqb_spec r "admin") as [-> | _]; [congruence | reflexivity]. }
  repeat split.
  - intros date_text st. unfold Admin.render, Admin.isAdmin. now rewrite Hno.
  - intros s w. unfold Admin.load, Admin.isAdmin. now rewrite Hno.
  - intros st. unfold Admin1.render, Admin1.isAdmin. now rewrite Hno.
  - intros s w. unfold Admin1.load, Admin1.isAdmin. now rewrite Hno.
Qed.

Lemma C9_role_gate_witness :
  opt_prop "role" Sample.ada <> JStr "admin"
  /\ (forall date_text st,
        Admin.render date_text Sample.ada st = Some Admin.notice)
  /\ (forall s w, Admin.load Sample.bearer Sample.ada s w = (Done tt, s, w)).
Proof.
  assert (H : opt_prop "role" Sample.ada <> JStr "admin") by (vm_compute; discriminate).
  split; [exact H |].
  destruct (C9_role_gate Sample.bearer Sample.ada H) as (H1 & _ & H2 & _).
  split; assumption.
Defined.

(** For an admin the panel does show the mutation controls. *)
Example admin_sees_controls :
  (e ← Admin.render (fun _ => EmptyString) Sample.admin Admin.initial;
   Some (handlers e))
  = Some [SetTab "products"; SetTab "orders"; SetTab "customers";
          SetTab "services"; CreateProduct].
Proof. vm_compute. reflexivity. Qed.

End ViewFacts.

(** ** Sample runs *)

Module SampleRuns.
Import JS Cart Requests.

Lemma example_cart_qty : Forall qty_ok (items Sample.cart_state).
Proof. repeat constructor; unfold qty_ok; cbn; lia. Qed.

Lemma C3_quantity_floor_witness :
  Forall qty_ok (items Sample.cart_state)
  /\ (forall pid delta s w,
        delta = 1 \/ delta = -1 ->
        let '(out, s', w') := updateQty Sample.cart_state pid delta s w in
        out = Done tt
        /\ Forall qty_ok (items s')
        /\ length (items s') = length (items Sample.cart_state)
        /\ localStorage w' !! "cart" = Some (cart_text (items s'))).
Proof.
  split; [exact example_cart_qty |].
  exact (proj1 (QuantityFacts.C3_quantity_floor Sample.cart_state example_cart_qty)).
Defined.

Lemma C10_place_order_empty_witness :
  items {| items := []; address := "1 Main St" |} = []
  /\ placeOrder Sample.bearer {| items := []; address := "1 Main St" |}
       Sample.cart_state (Sample.world Sample.empty_lists)
     = (Done tt, Sample.cart_state, Sample.world Sample.empty_lists).
Proof.
  split; [reflexivity |].
  apply CheckoutFacts.C10_place_order_empty. reflexivity.
Defined.


End SampleRuns.

(** ** The rounding of integers against the Numbers *)

Module RoundingChecks.
Import Number Quantities.

(** On the 2400 integers of the grid, [round_int] gives the integer of
    the Number that [of_Z] builds. *)
Example round_int_on_grid : forallb rounds_as_number grid = true.
Proof. vm_compute. reflexivity. Qed.

(** On the same integers, [int_add] gives the integer of the binary64 sum
    for a step of one up or down, for a step of three and for
    doubling. *)
Example int_add_on_grid :
  forallb (fun a => adds_as_numbers a 1 && adds_as_numbers a (-1)
                    && adds_as_numbers a 3 && adds_as_numbers a a) grid
  = true.
Proof. vm_compute. reflexivity. Qed.

(** Around [2^53]: one more is rounded back, a tie goes to the even
    significand, and up then down ends one below. *)
Example int_add_at_2_53 :
  int_add (2 ^ 53) 1 = 2 ^ 53
  /\ int_add (2 ^ 53 + 2) 1 = 2 ^ 53 + 4
  /\ int_add (int_add (2 ^ 53) 1) (-1) = 2 ^ 53 - 1
  /\ int_add (2 ^ 53 - 1) 1 = 2 ^ 53.
Proof. vm_compute. repeat split; reflexivity. Qed.

End RoundingChecks.

(** ** The reach of the JSON model *)

Module ReachChecks.
Import JSON Reach.

(** A text with a u-escape above 00FF is not read and is told from a
    malformed one; with a u-escape below 0100 it is read; and an open
    string literal is malformed whatever it holds. *)
Example beyond_told_apart :
  parse wide_text = None /\ beyond wide_text = true
  /\ parse narrow_text = Some (JArr [JStr (String "a" (String (Chars.of_code 243) "b"))])
  /\ beyond narrow_text = false
  /\ parse open_text = None /\ beyond open_text = false.
Proof. vm_compute. repeat split; reflexivity. Qed.

(** A stored user beyond the model ends the start of [useAuth] as not
    modelled, not as a SyntaxError. *)
Example stored_user_beyond :
  Auth.init {[ "user" := wide_text ]} = Untyped
  /\ Auth.init {[ "user" := open_text ]} = Thrown SyntaxError.
Proof. vm_compute. split; reflexivity. Qed.

(** A parsed object lists its array indices first, ascending, then its
    other keys as they came; a repeated key keeps its place with the later
    value; and the text written from it reads back as the same object. *)
Example keys_in_own_order :
  let v := JObj [("0", JNull); ("1", JBool true); ("2", JBool false);
                 ("b", JNull); ("01", JNull); ("4294967295", JBool false)] in
  parse keyed_text = Some v
  /\ match stringify v with Some t => parse t | None => None end = Some v.
Proof. vm_compute. split; reflexivity. Qed.

End ReachChecks.

(** ** More on the auth client and the sign-in form *)

Module AuthMore.
Import JS Auth AuthFacts Requests Calls.

(** The run of [register], by the answer of the backend. *)
Lemma register_run name email password s w :
  let req := register_request w name email password in
  let w1 := Eff.with_log w (log w ++ [req]) in
  register name email password s w =
  match server w (log w ++ [req]) with
  | NetworkError => (Thrown FetchFailed, s, w1)
  | Response false _ => (Thrown (Error "Registration failed"), s, w1)
  | Response true text =>
      match JSON.parse text with
      | None => (Thrown SyntaxError, s, w1)
      | Some data =>
          match prop "token" data, prop "user" data with
          | Some tok, Some usr =>
              (Done tt, {| token := tok; user := usr |},
               Eff.with_storage w1
                 (<["user" := stringify_text usr]>
                    (<["token" := ToString tok]> (localStorage w))))
          | _, _ => (Thrown TypeError, s, w1)
          end
      end
  end.
Proof.
  intros req w1. unfold register, store_session, setToken, setUser. run_eff.
  change ({| method := "POST"; url := API w +:+ "/auth/register";
             headers := json_headers;
             body := register_body name email password |})
    with req.
  destruct (server w (log w ++ [req])) as [| [] text]; try reflexivity.
  cbn [negb]. destruct (JSON.parse text) as [data |]; [| reflexivity].
  destruct (prop "token" data) as [tok |] eqn:Et.
  - destruct (prop_object_total "token" "user" data tok Et) as [usr Eu].
    rewrite Eu. reflexivity.
  - destruct (prop "user" data); reflexivity.
Qed.


(** By the answer of the backend and the shape of the body. *)
Ltac by_answer w :=
  destruct (server w _) as [| [] ?text] eqn:?Es;
  [ | destruct (JSON.parse (body_text _)) as [?data |] eqn:?Ep;
      [ destruct (prop "token" _) as [?tok |] eqn:?Et;
        [ destruct (prop "user" _) as [?usr |] eqn:?Eu | ] | ] | ].


Lemma object_text_parses fields t :
  NoDup (map fst fields) ->
  JSONStable.ordered (map fst fields) = true ->
  Forall (fun kv => exists str, snd kv = JStr str) fields ->
  JSON.stringify (JObj fields) = Some t ->
  JSON.parse t = Some (JObj fields).
Proof.
  intros Hnd Hord Hstr Ht.
  assert (Hst : JSONStable.stable (JObj fields)).
  { cbn [JSONStable.stable]. split; [exact Hnd |]. split; [exact Hord |].
    clear Hnd Hord Ht.
    induction Hstr as [| kv l (str & Hkv) _ IH]; cbn [fold_right]; [exact I |].
    split; [| exact IH]. rewrite Hkv. exact I. }
  destruct (JSONFacts.parse_stringify _ Hst) as (t' & Ht' & Hp). congruence.
Qed.


(** X2. [login] and [register] never leave half a session behind: either
    they end normally and both the token and the user are in the storage
    and in the state, or they throw and the storage and the state are
    exactly as before (a lost connection, a refusal, a body that is not
    JSON, a body that is [null]).  They show no message themselves. *)
Theorem X2_session_all_or_nothing name email password s w :
  all_or_nothing (login email password) s w
  /\ all_or_nothing (register name email password) s w
  /\ alerts (login email password s w).2 = alerts w
  /\ alerts (register name email password s w).2 = alerts w.
Proof.
  unfold all_or_nothing. rewrite login_run, register_run. cbv zeta.
  split; [| split; [| split]].
  - by_answer w;
      first [ left; split; [reflexivity | do 2 eexists; split; reflexivity]
            | right; split; [eexists; reflexivity | split; reflexivity] ].
  - by_answer w;
      first [ left; split; [reflexivity | do 2 eexists; split; reflexivity]
            | right; split; [eexists; reflexivity | split; reflexivity] ].
  - by_answer w; reflexivity.
  - by_answer w; reflexivity.
Qed.

(** X3. What [useAuth] reads at start.  It throws exactly when the
    stored user is a non-empty text that is malformed: neither read by the
    model nor JSON beyond it; a stored user that is JSON beyond the model
    is not modelled.  Otherwise the root component shows the sign-in
    screen exactly when no token or an empty one is stored, whatever user
    is stored; the token is the stored text; and without a stored user the
    user is [null]. *)
Theorem X3_initial_screen (storage : gmap string string) :
  (init storage = Thrown SyntaxError
   <-> exists d, storage !! "user" = Some d /\ d <> EmptyString
                 /\ JSON.parse d = None /\ JSON.beyond d = false)
  /\ (init storage = Untyped
      <-> exists d, storage !! "user" = Some d /\ d <> EmptyString
                    /\ JSON.beyond d = true)
  /\ (forall s,
        init storage = Done s ->
        (App s = AuthScreen
         <-> storage !! "token" = None \/ storage !! "token" = Some EmptyString)
        /\ (storage !! "user" = None -> user s = JNull)
        /\ (forall t, storage !! "token" = Some t -> token s = JStr t)).
Proof.
  assert (Hscreen : forall u,
            (App {| token := JStr match storage !! "token" with
                                  | Some t => if Number.nonempty t then t
                                              else EmptyString
                                  | None => EmptyString
                                  end; user := u |} = AuthScreen
             <-> storage !! "token" = None
                 \/ storage !! "token" = Some EmptyString)
            /\ (forall t, storage !! "token" = Some t ->
                JStr match storage !! "token" with
                     | Some t => if Number.nonempty t then t else EmptyString
                     | None => EmptyString
                     end = JStr t)).
  { intros u. unfold App. cbn [token user].
    destruct (storage !! "token") as [[| c t] |]; cbn;
      repeat split; try discriminate; auto; try congruence;
      intros [H | H]; discriminate. }
  assert (Hbeyond : forall d, JSON.beyond d = true -> JSON.parse d = None).
  { intros d. unfold JSON.beyond. destruct (JSON.parse d); [discriminate | reflexivity]. }
  unfold init.
  destruct (storage !! "user") as [d |] eqn:Eu.
  - destruct d as [| c d].
    + cbn [Number.nonempty]. split; [| split].
      * split; [discriminate | intros (d' & [= <-] & H & _); congruence].
      * split; [discriminate | intros (d' & [= <-] & H & _); congruence].
      * intros s [= <-]. cbn [user]. destruct (Hscreen JNull) as [H1 H2].
        split; [exact H1 |]. split; [discriminate | exact H2].
    + cbn [Number.nonempty].
      destruct (JSON.parse (String c d)) as [u |] eqn:Ep.
      * split; [| split].
        -- split; [discriminate | intros (d' & [= <-] & _ & H & _); congruence].
        -- split; [discriminate |].
           intros (d' & [= <-] & _ & H). apply Hbeyond in H. congruence.
        -- intros s [= <-]. cbn [user]. destruct (Hscreen u) as [H1 H2].
           split; [exact H1 |]. split; [discriminate | exact H2].
      * destruct (JSON.beyond (String c d)) eqn:Eb.
        -- split; [| split].
           ++ split; [discriminate | intros (d' & [= <-] & _ & _ & H); congruence].
           ++ split; [intros _; exists (String c d); repeat split; auto; discriminate
                     | reflexivity].
           ++ intros s H; discriminate.
        -- split; [| split].
           ++ split; [intros _; exists (String c d); repeat split; auto; discriminate
                     | reflexivity].
           ++ split; [discriminate | intros (d' & [= <-] & _ & H); congruence].
           ++ intros s H; discriminate.
  - split; [| split].
    + split; [discriminate | intros (d' & H & _); discriminate].
    + split; [discriminate | intros (d' & H & _); discriminate].
    + intros s [= <-]. cbn [user]. destruct (Hscreen JNull) as [H1 H2].
      split; [exact H1 |]. split; [reflexivity | exact H2].
Qed.

Import AuthScreen.

(** The run of [submit] around a call of the auth client. *)
Lemma submit_run engine_text cl onLogin onRegister st sess w :
  submit engine_text cl onLogin onRegister (st, sess) w =
  let form e :=
    {| mode := mode st; name := name st; email := email st;
       password := password st; loading := false; error := e |} in
  match (if String.eqb (mode cl) "login" then onLogin (email cl) (password cl)
         else onRegister (name cl) (email cl) (password cl)) sess w with
  | (Done _, sess', w') => (Done tt, (form EmptyString, sess'), w')
  | (Thrown e, sess', w') => (Done tt, (form (message engine_text e), sess'), w')
  | (Untyped, sess', w') =>
      (Untyped,
       ({| mode := mode st; name := name st; email := email st;
           password := password st; loading := true; error := EmptyString |},
        sess'), w')
  end.
Proof.
  unfold submit, try_catch, setError, setLoading. run_eff. cbn.
  destruct (String.eqb (mode cl) "login");
    [ destruct (onLogin (email cl) (password cl) sess w)
        as [[[[] | e |] sess'] w']
    | destruct (onRegister (name cl) (email cl) (password cl) sess w)
        as [[[[] | e |] sess'] w'] ];
    reflexivity.
Qed.

(** X4. Submitting the sign-in form over the auth client always ends
    normally, with exactly one request sent (to the login endpoint in
    login mode, to the register endpoint otherwise), [loading] switched
    off and the other fields of the form kept.  Either the call succeeded,
    the error text is empty and the session is stored; or the call threw,
    the session and the storage are as before and the error text is the
    refusal text of the mode or the text of the engine for a failed
    request, a body that is not JSON or a body without properties.  After
    a refusal it is the refusal text: "Invalid credentials" or
    "Registration failed". *)
Theorem X4_submit engine_text cl st sess w :
  let '(out, (st', sess'), w') :=
    submit engine_text cl login register (st, sess) w in
  out = Done tt
  /\ log w' = (log w ++ [submit_request w cl])%list
  /\ loading st' = false
  /\ (mode st', name st', email st', password st')
     = (mode st, name st, email st, password st)
  /\ ((error st' = EmptyString
       /\ exists tok usr,
           sess' = {| token := tok; user := usr |}
           /\ localStorage w'
              = <["user" := stringify_text usr]>
                  (<["token" := ToString tok]> (localStorage w)))
      \/ (In (error st')
             [refusal_text cl; engine_text FetchFailed;
              engine_text SyntaxError; engine_text TypeError]
          /\ sess' = sess /\ localStorage w' = localStorage w))
  /\ (Sent.refused w (submit_request w cl) -> error st' = refusal_text cl).
Proof.
  rewrite submit_run. unfold submit_request, refusal_text, Sent.refused.
  destruct (String.eqb (mode cl) "login").
  - rewrite login_run. cbv zeta. by_answer w; cbn;
      (split; [reflexivity |]); (split; [reflexivity |]);
      (split; [reflexivity |]); (split; [reflexivity |]);
      (split;
       [ first [ left; split; [reflexivity | do 2 eexists; split; reflexivity]
               | right; split; [cbn; tauto | split; reflexivity] ]
       | intros [t Ht]; first [congruence | reflexivity] ]).
  - rewrite register_run. cbv zeta. by_answer w; cbn;
      (split; [reflexivity |]); (split; [reflexivity |]);
      (split; [reflexivity |]); (split; [reflexivity |]);
      (split;
       [ first [ left; split; [reflexivity | do 2 eexists; split; reflexivity]
               | right; split; [cbn; tauto | split; reflexivity] ]
       | intros [t Ht]; first [congruence | reflexivity] ]).
Qed.

(** The initial state read from a storage that holds a stored session. *)
Lemma init_stored tokstr usr (m : gmap string string) :
  JSONStable.stable usr ->
  Auth.init (<["user" := stringify_text usr]> (<["token" := tokstr]> m))
  = Done {| token := JStr tokstr; user := usr |}.
Proof.
  intros Hst.
  set (m' := <["user" := stringify_text usr]> (<["token" := tokstr]> m)).
  assert (Hlt : m' !! "token" = Some tokstr).
  { unfold m'. rewrite lookup_insert_ne by discriminate. apply lookup_insert_eq. }
  assert (Hlu : m' !! "user" = Some (stringify_text usr))
    by apply lookup_insert_eq.
  destruct (stable_text_nonempty usr Hst) as (t & Et & Hne & Hparse).
  assert (E : stringify_text usr = t)
    by (unfold stringify_text; now rewrite Et).
  unfold init. rewrite Hlt, Hlu, E, Hne, Hparse.
  destruct tokstr; reflexivity.
Qed.

(** X21. Signing up and coming back.  When [register] stores a session
    whose token is a non-empty string and whose user is present and holds
    only Numbers that print back, a reload reads this very session from
    the storage and the root component shows the dashboard with this
    token and user, not the sign-in screen. *)
Theorem X21_register_reload name email password s w text data c tokrest usr :
  server w (log w ++ [register_request w name email password])%list
  = Response true text ->
  JSON.parse text = Some data ->
  prop "token" data = Some (JStr (String c tokrest)) ->
  prop "user" data = Some usr ->
  usr <> JUndefined ->
  JSONStable.numbers_print_back usr ->
  let '(out, s', w') := register name email password s w in
  out = Done tt
  /\ Auth.init (localStorage w') = Done s'
  /\ App s' = Dashboard (JStr (String c tokrest)) usr.
Proof.
  intros Hs Hp Ht Hu Hdef Hnum.
  assert (Hst : JSONStable.stable usr).
  { apply ParsedFacts.parsed_stable; [| assumption].
    destruct (ParsedFacts.prop_parsed "user" data usr
                (ParsedFacts.parse_parsed _ _ Hp) Hu); [congruence | assumption]. }
  rewrite register_run. cbv zeta. rewrite Hs, Hp, Ht, Hu.
  split; [reflexivity |]. split; [| reflexivity].
  cbn [localStorage Eff.with_storage ToString].
  now apply init_stored.
Qed.

Lemma X21_register_reload_witness :
  let '(out, s', w') :=
    register "Ada" "ada@example.org" "pw" Sample.signed_out
      (Sample.world Fixtures.sign_up_ok) in
  out = Done tt
  /\ Auth.init (localStorage w') = Done s'
  /\ App s' = Dashboard (JStr "t0k3n") Sample.ada.
Proof.
  apply (X21_register_reload "Ada" "ada@example.org" "pw" Sample.signed_out
           (Sample.world Fixtures.sign_up_ok) Sample.sign_in_text
           (JObj [("token", JStr "t0k3n"); ("user", Sample.ada)])
           "t" "0k3n" Sample.ada).
  - reflexivity.
  - vm_compute. reflexivity.
  - reflexivity.
  - reflexivity.
  - discriminate.
  - exact ada_numbers.
Defined.

(** X20. Who is an admin.  The role test of both admin panels holds
    exactly for an object whose [role] is the string admin: not for
    [null] or a missing user, not for a string or an array, and not for
    a role of another case or type. *)
Theorem X20_is_admin (usr : JSValue) :
  (Admin.isAdmin usr = true
   <-> exists fields, usr = JObj fields /\ assoc "role" fields = Some (JStr "admin"))
  /\ Admin1.isAdmin usr = Admin.isAdmin usr.
Proof.
  split; [| reflexivity]. unfold Admin.isAdmin, opt_prop, prop, is_string.
  destruct usr as [| | b | x | str | l | fields]; cbn;
    try (split; [discriminate | intros (f & Hf & _); discriminate]).
  split.
    + intros H. exists fields. split; [reflexivity |].
      destruct (assoc "role" fields) as [[| | | | r | |] |]; cbn in H;
        try discriminate.
      apply String.eqb_eq in H. now subst r.
    + intros (f & [= <-] & ->). reflexivity.
Qed.

End AuthMore.

(** ** The lines of the cart under its handlers *)

Module CartLines.
Import Number JS Cart CartStore Stored Quantities NumberFacts.

Lemma eqb_neq a b : String.eqb a b = false <-> a <> b.
Proof. apply String.eqb_neq. Qed.

Lemma findIndex_none {A} (f : A -> bool) l :
  findIndex f l = None <-> Forall (fun x => f x = false) l.
Proof.
  induction l as [| x l IH]; cbn [findIndex].
  - split; [constructor | reflexivity].
  - destruct (f x) eqn:E.
    + split; [discriminate | intros H; apply Forall_cons in H as [H _]; congruence].
    + destruct (findIndex f l); cbn.
      * split; [discriminate |].
        intros H; apply Forall_cons in H as [_ H]. now apply IH in H.
      * split; [| reflexivity]. intros _. apply Forall_cons. split; [exact E |].
        now apply IH.
Qed.

(** The index found is the first line of the product. *)
Lemma findIndex_some {A} (f : A -> bool) l k :
  findIndex f l = Some k ->
  exists before x after,
    l = (before ++ x :: after)%list /\ length before = k
    /\ f x = true /\ Forall (fun y => f y = false) before.
Proof.
  revert k. induction l as [| x l IH]; cbn [findIndex]; [discriminate |].
  intros k. destruct (f x) eqn:E.
  - intros [= <-]. exists [], x, l. repeat split; [exact E | constructor].
  - destruct (findIndex f l) as [j |]; cbn; [| discriminate].
    intros [= <-]. destruct (IH j eq_refl) as (b & y & a & -> & Hlen & Hy & Hb).
    exists (x :: b), y, a. cbn. repeat split; auto.
Qed.

Lemma alter_middle {A} (g : A -> A) (before : list A) x after :
  alter g (length before) (before ++ x :: after)%list
  = (before ++ g x :: after)%list.
Proof. induction before as [| y b IH]; cbn; [reflexivity | now f_equal]. Qed.

Lemma total_qty_app l1 l2 : total_qty (l1 ++ l2) = total_qty l1 + total_qty l2.
Proof.
  unfold total_qty. induction l1 as [| i l1 IH]; cbn; [reflexivity |].
  rewrite IH. lia.
Qed.

(** The two ways [addToCart] changes the cart. *)
Lemma addToCart_items_cases p l :
  (Forall (fun i => product_id i <> p_id p) l
   /\ addToCart_items p l = (l ++ [new_line p])%list)
  \/ (exists before x after,
        l = (before ++ x :: after)%list
        /\ product_id x = p_id p
        /\ Forall (fun i => product_id i <> p_id p) before
        /\ addToCart_items p l
           = (before ++ set_qty (int_add (qty x) 1) x :: after)%list).
Proof.
  unfold addToCart_items.
  destruct (findIndex _ l) as [k |] eqn:E.
  - right. apply findIndex_some in E as (b & x & a & -> & <- & Hx & Hb).
    exists b, x, a. repeat split.
    + now apply String.eqb_eq.
    + eapply Forall_impl; [exact Hb |]. intros i. apply eqb_neq.
    + exact (alter_middle (fun i => set_qty (int_add (qty i) 1) i) b x a).
  - left. apply findIndex_none in E. split; [| reflexivity].
    eapply Forall_impl; [exact E |]. intros i. apply eqb_neq.
Qed.

Lemma others_app pid l1 l2 :
  others pid (l1 ++ l2) = (others pid l1 ++ others pid l2)%list.
Proof. apply List.filter_app. Qed.

Lemma others_all pid l :
  Forall (fun i => product_id i <> pid) l -> others pid l = l.
Proof.
  induction 1 as [| i l Hi Hl IH]; [reflexivity |].
  cbn. apply eqb_neq in Hi. rewrite Hi. cbn. now f_equal.
Qed.

Lemma safe_add_one q : Z.abs q < 2 ^ 53 -> int_add q 1 = q + 1.
Proof. intros H. apply int_add_exact; cbn; lia. Qed.

Lemma safe_take_one q : Z.abs q < 2 ^ 53 -> int_add q (-1) = q - 1.
Proof.
  intros H. replace (q - 1) with (q + -1) by lia. apply int_add_exact; cbn; lia.
Qed.

Lemma count_app pid l1 l2 : count pid (l1 ++ l2) = count pid l1 + count pid l2.
Proof. unfold count. now rewrite List.filter_app, total_qty_app. Qed.

Lemma count_none pid l :
  Forall (fun i => product_id i <> pid) l -> count pid l = 0.
Proof.
  unfold count. induction 1 as [| i l Hi Hl IH]; [reflexivity |].
  cbn [List.filter]. apply eqb_neq in Hi. now rewrite Hi.
Qed.

(** One more item of the product, among safe quantities. *)
Lemma addToCart_items_count p l :
  Forall safe l ->
  count (p_id p) (addToCart_items p l) = count (p_id p) l + 1
  /\ total_qty (addToCart_items p l) = total_qty l + 1.
Proof.
  intros Hsafe.
  destruct (addToCart_items_cases p l)
    as [[Hno ->] | (b & x & a & -> & Hx & Hb & ->)].
  - rewrite count_app, total_qty_app. unfold count. cbn.
    rewrite String.eqb_refl. cbn. lia.
  - apply Forall_app in Hsafe as [_ Hsafe]. apply Forall_cons in Hsafe as [Hq _].
    rewrite !count_app, !total_qty_app. unfold count. cbn [List.filter].
    cbn [product_id set_qty]. rewrite Hx, String.eqb_refl. cbn [total_qty fold_right qty].
    rewrite (safe_add_one _ Hq). unfold total_qty. cbn [qty set_qty].
    split; lia.
Qed.

Lemma addToCart_items_others p l :
  others (p_id p) (addToCart_items p l) = others (p_id p) l.
Proof.
  destruct (addToCart_items_cases p l)
    as [[Hno ->] | (b & x & a & -> & Hx & Hb & ->)].
  - rewrite others_app. cbn. rewrite String.eqb_refl. cbn.
    apply List.app_nil_r.
  - rewrite !others_app. cbn. rewrite Hx, String.eqb_refl. reflexivity.
Qed.

Lemma addToCart_items_known p l :
  In (p_id p) (ids l) -> ids (addToCart_items p l) = ids l.
Proof.
  unfold ids.
  destruct (addToCart_items_cases p l)
    as [[Hno ->] | (b & x & a & -> & Hx & Hb & ->)].
  - intros Hin. apply List.in_map_iff in Hin as (i & Hi & Hin).
    rewrite List.Forall_forall in Hno. now destruct (Hno i Hin).
  - intros _. rewrite !List.map_app. reflexivity.
Qed.

Lemma addToCart_items_new p l :
  ~ In (p_id p) (ids l) -> addToCart_items p l = (l ++ [new_line p])%list.
Proof.
  unfold ids.
  destruct (addToCart_items_cases p l)
    as [[Hno ->] | (b & x & a & -> & Hx & Hb & ->)]; [reflexivity |].
  intros Hin. exfalso. apply Hin. rewrite List.map_app.
  apply List.in_or_app. right. left. exact Hx.
Qed.

(** X8. What [addToCart] does to the lines.  Among quantities below
    [2^53], where binary64 adds one exactly, the number of items in the
    cart, and of the product, grows by exactly one; at [2^53] the sum is
    rounded back and the line stays as it is.  Whatever the quantities,
    the lines of the other products are untouched and keep their order;
    the product ends with a line; a product with a line keeps the ids and
    the number of lines, a product without one gets a new last line of
    quantity one with its name, price and image; and a cart with one line
    per product stays so. *)
Theorem X8_add_one_item (p : Product) (l : list CartItem) :
  (Forall safe l ->
   total_qty (addToCart_items p l) = total_qty l + 1
   /\ count (p_id p) (addToCart_items p l) = count (p_id p) l + 1)
  /\ (forall before x after,
        l = (before ++ x :: after)%list ->
        Forall (fun i => product_id i <> p_id p) before ->
        product_id x = p_id p -> qty x = 2 ^ 53 ->
        addToCart_items p l = l)
  /\ others (p_id p) (addToCart_items p l) = others (p_id p) l
  /\ In (p_id p) (ids (addToCart_items p l))
  /\ (In (p_id p) (ids l) -> ids (addToCart_items p l) = ids l)
  /\ (~ In (p_id p) (ids l) ->
      addToCart_items p l
      = (l ++ [{| product_id := p_id p; name := p_name p; price := p_price p;
                  qty := 1; image := p_image p |}])%list)
  /\ (NoDup (ids l) -> NoDup (ids (addToCart_items p l))).
Proof.
  pose proof (addToCart_items_known p l) as Hyes.
  pose proof (addToCart_items_new p l) as Hnot.
  split; [| split; [| split; [| split; [| split; [| split]]]]].
  - intros Hsafe. destruct (addToCart_items_count p l Hsafe). now split.
  - intros b x a -> Hb Hx Hq. unfold addToCart_items.
    assert (Hidx : findIndex (fun i => String.eqb (product_id i) (p_id p))
                     (b ++ x :: a) = Some (length b)).
    { clear Hq Hyes Hnot. induction b as [| y b IH]; cbn [app findIndex length].
      - now rewrite Hx, String.eqb_refl.
      - apply Forall_cons in Hb as [Hy Hb]. apply eqb_neq in Hy. rewrite Hy.
        now rewrite (IH Hb). }
    rewrite Hidx.
    rewrite (alter_middle (fun i => set_qty (int_add (qty i) 1) i) b x a).
    do 2 f_equal. rewrite Hq. destruct x as [a1 a2 a3 q a4]. cbn in *. subst q.
    reflexivity.
  - apply addToCart_items_others.
  - destruct (List.in_dec string_dec (p_id p) (ids l)) as [Hin | Hin].
    + now rewrite (Hyes Hin).
    + rewrite (Hnot Hin). unfold ids. rewrite List.map_app.
      apply List.in_or_app. right. now left.
  - exact Hyes.
  - exact Hnot.
  - intros Hnd. destruct (List.in_dec string_dec (p_id p) (ids l)) as [Hin | Hin].
    + now rewrite (Hyes Hin).
    + rewrite (Hnot Hin). unfold ids. rewrite List.map_app.
      apply NoDup_app. split; [exact Hnd |]. split.
      * intros k Hk Hk'. apply list_elem_of_singleton in Hk'. subst k.
        apply Hin. now apply list_elem_of_In.
      * apply NoDup_singleton.
Qed.

Lemma set_qty_same i : set_qty (qty i) i = i.
Proof. now destruct i. Qed.

(** X9. What [updateQty] does to the lines.  It keeps the ids and the
    order and leaves the lines of the other products as they are.  Among
    quantities below [2^53], where binary64 adds and takes one exactly, a
    step of one up or down puts the quantity of each line of the product
    at the larger of 1 and the stepped quantity and changes nothing else;
    one step up followed by one step down gives the cart back when every
    quantity was at least one; and with one line per product a step up
    adds exactly one item.  At [2^53] a step up is rounded back, so that
    up and then down ends one below. *)
Theorem X9_update_quantity (pid : string) (l : list CartItem) :
  (forall delta,
      ids (updateQty_items pid delta l) = ids l
      /\ others pid (updateQty_items pid delta l) = others pid l)
  /\ (forall delta k i,
        delta = 1 \/ delta = -1 -> l !! k = Some i -> safe i ->
        updateQty_items pid delta l !! k
        = Some (if String.eqb (product_id i) pid
                then {| product_id := product_id i; name := name i;
                        price := price i; qty := Z.max 1 (qty i + delta);
                        image := image i |}
                else i))
  /\ (Forall qty_ok l -> Forall safe l ->
      updateQty_items pid (-1) (updateQty_items pid 1 l) = l)
  /\ (Forall qty_ok l -> Forall safe l -> NoDup (ids l) -> In pid (ids l) ->
      total_qty (updateQty_items pid 1 l) = total_qty l + 1)
  /\ (forall i, product_id i = pid -> qty i = 2 ^ 53 ->
      updateQty_items pid 1 [i] = [i]
      /\ updateQty_items pid (-1) (updateQty_items pid 1 [i])
         = [set_qty (2 ^ 53 - 1) i]).
Proof.
  unfold updateQty_items, ids, others. split; [| split; [| split; [| split]]].
  - intros delta. split.
    + rewrite List.map_map. apply List.map_ext. intros i.
      now destruct (String.eqb (product_id i) pid).
    + induction l as [| i l IH]; [reflexivity |]. cbn [map List.filter].
      destruct (String.eqb (product_id i) pid) eqn:E; cbn [product_id set_qty];
        rewrite E; cbn [negb]; [exact IH | now f_equal].
  - intros delta k i Hd Hk Hs. rewrite list_lookup_fmap, Hk. cbn [fmap option_fmap option_map].
    destruct (String.eqb (product_id i) pid); [| reflexivity].
    unfold set_qty.
    destruct Hd as [-> | ->];
      [ now rewrite (safe_add_one _ Hs)
      | rewrite (safe_take_one _ Hs); reflexivity ].
  - intros Hok Hsafe. induction Hok as [| i l Hi Hl IH]; [reflexivity |].
    apply Forall_cons in Hsafe as [Hs Hsafe]. cbn [map]. f_equal; [| now apply IH].
    destruct (String.eqb (product_id i) pid) eqn:E; cbn [product_id set_qty qty];
      rewrite E; [| reflexivity].
    unfold qty_ok, safe in *. destruct i as [a b c q d]. cbn [qty] in *.
    unfold set_qty. cbn [product_id name price qty image]. f_equal.
    rewrite (safe_add_one _ Hs). rewrite (Z.max_r 1 (q + 1)) by lia.
    rewrite (int_add_exact (q + 1) (-1)) by (cbn [Z.abs]; lia). lia.
  - intros Hok Hsafe. induction Hok as [| i l Hi Hl IH]; cbn [map]; [intros _ [] |].
    apply Forall_cons in Hsafe as [Hs Hsafe].
    intros Hnd Hin. apply NoDup_cons in Hnd as [Hni Hnd].
    unfold total_qty in *. cbn [fold_right].
    destruct (String.eqb (product_id i) pid) eqn:E.
    + apply String.eqb_eq in E. cbn [qty set_qty].
      assert (Hrest : map (fun i0 => if String.eqb (product_id i0) pid
                                     then set_qty (Z.max 1 (int_add (qty i0) 1)) i0
                                     else i0) l = l).
      { rewrite <- (List.map_id l) at 2. apply List.map_ext_in. intros j Hj.
        destruct (String.eqb (product_id j) pid) eqn:Ej; [| reflexivity].
        apply String.eqb_eq in Ej. exfalso. apply Hni.
        apply list_elem_of_In. apply List.in_map_iff. exists j. split; congruence. }
      rewrite Hrest. unfold qty_ok, safe in *. rewrite (safe_add_one _ Hs). lia.
    + destruct Hin as [Hin | Hin].
      * apply eqb_neq in E. congruence.
      * rewrite (IH Hsafe Hnd Hin). lia.
  - intros i Hp Hq. destruct i as [a b c q d]. cbn [product_id qty] in *.
    subst pid q. cbn [map product_id]. rewrite String.eqb_refl.
    cbn [set_qty product_id qty name price image map].
    rewrite String.eqb_refl. split; reflexivity.
Qed.

(** X10. What [removeItem] does to the lines.  No line of the product is
    left, the other lines stay as they are and in order, the number of
    lines never grows, a cart without the product is unchanged, removing
    twice is removing once, and removing a product just added to a cart
    that did not hold it gives the cart back. *)
Theorem X10_remove_line (pid : string) (p : Product) (l : list CartItem) :
  ~ In pid (ids (removeItem_items pid l))
  /\ (forall i, In i (removeItem_items pid l) <-> In i l /\ product_id i <> pid)
  /\ (length (removeItem_items pid l) <= length l)%nat
  /\ (~ In pid (ids l) -> removeItem_items pid l = l)
  /\ removeItem_items pid (removeItem_items pid l) = removeItem_items pid l
  /\ removeItem_items (p_id p) (addToCart_items p l)
     = removeItem_items (p_id p) l
  /\ (~ In (p_id p) (ids l) ->
      removeItem_items (p_id p) (addToCart_items p l) = l).
Proof.
  assert (Hno : forall q m, ~ In q (ids m) -> removeItem_items q m = m).
  { intros q m Hq. apply others_all. apply List.Forall_forall. intros i Hi E.
    apply Hq. apply List.in_map_iff. now exists i. }
  assert (Hadd : removeItem_items (p_id p) (addToCart_items p l)
                 = removeItem_items (p_id p) l)
    by exact (addToCart_items_others p l).
  split; [| split; [| split; [| split; [| split; [| split]]]]].
  - unfold ids, removeItem_items. intros Hin.
    apply List.in_map_iff in Hin as (i & Hi & Hin).
    apply List.filter_In in Hin as [_ Hin]. apply negb_true_iff in Hin.
    apply eqb_neq in Hin. congruence.
  - intros i. unfold removeItem_items. rewrite List.filter_In.
    rewrite negb_true_iff. now rewrite eqb_neq.
  - apply List.filter_length_le.
  - apply Hno.
  - unfold removeItem_items. clear Hadd.
    induction l as [| i l IH]; [reflexivity |]. cbn [List.filter].
    destruct (negb (String.eqb (product_id i) pid)) eqn:E; [| exact IH].
    cbn [List.filter]. rewrite E. now f_equal.
  - exact Hadd.
  - intros Hq. rewrite Hadd. now apply Hno.
Qed.

End CartLines.

(** ** The cart between the shop, the storage and the cart panel *)

Module CartStoreFacts.
Import Number JS JSON JSONStable JSONFacts Cart CartStore Stored Quantities.

(** [JSON.stringify] leaves the [image] of a line out when it is
    [undefined]. *)
Lemma stringify_item i : stringify (item_json i) = stringify (stored_json i).
Proof. unfold item_json, stored_json. destruct (image i); reflexivity. Qed.

Lemma cart_text_stored l :
  cart_text l = Auth.stringify_text (JArr (map stored_json l)).
Proof.
  unfold cart_text, Auth.stringify_text. cbn [stringify].
  rewrite !List.map_map. do 5 f_equal. apply List.map_ext. intros i.
  now rewrite stringify_item.
Qed.

Lemma stored_stable i : line_prints_back i -> stable (stored_json i).
Proof.
  intros (Hp & Hq & _). unfold stored_json. cbn [stable].
  destruct (image i); cbn [app map fst snd fold_right]; (split;
    [ refine (@bool_decide_unpack _ (NoDup_dec _) _); vm_compute; exact I
    | split; [vm_compute; reflexivity | cbn [stable]; tauto ] ]).
Qed.

Lemma stored_all_stable l :
  Forall line_prints_back l -> stable (JArr (map stored_json l)).
Proof.
  cbn [stable]. induction 1 as [| i l Hi Hl IH]; cbn [map fold_right];
    [exact I | split; [now apply stored_stable | exact IH]].
Qed.

Lemma item_view_stored i :
  to_Z (of_Z (qty i)) = Some (qty i) -> item_view (stored_json i) = Some i.
Proof.
  intros Hq. destruct i as [pid nm pr q [u |]]; cbn in *; rewrite Hq; reflexivity.
Qed.

Lemma cart_view_stored l :
  Forall line_prints_back l -> cart_view (JArr (map stored_json l)) = Some l.
Proof.
  cbn [cart_view]. induction 1 as [| i l (_ & _ & Hi) Hl IH]; [reflexivity |].
  cbn [map].
  change (mapM item_view (stored_json i :: map stored_json l))
    with (y ← item_view (stored_json i);
          k ← mapM item_view (map stored_json l); mret (y :: k)).
  rewrite (item_view_stored i Hi), IH. reflexivity.
Qed.

Lemma cart_text_nonempty l : nonempty (cart_text l) = true.
Proof. reflexivity. Qed.

Lemma cart_text_parse l :
  Forall line_prints_back l ->
  JSON.parse (cart_text l) = Some (JArr (map stored_json l)).
Proof.
  intros H. rewrite cart_text_stored.
  destruct (parse_stringify _ (stored_all_stable l H)) as (t & Ht & Hp).
  unfold Auth.stringify_text. rewrite Ht. exact Hp.
Qed.

(** Reading a storage that holds the text of [l]. *)
Lemma read_written {S} l (s : S) w :
  Forall line_prints_back l ->
  localStorage w !! "cart" = Some (cart_text l) ->
  read_cart s w = (Done l, s, w).
Proof.
  intros Hl Hw. unfold read_cart. run_eff. rewrite Hw, cart_text_nonempty.
  rewrite (cart_text_parse l Hl), (cart_view_stored l Hl). reflexivity.
Qed.

Lemma example_lines : Forall line_prints_back CartView.example_cart.
Proof.
  unfold CartView.example_cart.
  repeat (apply List.Forall_cons || apply List.Forall_nil);
    repeat split; vm_compute; reflexivity.
Qed.

Lemma init_written l w :
  Forall line_prints_back l ->
  localStorage w !! "cart" = Some (cart_text l) ->
  Cart.init tt w = (Done {| items := l; address := EmptyString |}, tt, w).
Proof.
  intros Hl Hw. unfold Cart.init. unfold Eff.bind.
  rewrite (read_written l tt w Hl Hw). reflexivity.
Qed.

(** X5. The cart survives the storage.  Whatever cart a handler wrote
    with [JSON.stringify], mounting the cart panel reads the same lines
    back, in the same order, with the same names, prices, quantities and
    images, provided the prices and quantities are Numbers that print
    back. *)
Theorem X5_cart_round_trip (l : list CartItem) (w : World) :
  Forall line_prints_back l ->
  localStorage w !! "cart" = Some (cart_text l) ->
  Cart.init tt w = (Done {| items := l; address := EmptyString |}, tt, w).
Proof. exact (init_written l w). Qed.

Lemma X5_cart_round_trip_witness :
  Cart.init tt (Fixtures.with_cart CartView.example_cart)
  = (Done {| items := CartView.example_cart; address := EmptyString |}, tt,
     Fixtures.with_cart CartView.example_cart).
Proof.
  apply (X5_cart_round_trip CartView.example_cart
           (Fixtures.with_cart CartView.example_cart)).
  - exact example_lines.
  - reflexivity.
Defined.

Lemma init_storage w1 w2 out :
  localStorage w1 = localStorage w2 ->
  Cart.init tt w1 = (out, tt, w1) -> Cart.init tt w2 = (out, tt, w2).
Proof.
  unfold Cart.init, read_cart. run_eff. intros ->.
  destruct (localStorage w2 !! "cart") as [t |];
    [destruct (nonempty t) |];
    repeat match goal with
           | |- context [JSON.parse ?t] => destruct (JSON.parse t) as [v |]
           | |- context [cart_view ?v] => destruct (cart_view v)
           | |- context [JSON.beyond ?t] => destruct (JSON.beyond t)
           end; intros [= <-]; reflexivity.
Qed.

Lemma init_empty w :
  localStorage w !! "cart" = None ->
  Cart.init tt w = (Done {| items := []; address := EmptyString |}, tt, w).
Proof. intros Hw. unfold Cart.init, read_cart. run_eff. rewrite Hw. reflexivity. Qed.

(** What the typed reading of a product takes from it. *)
Lemma product_view_fields p prod :
  product_view p = Some prod ->
  opt_prop "_id" p = JStr (p_id prod)
  /\ opt_prop "name" p = JStr (p_name prod)
  /\ opt_prop "price" p = JNum (p_price prod).
Proof.
  unfold product_view.
  destruct (opt_prop "_id" p) as [| | | | pid | |]; try discriminate.
  destruct (opt_prop "name" p) as [| | | | nm | |]; try discriminate.
  destruct (opt_prop "price" p) as [| | | pr | | |]; try discriminate.
  destruct (opt_prop "images" p) as [| | | | | [| [| | | | u | |] r] |];
    try discriminate; intros [= <-]; repeat split.
Qed.

(** X6. From the shop to the cart panel.  When the storage holds the
    cart [l], with quantities below [2^53], [addToCart] of a product ends
    normally, sends nothing and says "Added to cart"; the cart panel
    mounted afterwards shows a cart that holds exactly one more item of
    the product with the [_id] of the one added: the lines of the other
    products are those of [l] in their order, a product that had a line
    keeps the ids of the lines, and a product without one has a new last
    line of quantity one with its name, price and first image. *)
Theorem X6_added_then_shown {S} p prod l (s : S) w :
  product_view p = Some prod ->
  localStorage w !! "cart" = Some (cart_text l) ->
  Forall line_prints_back l ->
  Forall line_prints_back (addToCart_items prod l) ->
  Forall safe l ->
  let '(out, s', w') := addToCart p s w in
  out = Done tt
  /\ s' = s
  /\ log w' = log w
  /\ alerts w' = (alerts w ++ ["Added to cart"])%list
  /\ exists pid next,
      opt_prop "_id" p = JStr pid
      /\ Cart.init tt w'
         = (Done {| items := next; address := EmptyString |}, tt, w')
      /\ count pid next = count pid l + 1
      /\ total_qty next = total_qty l + 1
      /\ others pid next = others pid l
      /\ (In pid (ids l) -> ids next = ids l)
      /\ (~ In pid (ids l) ->
          exists nm pr,
            opt_prop "name" p = JStr nm /\ opt_prop "price" p = JNum pr
            /\ next = (l ++ [{| product_id := pid; name := nm; price := pr;
                                qty := 1; image := p_image prod |}])%list).
Proof.
  intros Hview Hw Hl Hnext Hsafe. unfold addToCart. unfold Eff.bind at 1.
  rewrite (read_written l s w Hl Hw), Hview. run_eff. cbn.
  destruct (product_view_fields p prod Hview) as (Hid & Hnm & Hpr).
  destruct (CartLines.addToCart_items_count prod l Hsafe) as [Hc Ht].
  repeat split. exists (p_id prod), (addToCart_items prod l).
  split; [exact Hid |]. split.
  { apply init_written; [assumption |]. cbn. apply lookup_insert_eq. }
  split; [exact Hc |]. split; [exact Ht |].
  split; [apply CartLines.addToCart_items_others |].
  split; [apply CartLines.addToCart_items_known |].
  intros Hnew. exists (p_name prod), (p_price prod).
  split; [exact Hnm |]. split; [exact Hpr |].
  exact (CartLines.addToCart_items_new prod l Hnew).
Qed.

Lemma X6_added_then_shown_witness :
  let '(out, s', w') :=
    addToCart lens tt (shop_world CartView.example_cart) in
  out = Done tt
  /\ alerts w' = ["Added to cart"]
  /\ exists next,
      Cart.init tt w'
      = (Done {| items := next; address := EmptyString |}, tt, w')
      /\ total_qty next = total_qty CartView.example_cart + 1.
Proof.
  pose proof (X6_added_then_shown lens lens_product CartView.example_cart tt
                (shop_world CartView.example_cart)) as H.
  assert (Hnext : Forall line_prints_back
                    (addToCart_items lens_product CartView.example_cart)).
  { cbv [addToCart_items CartView.example_cart lens_product findIndex
         product_id p_id String.eqb Ascii.eqb Bool.eqb option_map app].
    repeat (apply List.Forall_cons || apply List.Forall_nil);
      repeat split; vm_compute; reflexivity. }
  assert (Hsafe : Forall safe CartView.example_cart).
  { repeat (apply List.Forall_cons || apply List.Forall_nil);
      vm_compute; reflexivity. }
  specialize (H eq_refl eq_refl example_lines Hnext Hsafe).
  destruct (addToCart lens tt (shop_world CartView.example_cart))
    as [[out s'] w'].
  destruct H as (Ho & _ & _ & Ha & pid & next & _ & Hi & _ & Ht & _).
  split; [exact Ho |]. split; [exact Ha |].
  exists next. split; assumption.
Defined.

(** X7. The handlers of the cart panel keep the panel and the storage
    in step: after [updateQty] and after [removeItem] a remount shows
    the lines the panel shows now; and [placeOrder], whatever the backend
    answers, leaves them in step if they were (kept cart on a failure,
    empty cart and no cart entry on success). *)
Theorem X7_panel_in_step tok cl pid delta s w :
  Forall line_prints_back (items cl) ->
  Forall line_prints_back (updateQty_items pid delta (items cl)) ->
  in_step s w ->
  (let '(_, s', w') := updateQty cl pid delta s w in in_step s' w')
  /\ (let '(_, s', w') := removeItem cl pid s w in in_step s' w')
  /\ (let '(_, s', w') := placeOrder tok cl s w in in_step s' w').
Proof.
  intros Hl Hnext Hin. split; [| split].
  - unfold updateQty, in_step. run_eff. cbn.
    apply init_written; [assumption | apply lookup_insert_eq].
  - unfold removeItem, in_step. run_eff. cbn.
    apply init_written; [| apply lookup_insert_eq].
    unfold removeItem_items. rewrite List.Forall_forall in *.
    intros i Hi. apply List.filter_In in Hi as [Hi _]. auto.
  - destruct (items cl) as [| i l] eqn:E.
    + unfold placeOrder. rewrite E. exact Hin.
    + assert (Hne : items cl <> []) by (rewrite E; discriminate).
      rewrite (CheckoutFacts.placeOrder_run tok cl s w Hne). cbv zeta.
      unfold in_step in *.
      destruct (server w _) as [| [] otext];
        [ eapply init_storage; [| exact Hin]; reflexivity
        | | eapply init_storage; [| exact Hin]; reflexivity ].
      destruct (JSON.parse otext) as [order |];
        [| eapply init_storage; [| exact Hin]; reflexivity ].
      destruct (prop "total" order) as [total |];
        [| eapply init_storage; [| exact Hin]; reflexivity ].
      destruct (prop "_id" order) as [id |];
        [| eapply init_storage; [| exact Hin]; reflexivity ].
      destruct (server w _) as [| [] ptext];
        [ eapply init_storage; [| exact Hin]; reflexivity
        | | eapply init_storage; [| exact Hin]; reflexivity ].
      cbn [items]. apply init_empty. cbn. apply lookup_delete_eq.
Qed.

Lemma X7_panel_in_step_witness :
  (let '(_, s', w') :=
     updateQty Sample.cart_state "p1" 1
       {| items := CartView.example_cart; address := EmptyString |}
       (shop_world CartView.example_cart) in
   in_step s' w')
  /\ (let '(_, s', w') :=
        removeItem Sample.cart_state "p1"
          {| items := CartView.example_cart; address := EmptyString |}
          (shop_world CartView.example_cart) in
      in_step s' w')
  /\ (let '(_, s', w') :=
        placeOrder Sample.bearer Sample.cart_state
          {| items := CartView.example_cart; address := EmptyString |}
          (shop_world CartView.example_cart) in
      in_step s' w').
Proof.
  apply (X7_panel_in_step Sample.bearer Sample.cart_state "p1" 1
           {| items := CartView.example_cart; address := EmptyString |}
           (shop_world CartView.example_cart)).
  - exact example_lines.
  - cbv [updateQty_items Sample.cart_state items CartView.example_cart map
         product_id String.eqb Ascii.eqb Bool.eqb].
    repeat (apply List.Forall_cons || apply List.Forall_nil);
      repeat split; vm_compute; reflexivity.
  - apply init_written; [exact example_lines | reflexivity].
Defined.

End CartStoreFacts.

(** ** Checkout and a damaged cart entry *)

Module CheckoutMore.
Import Number JS Cart CartStore Stored.

Lemma order_lines_body cl1 cl2 :
  order_lines (items cl1) = order_lines (items cl2) ->
  address cl1 = address cl2 ->
  order_body cl1 = order_body cl2.
Proof.
  unfold order_body, order_lines. intros Hl Ha. rewrite Ha. do 5 f_equal.
  revert Hl. generalize (items cl2). induction (items cl1) as [| i l IH];
    intros [| j m]; cbn [map]; try discriminate; [reflexivity |].
  intros [= Hp Hq Hr]. rewrite Hp, Hq. f_equal. now apply IH.
Qed.

Lemma order_lines_nil (l1 l2 : list CartItem) :
  order_lines l1 = order_lines l2 -> l1 = [] -> l2 = [].
Proof. intros H ->. destruct l2; [reflexivity | discriminate]. Qed.

(** X11. Checkout trusts the backend with the money.  The order request
    carries the product ids, the quantities and the address only: two
    carts with the same ids and quantities, whatever names, prices and
    images their lines hold, make [placeOrder] run identically (same
    requests, same messages, same end).  On a non-empty cart the body of
    the first request is the text of these ids and quantities. *)
Theorem X11_order_ignores_prices tok cl1 cl2 s w :
  order_lines (items cl1) = order_lines (items cl2) ->
  address cl1 = address cl2 ->
  placeOrder tok cl1 s w = placeOrder tok cl2 s w
  /\ order_body cl1 = order_body cl2.
Proof.
  intros Hl Ha. pose proof (order_lines_body cl1 cl2 Hl Ha) as Hb.
  split; [| exact Hb]. unfold placeOrder.
  destruct (items cl1) as [| i l] eqn:E1; destruct (items cl2) as [| j m] eqn:E2;
    try discriminate; [reflexivity |].
  now rewrite Hb.
Qed.

Lemma X11_order_ignores_prices_witness :
  placeOrder Sample.bearer Sample.cart_state Sample.cart_state
    (Sample.world Sample.payment_refused)
  = placeOrder Sample.bearer
      {| items := map (fun i => {| product_id := product_id i; name := "?";
                                   price := 0; qty := qty i; image := None |})
                      CartView.example_cart;
         address := "1 Main St" |}
      Sample.cart_state (Sample.world Sample.payment_refused)
  /\ order_body Sample.cart_state
     = order_body
         {| items := map (fun i => {| product_id := product_id i; name := "?";
                                      price := 0; qty := qty i; image := None |})
                         CartView.example_cart;
            address := "1 Main St" |}.
Proof.
  apply (X11_order_ignores_prices Sample.bearer Sample.cart_state
           {| items := map (fun i => {| product_id := product_id i; name := "?";
                                        price := 0; qty := qty i; image := None |})
                           CartView.example_cart;
              address := "1 Main St" |}
           Sample.cart_state (Sample.world Sample.payment_refused)).
  - reflexivity.
  - reflexivity.
Defined.

(** X12. A malformed cart entry stops the shop and the cart panel.
    When the entry is not empty and malformed (the model does not read
    it and it is not JSON beyond the model), [addToCart] throws a
    SyntaxError before it writes or says anything, so the entry stays
    damaged, and mounting the cart panel throws as well.  An empty entry
    is an empty cart. *)
Theorem X12_damaged_cart {S} (p : JSValue) (s : S) (w : World) (t : string) :
  localStorage w !! "cart" = Some t ->
  (nonempty t = true -> JSON.parse t = None -> JSON.beyond t = false ->
   addToCart p s w = (Thrown SyntaxError, s, w)
   /\ Cart.init tt w = (Thrown SyntaxError, tt, w))
  /\ (t = EmptyString ->
      Cart.init tt w
      = (Done {| items := []; address := EmptyString |}, tt, w)).
Proof.
  intros Hw. split.
  - intros Hne Hp Hb. unfold addToCart, Cart.init, read_cart. run_eff.
    rewrite Hw, Hne, Hp, Hb. split; reflexivity.
  - intros ->. unfold Cart.init, read_cart. run_eff. rewrite Hw. reflexivity.
Qed.

Lemma X12_damaged_cart_witness :
  addToCart lens tt Fixtures.broken_cart
  = (Thrown SyntaxError, tt, Fixtures.broken_cart)
  /\ Cart.init tt Fixtures.broken_cart
     = (Thrown SyntaxError, tt, Fixtures.broken_cart).
Proof.
  apply (X12_damaged_cart lens tt Fixtures.broken_cart "{oops").
  - reflexivity.
  - reflexivity.
  - reflexivity.
  - reflexivity.
Defined.

End CheckoutMore.

(** ** The load routines *)

Module LoadFacts.
Import Number JS View Sent Loads.

Ltac by_response w :=
  destruct (server w _) as [| ?ok ?text] eqn:?Es;
  [ | destruct (JSON.parse _) as [?data |] eqn:?Ep ].

(** What the shop shows while [loading] is on. *)
Lemma loading_view (st : Shop.State) e :
  Shop.loading st = true -> Shop.render st = Some e ->
  In "Loading..." (texts e)
  /\ (Shop.products st = JArr [] -> ~ In "No products found." (texts e)).
Proof.
  unfold Shop.render, Shop.grid. intros Hl. rewrite Hl, andb_false_r.
  destruct (map_array Shop.card (Shop.products st)) as [cards |] eqn:Ec;
    cbn; [| discriminate].
  intros [= <-]. cbn. split; [tauto |].
  intros Hp. rewrite Hp in Ec. cbn in Ec. injection Ec as <-. cbn.
  intros [H | [H | [H | [H | [H | [H | [H | [H | [H | [H | []]]]]]]]]]];
    discriminate.
Qed.

(** X13. The shop while it loads.  [load] switches [loading] on, sends
    one GET for the products with the filters of the form, and switches
    [loading] off only after the body was read: when the request is lost
    or the body is malformed it throws, the products are the old ones and
    [loading] stays on, so that the shop keeps saying "Loading..." and,
    with no products, never says "No products found."; otherwise the
    products are the body, whatever the status of the response.  (The
    bodies of the model are within its reach, so that a body it does not
    read is malformed.) *)
Theorem X13_shop_load (cl s : Shop.State) (w : World) :
  let req := products_request w cl in
  let '(out, s', w') := Shop.load cl s w in
  log w' = (log w ++ [req])%list
  /\ alerts w' = alerts w
  /\ (Shop.q s', Shop.category s') = (Shop.q s, Shop.category s)
  /\ match server w (log w ++ [req])%list with
     | Response _ text =>
         match JSON.parse text with
         | Some data =>
             out = Done tt /\ Shop.products s' = data /\ Shop.loading s' = false
         | None =>
             out = Thrown SyntaxError /\ Shop.products s' = Shop.products s
             /\ Shop.loading s' = true
         end
     | NetworkError =>
         out = Thrown FetchFailed /\ Shop.products s' = Shop.products s
         /\ Shop.loading s' = true
     end
  /\ (forall e,
        Shop.loading s' = true -> Shop.render s' = Some e ->
        In "Loading..." (texts e)
        /\ (Shop.products s' = JArr [] -> ~ In "No products found." (texts e))).
Proof.
  intros req. unfold Shop.load, Shop.setLoading, Shop.setProducts. run_eff.
  fold (products_request w cl). fold req. cbn.
  by_response w; cbn;
    (split; [reflexivity |]); (split; [reflexivity |]);
    (split; [reflexivity |]);
    (split;
     [ repeat split
     | intros e;
       match goal with
       | |- _ -> Shop.render ?st = _ -> _ => exact (loading_view st e)
       end ]).
Qed.

Lemma map_array_not_array render v :
  is_array v = false -> map_array render v = None.
Proof. destruct v; cbn; congruence. Qed.

(** X14. The lists must be arrays.  The load of the services takes the
    body of the response as the list whatever the status; when that body
    is JSON but not an array (an error object, [null]), the load ends
    normally and the next render of the services fails.  The same value
    as the products of the shop, as the recordings or as the cameras of
    the live view makes their render fail as well. *)
Theorem X14_list_needs_array tok s w ok text data :
  server w (log w ++ [authorized w "GET" "/services" tok None])%list
  = Response ok text ->
  JSON.parse text = Some data ->
  is_array data = false ->
  (let '(out, s', w') := Services.load tok s w in
   out = Done tt /\ Services.services s' = data /\ Services.render s' = None)
  /\ (forall st, Shop.products st = data -> Shop.render st = None)
  /\ (forall date_text,
        Recordings.render date_text {| Recordings.recordings := data |} = None)
  /\ (forall st, Dashboard1.cameras st = data -> Dashboard1.live_view st = None).
Proof.
  intros Hs Hp Ha. split; [| split; [| split]].
  - unfold Services.load, Services.setServices. run_eff.
    unfold authorized in Hs. rewrite Hs. cbn. rewrite Hp.
    repeat split. unfold Services.render, Services.list_view. cbn.
    now rewrite (map_array_not_array _ _ Ha).
  - intros st <-. unfold Shop.render, Shop.grid.
    now rewrite (map_array_not_array _ _ Ha).
  - intros date_text. unfold Recordings.render. cbn.
    now rewrite (map_array_not_array _ _ Ha).
  - intros st <-. unfold Dashboard1.live_view.
    now rewrite (map_array_not_array _ _ Ha).
Qed.

Lemma X14_list_needs_array_witness :
  (let '(out, s', w') :=
     Services.load Sample.bearer Services.initial
       (Sample.world Fixtures.error_objects) in
   out = Done tt
   /\ Services.services s' = JObj [("detail", JStr "Not authenticated")]
   /\ Services.render s' = None)
  /\ (forall st,
        Shop.products st = JObj [("detail", JStr "Not authenticated")] ->
        Shop.render st = None)
  /\ (forall date_text,
        Recordings.render date_text
          {| Recordings.recordings := JObj [("detail", JStr "Not authenticated")] |}
        = None)
  /\ (forall st,
        Dashboard1.cameras st = JObj [("detail", JStr "Not authenticated")] ->
        Dashboard1.live_view st = None).
Proof.
  apply (X14_list_needs_array Sample.bearer Services.initial
           (Sample.world Fixtures.error_objects) false Fixtures.error_text
           (JObj [("detail", JStr "Not authenticated")])).
  - reflexivity.
  - vm_compute. reflexivity.
  - reflexivity.
Defined.

(** X15. The account panel fills the gaps.  The load of the subscription
    takes the body of the response whatever the status, and when that
    body has no plan and no status (an error object, [null]) the panel shows the plan basic and the
    status active; the three plan buttons are always there. *)
Theorem X15_account_defaults tok s w ok text data :
  server w (log w ++ [authorized w "GET" "/subscription" tok None])%list
  = Response ok text ->
  JSON.parse text = Some data ->
  truthy (opt_prop "plan" data) = false ->
  truthy (opt_prop "status" data) = false ->
  let '(out, s', w') := Account.load tok s w in
  out = Done tt
  /\ Account.sub s' = data
  /\ exists e,
      Account.render s' = Some e
      /\ texts e = ["Subscription"; "basic"; "Status: "; "active";
                    "basic"; "standard"; "pro"]
      /\ handlers e = [ChangePlan "basic"; ChangePlan "standard"; ChangePlan "pro"].
Proof.
  intros Hs Hp Hplan Hstatus. unfold Account.load, Account.setSub. run_eff.
  unfold authorized in Hs. rewrite Hs. cbn. rewrite Hp.
  repeat split. unfold Account.render, Account.or_text. cbn.
  rewrite Hplan, Hstatus. cbn. eexists. repeat split.
Qed.

Lemma X15_account_defaults_witness :
  let '(out, s', w') :=
    Account.load Sample.bearer Account.initial
      (Sample.world Fixtures.error_objects) in
  out = Done tt
  /\ Account.sub s' = JObj [("detail", JStr "Not authenticated")]
  /\ exists e,
      Account.render s' = Some e
      /\ texts e = ["Subscription"; "basic"; "Status: "; "active";
                    "basic"; "standard"; "pro"]
      /\ handlers e = [ChangePlan "basic"; ChangePlan "standard"; ChangePlan "pro"].
Proof.
  apply (X15_account_defaults Sample.bearer Account.initial
           (Sample.world Fixtures.error_objects) false Fixtures.error_text
           (JObj [("detail", JStr "Not authenticated")])).
  - reflexivity.
  - vm_compute. reflexivity.
  - reflexivity.
  - reflexivity.
Defined.

Ltac by_answers w :=
  repeat match goal with
         | |- context [server w ?l] =>
             let a := fresh "a" in
             let Ea := fresh "Ea" in
             destruct (server w l) as [| ? ?] eqn:Ea
         end.

Ltac by_bodies :=
  repeat match goal with
         | |- context [JSON.parse ?t] =>
             let d := fresh "d" in
             let Ed := fresh "Ed" in
             destruct (JSON.parse t) as [d |] eqn:Ed
         end.

Ltac load_cases :=
  repeat match goal with
         | |- _ /\ _ => split
         | |- forall _, _ => intro
         | H : _ /\ _ |- _ => destruct H
         | H : _ \/ _ |- _ => destruct H
         | H : exists _, _ |- _ => destruct H
         end;
  try reflexivity; try congruence.

(** X16. The load of the admin panel of variant 2, for an admin.  The
    four GETs (users, products without headers, orders, services) leave
    together and in this order whatever is answered.  If one of them is
    lost the load throws and no list changes; otherwise the bodies are
    read in the same order and each list is set as soon as its body is
    read, so that the first malformed body, whichever of the four it is,
    stops the load with the lists before it replaced and its own list and
    the lists after it kept; with four bodies read the four lists are the
    bodies, whatever the statuses.  The tab, the form, the storage and the
    messages are not touched. *)
Theorem X16_admin_load tok usr s w :
  Admin.isAdmin usr = true ->
  let reqs := admin_requests w tok in
  let '(out, s', w') := Admin.load tok usr s w in
  log w' = (log w ++ reqs)%list
  /\ alerts w' = alerts w
  /\ localStorage w' = localStorage w
  /\ Admin.tab s' = Admin.tab s
  /\ Admin.pForm s' = Admin.pForm s
  /\ (lost w reqs 0 \/ lost w reqs 1 \/ lost w reqs 2 \/ lost w reqs 3 ->
      out = Thrown FetchFailed /\ s' = s)
  /\ (forall ud pd od sd,
        body_at w reqs 0 = Some ud -> body_at w reqs 1 = Some pd ->
        body_at w reqs 2 = Some od -> body_at w reqs 3 = Some sd ->
        out = Done tt
        /\ Admin.users s' = ud /\ Admin.products s' = pd
        /\ Admin.orders s' = od /\ Admin.svcs s' = sd)
  /\ (answered_at w reqs 0 -> answered_at w reqs 1 ->
      answered_at w reqs 2 -> answered_at w reqs 3 ->
      (body_at w reqs 0 = None ->
       out = Thrown SyntaxError /\ s' = s)
      /\ (forall ud,
            body_at w reqs 0 = Some ud -> body_at w reqs 1 = None ->
            out = Thrown SyntaxError
            /\ Admin.users s' = ud /\ Admin.products s' = Admin.products s
            /\ Admin.orders s' = Admin.orders s /\ Admin.svcs s' = Admin.svcs s)
      /\ (forall ud pd,
            body_at w reqs 0 = Some ud -> body_at w reqs 1 = Some pd ->
            body_at w reqs 2 = None ->
            out = Thrown SyntaxError
            /\ Admin.users s' = ud /\ Admin.products s' = pd
            /\ Admin.orders s' = Admin.orders s /\ Admin.svcs s' = Admin.svcs s)
      /\ (forall ud pd od,
            body_at w reqs 0 = Some ud -> body_at w reqs 1 = Some pd ->
            body_at w reqs 2 = Some od -> body_at w reqs 3 = None ->
            out = Thrown SyntaxError
            /\ Admin.users s' = ud /\ Admin.products s' = pd
            /\ Admin.orders s' = od /\ Admin.svcs s' = Admin.svcs s)).
Proof.
  intros Hadmin reqs. unfold Admin.load. rewrite Hadmin. cbn [negb].
  unfold Admin.setUsers, Admin.setProducts, Admin.setOrders, Admin.setSvcs.
  subst reqs. unfold lost, answered_at, body_at, answer_at, admin_requests,
    authorized, plain. cbn [firstn].
  run_eff. cbn [log Eff.with_log API server].
  rewrite <- !List.app_assoc. cbn [app].
  by_answers w; cbn; by_bodies; cbn; load_cases;
    try (destruct s; reflexivity).
Qed.

Lemma X16_admin_load_witness :
  let '(out, s', w') :=
    Admin.load Sample.bearer Sample.admin Admin.initial
      (Sample.world Sample.empty_lists) in
  map url (log w')
  = ["http://localhost:8000/admin/users"; "http://localhost:8000/products";
     "http://localhost:8000/admin/orders"; "http://localhost:8000/admin/services"]
  /\ out = Done tt
  /\ Admin.users s' = JArr [].
Proof.
  pose proof (X16_admin_load Sample.bearer Sample.admin Admin.initial
                (Sample.world Sample.empty_lists) eq_refl) as H.
  cbv zeta in H.
  destruct (Admin.load Sample.bearer Sample.admin Admin.initial
              (Sample.world Sample.empty_lists)) as [[out s'] w'].
  destruct H as (Hlog & _ & _ & _ & _ & _ & Hok & _).
  destruct (Hok (JArr []) (JArr []) (JArr []) (JArr [])
              eq_refl eq_refl eq_refl eq_refl) as (Ho & Hu & _).
  rewrite Hlog. repeat split; assumption.
Defined.

(** X17. Paying in variant 1.  [pay] posts the fixed amount 19.99, does
    not look at the response, reloads the four lists of the dashboard
    and then says "Payment successful": it says so for every answered
    payment request, a refused one included, once the four bodies of the
    reload are JSON; the lists are then these bodies. *)
Theorem X17_pay_says_successful tok s w cd ad sd bd :
  let preq := pay_request w tok in
  let w1 := after w preq in
  let reqs := dashboard_requests w1 tok in
  answered w preq ->
  body_at w1 reqs 0 = Some cd -> body_at w1 reqs 1 = Some ad ->
  body_at w1 reqs 2 = Some sd -> body_at w1 reqs 3 = Some bd ->
  let '(out, s', w') := Dashboard1.pay tok s w in
  out = Done tt
  /\ log w' = (log w ++ preq :: reqs)%list
  /\ alerts w' = (alerts w ++ ["Payment successful"])%list
  /\ s' = {| Dashboard1.tab := Dashboard1.tab s; Dashboard1.cameras := cd;
             Dashboard1.alerts_list := ad; Dashboard1.services := sd;
             Dashboard1.subscription := bd |}
  /\ body preq
     = Some ("{" +:+ JSON.QuoteJSONString "amount" +:+ ":19.99,"
             +:+ JSON.QuoteJSONString "description" +:+ ":"
             +:+ JSON.QuoteJSONString "Monthly subscription" +:+ "}").
Proof.
  intros preq w1 reqs (ok & text & Hpay). subst reqs w1 preq.
  unfold Dashboard1.pay, Dashboard1.load.
  unfold Dashboard1.setCameras, Dashboard1.setAlerts, Dashboard1.setServices,
    Dashboard1.setSubscription.
  unfold body_at, answer_at, dashboard_requests, pay_request, after,
    authorized in *.
  cbn [firstn log Eff.with_log API server].
  run_eff. cbn [log Eff.with_log API server]. rewrite Hpay. cbn.
  rewrite <- !List.app_assoc. cbn [app].
  by_answers w; cbn; try discriminate; by_bodies; cbn; try discriminate.
  intros [= <-] [= <-] [= <-] [= <-]. repeat split.
Qed.

Lemma X17_pay_says_successful_witness :
  let '(out, s', w') :=
    Dashboard1.pay Sample.bearer Dashboard1.initial
      (Sample.world Sample.refusing) in
  out = Done tt /\ alerts w' = ["Payment successful"].
Proof.
  pose proof (X17_pay_says_successful Sample.bearer Dashboard1.initial
                (Sample.world Sample.refusing)
                (JArr []) (JArr []) (JArr []) (JArr [])) as H.
  cbv zeta in H.
  specialize (H (ex_intro _ false (ex_intro _ Sample.empty_list_text eq_refl))
                eq_refl eq_refl eq_refl eq_refl).
  destruct (Dashboard1.pay Sample.bearer Dashboard1.initial
              (Sample.world Sample.refusing)) as [[out s'] w'].
  destruct H as (Ho & _ & Ha & _). split; assumption.
Defined.

End LoadFacts.

(** ** The handlers of the panels at their edges *)

Module HandlerFacts.
Import Number JS View Sent Loads ReloadFacts.

(** X18. A lost request stops a handler cleanly.  When the request an
    action sends first gets no response, the action throws the failure
    of [fetch] with that single request sent and nothing else done: no
    reload, no message, no change of the lists or of the forms (the
    camera form and the product form keep their input, the alert text
    stays), and the cart and its storage entry are kept. *)
Theorem X18_lost_request (tok usr : JSValue) (w : World) :
  (forall cl s d onAdded,
      let req := authorized w "POST" "/cameras" tok (AddCameraCard.camera_body cl) in
      server w (log w ++ [req])%list = NetworkError ->
      AddCameraCard.add tok cl onAdded (s, d) w
      = (Thrown FetchFailed, (s, d), after w req))
  /\ (forall c rest s,
        let req := authorized w "POST" "/services" tok
                     (Dashboard1.service_body (String c rest)) in
        server w (log w ++ [req])%list = NetworkError ->
        Dashboard1.createService tok (Some (String c rest)) s w
        = (Thrown FetchFailed, s, after w req))
  /\ (forall s,
        let req := pay_request w tok in
        server w (log w ++ [req])%list = NetworkError ->
        Dashboard1.pay tok s w = (Thrown FetchFailed, s, after w req))
  /\ (forall cl s,
        let req := authorized w "POST" "/admin/alerts" tok (Admin1.alert_body cl) in
        server w (log w ++ [req])%list = NetworkError ->
        Admin1.sendAlert tok cl s w = (Thrown FetchFailed, s, after w req))
  /\ (forall c rest s,
        let req := authorized w "POST" "/services" tok
                     (Services.book_body (String c rest)) in
        server w (log w ++ [req])%list = NetworkError ->
        Services.book tok (Some (String c rest)) s w
        = (Thrown FetchFailed, s, after w req))
  /\ (forall plan s,
        let req := authorized w "POST" "/subscription" tok (Account.plan_body plan) in
        server w (log w ++ [req])%list = NetworkError ->
        Account.changePlan tok plan s w = (Thrown FetchFailed, s, after w req))
  /\ (forall cl s,
        let req := authorized w "POST" "/admin/products" tok
                     (Admin.product_body (Admin.pForm cl)) in
        server w (log w ++ [req])%list = NetworkError ->
        Admin.createProduct tok usr cl s w = (Thrown FetchFailed, s, after w req))
  /\ (forall id s,
        let req := authorized w "DELETE" ("/admin/products/" +:+ ToString id)
                     tok None in
        server w (log w ++ [req])%list = NetworkError ->
        Admin.deleteProduct tok usr id s w = (Thrown FetchFailed, s, after w req))
  /\ (forall id status s,
        let req := authorized w "PATCH" ("/admin/orders/" +:+ ToString id) tok
                     (Admin.status_body status) in
        server w (log w ++ [req])%list = NetworkError ->
        Admin.updateOrderStatus tok usr id status s w
        = (Thrown FetchFailed, s, after w req))
  /\ (forall cl s,
        let req := authorized w "POST" "/orders" tok (Cart.order_body cl) in
        items cl <> [] ->
        server w (log w ++ [req])%list = NetworkError ->
        Cart.placeOrder tok cl s w = (Thrown FetchFailed, s, after w req)).
Proof.
  repeat split.
  - intros cl s d onAdded req H. subst req. unfold AddCameraCard.add.
    lost_request H.
  - intros c rest s req H. subst req. unfold Dashboard1.createService.
    cbn [nonempty negb]. lost_request H.
  - intros s req H. subst req. unfold Dashboard1.pay, pay_request in *.
    lost_request H.
  - intros cl s req H. subst req. unfold Admin1.sendAlert. lost_request H.
  - intros c rest s req H. subst req. unfold Services.book.
    cbn [nonempty negb]. lost_request H.
  - intros plan s req H. subst req. unfold Account.changePlan. lost_request H.
  - intros cl s req H. subst req. unfold Admin.createProduct. lost_request H.
  - intros id s req H. subst req. unfold Admin.deleteProduct. lost_request H.
  - intros id status s req H. subst req. unfold Admin.updateOrderStatus.
    lost_request H.
  - intros cl s req Hne H. subst req. unfold Cart.placeOrder.
    destruct (items cl) as [| i l] eqn:E; [congruence |]. lost_request H.
Qed.

Lemma log_grows (l : list Request) r rest : l <> (l ++ r :: rest)%list.
Proof.
  intros H. apply (f_equal (@length Request)) in H.
  rewrite List.length_app in H. cbn in H. lia.
Qed.

(** The log after a batch of requests started one after the other. *)
Lemma services_load_log tok s w :
  log (Services.load tok s w).2
  = (log w ++ [authorized w "GET" "/services" tok None])%list.
Proof.
  unfold Services.load, Services.setServices, authorized. run_eff.
  destruct (server w _) as [| ok text]; [reflexivity |]. cbn.
  destruct (JSON.parse text); reflexivity.
Qed.

Lemma dashboard_load_log tok s w :
  log (Dashboard1.load tok s w).2 = (log w ++ dashboard_requests w tok)%list.
Proof.
  unfold Dashboard1.load, Dashboard1.setCameras, Dashboard1.setAlerts,
    Dashboard1.setServices, Dashboard1.setSubscription, dashboard_requests,
    authorized.
  run_eff. cbn [log Eff.with_log API server].
  rewrite <- !List.app_assoc. cbn [app].
  repeat match goal with
         | |- context [server w ?l] => destruct (server w l) as [| ? ?]
         end; cbn;
  repeat match goal with
         | |- context [JSON.parse ?t] => destruct (JSON.parse t)
         end; reflexivity.
Qed.

(** The texts of the two booking requests and what they say. *)
Lemma booking_text kind address :
  JSON.stringify
    (JObj [("service_type", JStr kind); ("address", JStr address)])
  = Some ("{" +:+ JSON.QuoteJSONString "service_type" +:+ ":"
          +:+ JSON.QuoteJSONString kind +:+ ","
          +:+ JSON.QuoteJSONString "address" +:+ ":"
          +:+ JSON.QuoteJSONString address +:+ "}").
Proof. cbn. rewrite !CharsFacts.app_assoc. reflexivity. Qed.

Lemma booking_text_parses kind address t :
  JSON.stringify
    (JObj [("service_type", JStr kind); ("address", JStr address)]) = Some t ->
  JSON.parse t
  = Some (JObj [("service_type", JStr kind); ("address", JStr address)]).
Proof.
  apply AuthMore.object_text_parses.
  - refine (@bool_decide_unpack _ (NoDup_dec _) _). vm_compute. exact I.
  - reflexivity.
  - repeat (apply List.Forall_cons; [eexists; reflexivity |]).
    apply List.Forall_nil.
Qed.

(** The request that books a service of the kind [kind] at [address]. *)
Lemma booking_request w tok kind address payload :
  payload
  = JSON.stringify
      (JObj [("service_type", JStr kind); ("address", JStr address)]) ->
  authorized w "POST" "/services" tok payload
  = {| method := "POST"; url := API w +:+ "/services";
       headers := [("Content-Type", "application/json");
                   ("Authorization", "Bearer " +:+ ToString tok)];
       body := Some ("{" +:+ JSON.QuoteJSONString "service_type" +:+ ":"
                     +:+ JSON.QuoteJSONString kind +:+ ","
                     +:+ JSON.QuoteJSONString "address" +:+ ":"
                     +:+ JSON.QuoteJSONString address +:+ "}") |}.
Proof. intros ->. unfold authorized. now rewrite booking_text. Qed.

(** X19. Booking needs an address.  In both variants the booking action
    sends something exactly when the prompt returned a non-empty text:
    when the prompt was cancelled or left empty, it ends normally with
    nothing sent, said or changed; with an address the first request it
    sends is a POST to /services with the bearer token, whose body is the
    JSON text of an object with the service type (installation in variant
    2, maintenance in variant 1) and that address. *)
Theorem X19_booking_needs_address (tok : JSValue) (answer : option string) :
  (forall kind address,
      JSON.parse ("{" +:+ JSON.QuoteJSONString "service_type" +:+ ":"
                  +:+ JSON.QuoteJSONString kind +:+ ","
                  +:+ JSON.QuoteJSONString "address" +:+ ":"
                  +:+ JSON.QuoteJSONString address +:+ "}")
      = Some (JObj [("service_type", JStr kind); ("address", JStr address)]))
  /\ (forall s w,
      let '(out, s', w') := Services.book tok answer s w in
      (log w' = log w <-> answer = None \/ answer = Some EmptyString)
      /\ (log w' = log w -> out = Done tt /\ s' = s /\ w' = w)
      /\ (forall address, answer = Some address -> address <> EmptyString ->
          exists rest,
            log w'
            = (log w
               ++ {| method := "POST"; url := API w +:+ "/services";
                     headers := [("Content-Type", "application/json");
                                 ("Authorization", "Bearer " +:+ ToString tok)];
                     body :=
                       Some ("{" +:+ JSON.QuoteJSONString "service_type" +:+ ":"
                             +:+ JSON.QuoteJSONString "installation" +:+ ","
                             +:+ JSON.QuoteJSONString "address" +:+ ":"
                             +:+ JSON.QuoteJSONString address +:+ "}") |}
               :: rest)%list))
  /\ (forall s w,
        let '(out, s', w') := Dashboard1.createService tok answer s w in
        (log w' = log w <-> answer = None \/ answer = Some EmptyString)
        /\ (log w' = log w -> out = Done tt /\ s' = s /\ w' = w)
        /\ (forall address, answer = Some address -> address <> EmptyString ->
            exists rest,
              log w'
              = (log w
                 ++ {| method := "POST"; url := API w +:+ "/services";
                       headers := [("Content-Type", "application/json");
                                   ("Authorization", "Bearer " +:+ ToString tok)];
                       body :=
                         Some ("{" +:+ JSON.QuoteJSONString "service_type" +:+ ":"
                               +:+ JSON.QuoteJSONString "maintenance" +:+ ","
                               +:+ JSON.QuoteJSONString "address" +:+ ":"
                               +:+ JSON.QuoteJSONString address +:+ "}") |}
                 :: rest)%list)).
Proof.
  split; [| split; intros s w].
  - intros kind address. apply booking_text_parses. apply booking_text.
  - unfold Services.book. destruct answer as [[| c r] |]; cbn [nonempty negb].
    + cbn. repeat split; auto. intros a [= <-] H. congruence.
    + assert (Hlog : exists rest,
                log (Eff.bind
                       (Eff.fetch "POST" "/services" (Auth.auth_headers tok)
                          (Services.book_body (String c r)))
                       (fun _ => Services.load tok) s w).2
                = (log w ++ authorized w "POST" "/services" tok
                              (Services.book_body (String c r)) :: rest)%list).
      { cbv [Eff.bind Eff.fetch Eff.start Eff.settle Eff.send Eff.ret Eff.throw].
        fold (authorized w "POST" "/services" tok (Services.book_body (String c r))).
        destruct (server w _) as [| ok text]; [exists []; reflexivity |].
        rewrite services_load_log. cbn [log Eff.with_log API].
        rewrite <- List.app_assoc. eexists. reflexivity. }
      rewrite (booking_request w tok "installation" (String c r)
                 (Services.book_body (String c r)) eq_refl) in Hlog.
      destruct (Eff.bind _ _ s w) as [[out s'] w']. cbn [snd] in Hlog.
      destruct Hlog as [rest Hlog]. split; [| split].
      * split; [| intros [H | H]; discriminate].
        intros H. rewrite H in Hlog. now apply log_grows in Hlog.
      * intros H. rewrite H in Hlog. now apply log_grows in Hlog.
      * intros a [= <-] _. now exists rest.
    + cbn. repeat split; auto. intros a [=].
  - unfold Dashboard1.createService.
    destruct answer as [[| c r] |]; cbn [nonempty negb].
    + cbn. repeat split; auto. intros a [= <-] H. congruence.
    + assert (Hlog : exists rest,
                log (Eff.bind
                       (Eff.fetch "POST" "/services" (Auth.auth_headers tok)
                          (Dashboard1.service_body (String c r)))
                       (fun _ => Dashboard1.load tok) s w).2
                = (log w ++ authorized w "POST" "/services" tok
                              (Dashboard1.service_body (String c r)) :: rest)%list).
      { cbv [Eff.bind Eff.fetch Eff.start Eff.settle Eff.send Eff.ret Eff.throw].
        fold (authorized w "POST" "/services" tok
                (Dashboard1.service_body (String c r))).
        destruct (server w _) as [| ok text]; [exists []; reflexivity |].
        rewrite dashboard_load_log. cbn [log Eff.with_log API].
        rewrite <- List.app_assoc. eexists. reflexivity. }
      rewrite (booking_request w tok "maintenance" (String c r)
                 (Dashboard1.service_body (String c r)) eq_refl) in Hlog.
      destruct (Eff.bind _ _ s w) as [[out s'] w']. cbn [snd] in Hlog.
      destruct Hlog as [rest Hlog]. split; [| split].
      * split; [| intros [H | H]; discriminate].
        intros H. rewrite H in Hlog. now apply log_grows in Hlog.
      * intros H. rewrite H in Hlog. now apply log_grows in Hlog.
      * intros a [= <-] _. now exists rest.
    + cbn. repeat split; auto. intros a [=].
Qed.

(** X22. The buttons of the cart panel.  Whatever the cart, the panel
    offers for each line, in order, a minus, a plus and a remove button
    that carry the product id of that line, and then the place order
    button; nothing but place order is ever disabled, and place order is
    disabled exactly when the cart is empty. *)
Theorem X22_cart_buttons (st : CartState) :
  handlers (CartPanel.render st)
  = (flat_map line_handlers (items st) ++ [PlaceOrder])%list
  /\ disabled_buttons (CartPanel.render st)
     = (if bool_decide (items st = []) then [PlaceOrder] else []).
Proof.
  unfold CartPanel.render.
  destruct (CartView.summary_text (items st)) as [[sub tax] total].
  unfold CartPanel.lines. cbn [handlers disabled_buttons flat_map app].
  rewrite !List.app_nil_r.
  assert (Hh0 : forall l,
             flat_map handlers (map CartPanel.row l) = flat_map line_handlers l).
  { induction l as [| i l IH]; cbn [map flat_map]; [reflexivity |].
    rewrite IH. unfold CartPanel.row at 1.
    destruct (image i) as [u |]; [destruct (nonempty u) |]; reflexivity. }
  assert (Hd : forall l, flat_map disabled_buttons (map CartPanel.row l) = []).
  { induction l as [| i l IH]; cbn [map flat_map]; [reflexivity |].
    rewrite IH. unfold CartPanel.row.
    destruct (image i) as [u |]; [destruct (nonempty u) |]; reflexivity. }
  destruct (items st) as [| i l] eqn:E.
  - split; reflexivity.
  - rewrite List.app_nil_r. rewrite Hh0, Hd. split; reflexivity.
Qed.

End HandlerFacts.

(** ** The product form and the rows of the admin panel *)

Module AdminFacts.
Import Number JS View Builtins Texts CharsFacts.

Lemma rev_string_app s acc :
  rev_string s acc = rev_string s EmptyString +:+ acc.
Proof.
  revert acc. induction s as [| c s IH]; intros acc; cbn [rev_string].
  - now rewrite app_nil_l.
  - rewrite (IH (String c acc)), (IH (String c EmptyString)).
    now rewrite app_assoc, app_cons, app_nil_l.
Qed.

Lemma rev_app s t :
  rev_string (s +:+ t) EmptyString
  = rev_string t EmptyString +:+ rev_string s EmptyString.
Proof.
  induction s as [| c s IH].
  - now rewrite app_nil_l, app_nil_r.
  - rewrite app_cons. cbn [rev_string].
    rewrite (rev_string_app (s +:+ t)), IH, (rev_string_app s (String c _)).
    now rewrite app_assoc.
Qed.

Lemma rev_rev s : rev_string (rev_string s EmptyString) EmptyString = s.
Proof.
  induction s as [| c s IH]; [reflexivity |]. cbn [rev_string].
  rewrite (rev_string_app s), rev_app, IH. reflexivity.
Qed.

Lemma contains_app c s t : contains c (s +:+ t) = contains c s || contains c t.
Proof.
  induction s as [| x s IH]; [now rewrite app_nil_l |].
  rewrite app_cons. cbn [contains]. rewrite IH. now rewrite orb_assoc.
Qed.

Lemma contains_rev c s : contains c (rev_string s EmptyString) = contains c s.
Proof.
  induction s as [| x s IH]; [reflexivity |]. cbn [rev_string contains].
  rewrite rev_string_app, contains_app, IH. cbn [contains].
  rewrite orb_false_r. apply orb_comm.
Qed.

(** [trim_start] drops a prefix of white space and stops in front of
    another character. *)
Lemma trim_start_spec s :
  exists p, s = p +:+ trim_start s /\ all_space p = true
            /\ not_space (first_char (trim_start s)) = true.
Proof.
  induction s as [| c s (p & Hs & Hp & Hf)]; [exists EmptyString; now repeat split |].
  cbn [trim_start]. destruct (is_space c) eqn:E.
  - exists (String c p). rewrite app_cons, <- Hs. cbn [all_space].
    rewrite E, Hp. now repeat split.
  - exists EmptyString. rewrite app_nil_l. cbn. now rewrite E.
Qed.

Lemma first_char_app s t :
  s <> EmptyString -> first_char (s +:+ t) = first_char s.
Proof. destruct s; [congruence | now rewrite app_cons]. Qed.

Lemma rev_empty s : rev_string s EmptyString = EmptyString -> s = EmptyString.
Proof. intros H. rewrite <- (rev_rev s), H. reflexivity. Qed.

(** What [trim] returns: no comma where there was none, and no white
    space at either end. *)
Lemma trim_clean x :
  contains "," x = false -> nonempty (trim x) = true -> clean (trim x) = true.
Proof.
  intros Hc Hne. unfold clean. rewrite Hne. cbn [andb].
  unfold trim in *.
  destruct (trim_start_spec x) as (p & Hx & _ & Hfy).
  set (y := trim_start x) in *.
  destruct (trim_start_spec (rev_string y EmptyString)) as (q & Hy & _ & Hfz).
  set (z := trim_start (rev_string y EmptyString)) in *.
  assert (Hz : z <> EmptyString) by (intros E; rewrite E in Hne; discriminate).
  assert (Hrz : rev_string z EmptyString <> EmptyString)
    by (intros E; apply Hz; now apply rev_empty).
  assert (Hyz : y = rev_string z EmptyString +:+ rev_string q EmptyString).
  { rewrite <- (rev_rev y), Hy, rev_app. reflexivity. }
  assert (Hcy : contains "," y = false).
  { rewrite Hx, contains_app in Hc. now apply orb_false_iff in Hc as [_ Hc]. }
  assert (Hcz : contains "," (rev_string z EmptyString) = false).
  { rewrite Hyz, contains_app in Hcy. now apply orb_false_iff in Hcy as [Hcy _]. }
  rewrite Hcz. cbn [negb andb].
  unfold last_char. rewrite rev_rev, Hfz, andb_true_r.
  rewrite Hyz, (first_char_app _ _ Hrz) in Hfy. exact Hfy.
Qed.

(** The pieces of [split(',')] hold no comma. *)
Lemma split_commas_pieces s cur :
  contains "," cur = false ->
  Forall (fun u => contains "," u = false) (split_commas s cur).
Proof.
  revert cur. induction s as [| c s IH]; intros cur Hcur; cbn [split_commas].
  - apply Forall_cons. split; [now rewrite contains_rev | constructor].
  - destruct (Ascii.eqb c ",") eqn:E.
    + apply Forall_cons. split; [now rewrite contains_rev | now apply IH].
    + apply IH. cbn [contains]. now rewrite E.
Qed.

Lemma split_commas_join s cur :
  join "," (split_commas s cur) = rev_string cur EmptyString +:+ s.
Proof.
  revert cur. induction s as [| c s IH]; intros cur; cbn [split_commas].
  - cbn [join]. now rewrite app_nil_r.
  - destruct (Ascii.eqb c ",") eqn:E.
    + apply Ascii.eqb_eq in E. subst c.
      assert (Hj : forall a l, l <> [] ->
                  join "," (a :: l) = a +:+ "," +:+ join "," l).
      { intros a [| b l] H; [congruence | reflexivity]. }
      rewrite Hj, IH; [now rewrite app_nil_l |].
      destruct s; cbn [split_commas]; [discriminate |].
      destruct (Ascii.eqb _ _); [discriminate |].
      clear. generalize (String a EmptyString). revert a.
      induction s as [| c s IHs]; intros a cur; cbn [split_commas];
        [discriminate |].
      destruct (Ascii.eqb c ","); [discriminate | apply (IHs c)].
    + rewrite IH. cbn [rev_string]. rewrite (rev_string_app cur).
      now rewrite app_assoc, app_cons, app_nil_l.
Qed.

Lemma trim_start_all_space t : all_space t = true -> trim_start t = EmptyString.
Proof.
  induction t as [| a t IH]; [reflexivity |]. cbn.
  intros H. apply andb_true_iff in H as [Ha Ht]. rewrite Ha. now apply IH.
Qed.

Lemma trim_all_space t : all_space t = true -> trim t = EmptyString.
Proof. intros H. unfold trim. now rewrite (trim_start_all_space t H). Qed.

Lemma rev_all_space t acc :
  all_space t = true -> all_space acc = true ->
  all_space (rev_string t acc) = true.
Proof.
  revert acc. induction t as [| a t IH]; intros acc Ht Hacc; [exact Hacc |].
  cbn in *. apply andb_true_iff in Ht as [Ha Ht].
  apply IH; [exact Ht |]. cbn. now rewrite Ha, Hacc.
Qed.

Lemma split_blank s cur :
  Forall (fun c => is_space c = true \/ c = ","%char) (list_ascii_of_string s) ->
  all_space cur = true ->
  List.filter nonempty (map trim (split_commas s cur)) = [].
Proof.
  revert cur. induction s as [| c s IH]; intros cur Hs Hcur; cbn [split_commas].
  - cbn [map List.filter].
    rewrite trim_all_space; [reflexivity | now apply rev_all_space].
  - cbn [list_ascii_of_string] in Hs. apply Forall_cons in Hs as [Hc Hs].
    destruct (Ascii.eqb c ",") eqn:E.
    + cbn [map List.filter]. rewrite trim_all_space by now apply rev_all_space.
      cbn [nonempty]. now apply IH.
    + destruct Hc as [Hc | ->]; [| now rewrite Ascii.eqb_refl in E].
      apply IH; [exact Hs |]. cbn. now rewrite Hc, Hcur.
Qed.

(** X23. The images of a new product.  From the text of the images
    field [createProduct] sends a list in which every entry is not empty,
    holds no comma and neither starts nor ends with white space; an empty
    field, or one of commas and blanks only, sends the empty list; and
    splitting loses nothing else: the pieces before trimming, joined by
    commas, are the text of the field. *)
Theorem X23_images_sent (f : Admin.ProductForm) :
  Forall (fun u => clean u = true) (images_sent f)
  /\ (Forall (fun c => is_space c = true \/ c = ","%char)
        (list_ascii_of_string (Admin.f_images f)) ->
      images_sent f = [])
  /\ join "," (split_commas (Admin.f_images f) EmptyString) = Admin.f_images f.
Proof.
  unfold images_sent, split_trimmed. split; [| split].
  - apply List.Forall_forall. intros u Hu.
    apply List.filter_In in Hu as [Hu Hne].
    apply List.in_map_iff in Hu as (x & <- & Hx).
    apply trim_clean; [| exact Hne].
    pose proof (split_commas_pieces (Admin.f_images f) EmptyString eq_refl) as H.
    rewrite List.Forall_forall in H. now apply H.
  - intros Hs. now apply split_blank.
  - rewrite split_commas_join. now rewrite app_nil_l.
Qed.

(** A value rendered as a child holds no button. *)
Lemma child_no_handlers v l : child v = Some l -> flat_map handlers l = [].
Proof.
  revert l. induction v as [| | b | x | s | items IH | fields IH]
    using JSONStable.JSValue_nested_ind; cbn [child]; intros l H;
    try (injection H as <-; reflexivity); [| discriminate].
  revert l H. induction IH as [| e r He Hr IHr]; intros l H.
  - injection H as <-. reflexivity.
  - destruct (child e) as [a |]; [| discriminate].
    match type of H with
    | match ?g with _ => _ end = _ => destruct g as [b |] eqn:Eg
    end; [| discriminate].
    injection H as <-. rewrite List.flat_map_app, (He a eq_refl), (IHr b eq_refl).
    reflexivity.
Qed.

Lemma fixed_opt_no_handlers v l :
  fixed_opt v = Some l -> flat_map handlers l = [].
Proof. destruct v; cbn; intros [= <-]; reflexivity. Qed.

Ltac quiet_children :=
  repeat first
    [ rewrite List.flat_map_app
    | progress cbn [handlers flat_map app]
    | match goal with
      | H : child _ = Some ?l |- context [flat_map handlers ?l] =>
          rewrite (child_no_handlers _ _ H)
      | H : fixed_opt _ = Some ?l |- context [flat_map handlers ?l] =>
          rewrite (fixed_opt_no_handlers _ _ H)
      end ].

Ltac open_row H :=
  repeat match type of H with
         | mbind _ ?m = _ => destruct m eqn:?; cbn [mbind option_bind] in H;
                             [| discriminate]
         end;
  injection H as <-.

Lemma product_row_handlers p e :
  Admin.product_row p = Some e ->
  handlers e = [DeleteProduct (opt_prop "_id" p)].
Proof.
  unfold Admin.product_row, opt_prop. intros H. open_row H.
  quiet_children. reflexivity.
Qed.

Lemma order_row_handlers date_text o e :
  Admin.order_row date_text o = Some e ->
  handlers e = map (UpdateOrderStatus (opt_prop "_id" o)) order_statuses.
Proof.
  unfold Admin.order_row, opt_prop. intros H. open_row H.
  quiet_children. reflexivity.
Qed.

Lemma rows_handlers (row : JSValue -> option Element) (h : JSValue -> list Handler) :
  (forall v e, row v = Some e -> handlers e = h v) ->
  forall l rows, mapM row l = Some rows ->
    flat_map handlers rows = flat_map h l.
Proof.
  intros Hrow. induction l as [| v l IH]; intros rows H.
  - injection H as <-. reflexivity.
  - change (mapM row (v :: l))
      with (y ← row v; k ← mapM row l; mret (y :: k)) in H.
    destruct (row v) as [e |] eqn:Ev; [| discriminate].
    destruct (mapM row l) as [k |]; [| discriminate].
    injection H as <-. cbn [flat_map]. now rewrite (Hrow v e Ev), (IH k eq_refl).
Qed.

(** X24. The buttons of the admin lists of variant 2.  When the panel of
    an admin renders, the products tab offers, after the four tab
    buttons, one delete button per product, in order, carrying the [_id]
    of that product, and then the create button; the orders tab offers
    for each order, in order, the five status buttons carrying the [_id]
    of that order. *)
Theorem X24_admin_row_buttons date_text usr st e :
  Admin.isAdmin usr = true ->
  Admin.render date_text usr st = Some e ->
  (forall l, Admin.tab st = "products" -> Admin.products st = JArr l ->
     handlers e
     = (admin_tabs ++ map (fun p => DeleteProduct (opt_prop "_id" p)) l
          ++ [CreateProduct])%list)
  /\ (forall l, Admin.tab st = "orders" -> Admin.orders st = JArr l ->
        handlers e
        = (admin_tabs
           ++ flat_map (fun o => map (UpdateOrderStatus (opt_prop "_id" o))
                                     order_statuses) l)%list).
Proof.
  unfold Admin.render. intros Hadmin. rewrite Hadmin. cbn [negb].
  unfold Admin.tab_view, Admin.list_view. intros H. split.
  - intros l Ht Hl. rewrite Ht, Hl in H. cbn [String.eqb Ascii.eqb Bool.eqb] in H.
    cbn [map_array] in H.
    destruct (mapM Admin.product_row l) as [rows |] eqn:Er;
      cbn [mbind option_bind] in H; [| discriminate].
    injection H as <-.
    pose proof (rows_handlers Admin.product_row
                  (fun p => [DeleteProduct (opt_prop "_id" p)])
                  product_row_handlers l rows Er) as Hr.
    assert (Hm : flat_map (fun p => [DeleteProduct (opt_prop "_id" p)]) l
                 = map (fun p => DeleteProduct (opt_prop "_id" p)) l).
    { clear. induction l as [| p l IH]; cbn; [reflexivity | now f_equal]. }
    cbn [handlers flat_map app]. rewrite !List.flat_map_app, Hr, Hm.
    destruct l; cbn; rewrite ?List.app_nil_r; reflexivity.
  - intros l Ht Hl. rewrite Ht, Hl in H. cbn [String.eqb Ascii.eqb Bool.eqb] in H.
    cbn [map_array] in H.
    destruct (mapM (Admin.order_row date_text) l) as [rows |] eqn:Er;
      cbn [mbind option_bind] in H; [| discriminate].
    injection H as <-.
    pose proof (rows_handlers (Admin.order_row date_text)
                  (fun o => map (UpdateOrderStatus (opt_prop "_id" o))
                                order_statuses)
                  (order_row_handlers date_text) l rows Er) as Hr.
    cbn [handlers flat_map app]. rewrite !List.flat_map_app, Hr.
    destruct l; cbn; rewrite ?List.app_nil_r; reflexivity.
Qed.

Lemma X24_admin_row_buttons_witness :
  exists e,
    Admin.render (fun _ => EmptyString) Sample.admin stocked = Some e
    /\ handlers e
       = (admin_tabs ++ [DeleteProduct (JStr "p1")] ++ [CreateProduct])%list.
Proof.
  destruct (Admin.render (fun _ => EmptyString) Sample.admin stocked)
    as [e |] eqn:E; [| vm_compute in E; discriminate].
  exists e. split; [reflexivity |].
  destruct (X24_admin_row_buttons (fun _ => EmptyString) Sample.admin stocked e
              eq_refl E) as [H _].
  exact (H _ eq_refl eq_refl).
Defined.

End AdminFacts.
